(** * The long-running CO2 monitor of [src/main.py], embedded in Rocq

    The Python class [ProductionCO2Monitor] is one mutable object driven by a
    single cooperative loop.  Its methods are embedded as computations over a
    record holding the object's attributes.  Everything the object does to the
    outside world (driver calls, log lines, sleeps, the reboot) is collected,
    in program order, in a list of events; everything the outside world
    answers (driver results, raised exceptions, the clock, free memory) is an
    explicit argument of the method that asks for it. *)

From Stdlib Require Import ZArith QArith List String Bool Lia.
From coqutil Require Import Datatypes.RecordSettersUsingExistingGetters.
Import ListNotations.
Local Open Scope string_scope.
Local Open Scope list_scope.
Local Open Scope Z_scope.

(** [s<|field := v|>] is the object [s] after the assignment
    [self.field = v]. *)
Arguments const {E} newValue _ /.

(** ** Configuration constants (module level of [main.py]) *)

Definition SENSOR_READ_INTERVAL : Z := 30.
Definition PUBLISH_INTERVAL : Z := 30.
Definition DISPLAY_SWITCH_INTERVAL : Z := 3.
Definition GC_INTERVAL : Z := 60.
Definition WATCHDOG_TIMEOUT : Z := 30000.
Definition SYSTEM_RESET_INTERVAL : Z := 86400.
Definition CONNECTION_RETRY_INTERVAL : Z := 300.

Definition MEMORY_WARNING_THRESHOLD : Z := 20000.
Definition MEMORY_CRITICAL_THRESHOLD : Z := 12000.
Definition MEMORY_EMERGENCY_THRESHOLD : Z := 8000.

Definition MAX_CONSECUTIVE_ERRORS : Z := 20.
Definition MAX_MQTT_FAILURES : Z := 10.
Definition MAX_SENSOR_FAILURES : Z := 15.

(** [LIBRARIES_STATUS]: which optional libraries were importable at start. *)
Record Libraries := {
  lib_ntptime : bool;
  lib_scd4x : bool;
  lib_tm1637 : bool;
  lib_umqtt : bool
}.

(** ** The object *)

(** A driver object is known by its identity only. *)
Definition handle := nat.

Record Monitor := {
  watchdog : option handle;
  wlan : option handle;
  mqtt_client : option handle;
  scd40 : option handle;
  display : option handle;
  mqtt_connected : bool;
  system_running : bool;
  startup_time : Z;
  last_sensor_read : Z;
  last_publish : Z;
  last_display_switch : Z;
  last_gc : Z;
  last_connection_check : Z;
  last_status_report : Z;
  last_preventive_reset : Z;
  co2_ppm : option Z;
  temperature_c : option Q;
  humidity_percent : option Q;
  thi_value : option Q;
  show_co2_mode : bool;
  sensor_error_count : Z;
  mqtt_error_count : Z;
  wifi_error_count : Z;
  system_error_count : Z;
  successful_readings : Z;
  successful_transmissions : Z
}.

(** [__init__]; [now] is what [time.time()] answers there. *)
Definition init_monitor (now : Z) : Monitor := {|
  watchdog := None;
  wlan := None;
  mqtt_client := None;
  scd40 := None;
  display := None;
  mqtt_connected := false;
  system_running := true;
  startup_time := now;
  last_sensor_read := 0;
  last_publish := 0;
  last_display_switch := 0;
  last_gc := 0;
  last_connection_check := 0;
  last_status_report := 0;
  last_preventive_reset := now;
  co2_ppm := None;
  temperature_c := None;
  humidity_percent := None;
  thi_value := None;
  show_co2_mode := true;
  sensor_error_count := 0;
  mqtt_error_count := 0;
  wifi_error_count := 0;
  system_error_count := 0;
  successful_readings := 0;
  successful_transmissions := 0
|}.

(** The stored reading: the four sensor attributes taken together. *)
Definition reading (s : Monitor) : option Z * option Q * option Q * option Q :=
  (co2_ppm s, temperature_c s, humidity_percent s, thi_value s).

(** ** What the object does to the outside world *)

Inductive Level := INFO | WARNING | ERROR | CRITICAL.

Inductive Topic := MQTT_TOPIC_CO2 | MQTT_TOPIC_SENSOR | MQTT_TOPIC_STATUS.

(** The combined sensor payload: a key is present iff its field is [Some]. *)
Record SensorPayload := {
  pl_timestamp : Z;
  pl_co2 : option Z;
  pl_temperature : option Q;
  pl_humidity : option Q;
  pl_thi : option Q
}.

Record StatusPayload := {
  sp_uptime : Z;
  sp_memory_free : Z;
  sp_successful_readings : Z;
  sp_successful_transmissions : Z;
  sp_sensor_errors : Z;
  sp_mqtt_errors : Z;
  sp_wifi_errors : Z;
  sp_timestamp : Z
}.

Inductive Payload :=
| PCo2 (co2 : Z)
| PSensor (p : SensorPayload)
| PStatus (p : StatusPayload).

(** What the 4-digit display is asked to show as text. *)
Inductive DisplayText :=
| TxtBlank            (* "    " *)
| TxtInit             (* "init" *)
| TxtHi (n : Z)       (* f"Hi{n:02d}" *)
| TxtHiDashes.        (* "Hi--" *)

Inductive Event :=
| EvLog (level : Level) (text : string) (args : list Z)
| EvGcCollect
| EvSleep (ms : Z)
| EvMachineReset
| EvWdtFeed
| EvWlanActive (on : bool)
| EvWlanConnect
| EvMqttConnect
| EvMqttDisconnect
| EvMqttPublish (topic : Topic) (payload : Payload)
| EvSensorStop
| EvSensorStart
| EvDisplayShow (text : DisplayText)
| EvDisplayNumber (n : Z)
| EvDisplayBrightness (n : Z)
| EvNtpSettime
| EvLed (on : bool).

(** ** Computations: state, emitted events, exceptions and the reboot *)

(** How a method invocation ends: it returns a value, an exception leaves
    it, or [machine.reset()] restarted the device in the middle of it. *)
Inductive Outcome (A : Type) :=
| Returned (a : A)
| Raised
| Rebooted.
Arguments Returned {A} a.
Arguments Raised {A}.
Arguments Rebooted {A}.

Record Res (A : Type) := mkRes {
  outcome : Outcome A;
  final : Monitor;          (* the object when the invocation ends *)
  out : list Event          (* what it did meanwhile, oldest first *)
}.
Arguments mkRes {A} outcome final out.
Arguments outcome {A} r.
Arguments final {A} r.
Arguments out {A} r.

Definition M (A : Type) : Type := Monitor -> Res A.

Definition ret {A} (a : A) : M A := fun s => mkRes (Returned a) s [].

Definition bind {A B} (m : M A) (k : A -> M B) : M B := fun s =>
  match m s with
  | mkRes (Returned a) s1 out1 =>
      match k a s1 with
      | mkRes o s2 out2 => mkRes o s2 (out1 ++ out2)
      end
  | mkRes Raised s1 out1 => mkRes Raised s1 out1
  | mkRes Rebooted s1 out1 => mkRes Rebooted s1 out1
  end.

Declare Scope monitor_scope.
Delimit Scope monitor_scope with mon.
Notation "x <- m ;; k" := (bind m (fun x => k))
  (at level 61, m at next level, right associativity) : monitor_scope.
Notation "m ;; k" := (bind m (fun _ => k))
  (at level 61, right associativity) : monitor_scope.
Local Open Scope monitor_scope.

Definition get : M Monitor := fun s => mkRes (Returned s) s [].
Definition modify (f : Monitor -> Monitor) : M unit :=
  fun s => mkRes (Returned tt) (f s) [].
Definition emit (ev : Event) : M unit := fun s => mkRes (Returned tt) s [ev].
Definition raise {A} : M A := fun s => mkRes Raised s [].

(** [try: m except Exception: h].  The assignments made before the
    exception stay; a reboot is not an exception. *)
Definition try_except {A} (m h : M A) : M A := fun s =>
  match m s with
  | mkRes Raised s1 out1 =>
      match h s1 with
      | mkRes o s2 out2 => mkRes o s2 (out1 ++ out2)
      end
  | r => r
  end.

(** A call into a driver: the call is made ([ev]) and either returns
    ([ok = true]) or raises. *)
Definition call (ev : Event) (ok : bool) : M unit :=
  emit ev;; if ok then ret tt else raise.

(** A call whose exception the caller swallows
    ([try: ... except Exception: pass]): both answers leave the same. *)
Definition call_swallowed (ev : Event) : M unit := emit ev.

(** A query of a driver: its answer, or [None] when it raises. *)
Definition query {A} (answer : option A) : M A :=
  match answer with
  | Some a => ret a
  | None => raise
  end.

Definition sleep (ms : Z) : M unit := emit (EvSleep ms).

(** [machine.reset()] does not return. *)
Definition machine_reset {A} : M A := fun s => mkRes Rebooted s [EvMachineReset].

(** [current_time - last >= interval], the test every periodic task makes. *)
Definition due (current_time last interval : Z) : bool :=
  current_time - last >=? interval.

(** ** Numbers *)

(** The sensor's temperature and humidity and the comfort index are Python
    floats; here they are exact rationals, so that the arithmetic of the
    formulas is the mathematical one.  The two differ where the exact value
    of a formula lies on, or within a float rounding error of, a tie of the
    rounding: there the float code may round the other way.  What is stated
    below of rounded values is stated at inputs away from such ties, or
    does not depend on the rounded value. *)

(** Rounding to the nearest integer, ties to the even one (the rule of
    Python's [round]). *)
Definition round_half_even (x : Q) : Z :=
  let n := Qnum x in
  let d := Zpos (Qden x) in
  let fl := n / d in
  match 2 * (n mod d) ?= d with
  | Lt => fl
  | Gt => fl + 1
  | Eq => if Z.even fl then fl else fl + 1
  end.

(** [round(x, ndigits)]. *)
Definition py_round (x : Q) (ndigits : nat) : Q :=
  let mult := Pos.pow 10 (Pos.of_nat ndigits) in
  match ndigits with
  | O => inject_Z (round_half_even x)
  | S _ => Qmake (round_half_even (x * inject_Z (Zpos mult))) mult
  end.

(** [int(x)]: truncation towards zero. *)
Definition py_int (x : Q) : Z := Z.quot (Qnum x) (Zpos (Qden x)).

(** Truth value of a float-or-None: [None] and [0.0] are falsy. *)
Definition truthy (v : option Q) : bool :=
  match v with
  | Some q => negb (Qeq_bool q 0)
  | None => false
  end.

Definition is_some {A} (o : option A) : bool :=
  match o with Some _ => true | None => false end.

(** ** The methods of [ProductionCO2Monitor] *)

(** [write_log]: one line [timestamp|level|message] is appended to the log
    file (deleted first when above [max_log_size]); every error is
    swallowed and no attribute of the object changes.  [args] are the
    numbers interpolated into the message. *)
Definition write_log (level : Level) (text : string) (args : list Z) : M unit :=
  emit (EvLog level text args).

(** [free_mem] is what [gc.mem_free()] answers after the three collections. *)
Definition memory_management_aggressive (free_mem : Z) : M Z :=
  emit EvGcCollect;; emit EvGcCollect;; emit EvGcCollect;;
  s <- get;;
  (if free_mem <? MEMORY_EMERGENCY_THRESHOLD then
     (match display s with
      | Some _ =>
          call_swallowed (EvDisplayShow TxtBlank);;
          modify (fun s => s<|display := None|>)
      | None => ret tt
      end);;
     write_log CRITICAL "EMERGENCY_RESET: Memory=" [free_mem];;
     sleep 1000;;
     machine_reset
   else if free_mem <? MEMORY_CRITICAL_THRESHOLD then
     (match mqtt_client s with
      | Some _ =>
          call_swallowed EvMqttDisconnect;;
          modify (fun s => s<|mqtt_client := None|>);;
          modify (fun s => s<|mqtt_connected := false|>)
      | None => ret tt
      end);;
     write_log WARNING "MEMORY_CRITICAL: " [free_mem]
   else if free_mem <? MEMORY_WARNING_THRESHOLD then
     write_log WARNING "MEMORY_WARNING: " [free_mem]
   else ret tt);;
  ret free_mem.

Definition feed_watchdog_safe : M unit :=
  s <- get;;
  match watchdog s with
  | Some _ => call_swallowed EvWdtFeed
  | None => ret tt
  end.

(** [wdt]: the timer [WDT(timeout=WATCHDOG_TIMEOUT)] returns, or [None]
    when it raises. *)
Definition init_watchdog (wdt : option handle) : M bool :=
  try_except
    (w <- query wdt;;
     modify (fun s => s<|watchdog := Some w|>);;
     write_log INFO "Watchdog initialized" [];;
     ret true)
    (write_log ERROR "Watchdog init failed" [];;
     ret false).

(** On numbers the arithmetic of the formula does not raise, so the
    [except] clause has nothing to catch. *)
Definition calculate_thi_efficient (temp humid : option Q) : option Q :=
  match temp, humid with
  | Some temp, Some humid =>
      Some (py_round (0.81 * temp + 0.01 * humid * (0.99 * temp - 14.3) + 46.3)%Q 1)
  | _, _ => None
  end.

(** What the wireless driver answers during one [connect_wifi_robust]. *)
Record WifiEnv := {
  w_new : option handle;        (* network.WLAN(network.STA_IF) *)
  w_activate : bool;            (* active(True) on the new interface returns *)
  w_isconnected : option bool;  (* isconnected() before any reset *)
  w_down : bool;                (* active(False) returns *)
  w_up : bool;                  (* active(True) returns *)
  w_connect : bool;             (* connect(ssid, password) returns *)
  w_poll : nat -> option bool;  (* isconnected() in the i-th second of the wait *)
  w_ifconfig : bool             (* ifconfig() returns *)
}.

(** The [for _ in range(30)] wait with [n] rounds left, [i] done: [true]
    when it left through [return True], [false] when the range ran out. *)
Fixpoint wifi_wait (e : WifiEnv) (i n : nat) : M bool :=
  match n with
  | O => ret false
  | S n' =>
      c <- query (w_poll e i);;
      if c : bool then
        (if w_ifconfig e then ret tt else raise);;
        write_log INFO "WiFi connected: " [];;
        modify (fun s => s<|wifi_error_count := 0|>);;
        ret true
      else
        sleep 1000;;
        feed_watchdog_safe;;
        wifi_wait e (S i) n'
  end.

Definition connect_wifi_robust (e : WifiEnv) : M bool :=
  try_except
    (s <- get;;
     (match wlan s with
      | Some _ => ret tt
      | None =>
          w <- query (w_new e);;
          modify (fun s => s<|wlan := Some w|>);;
          call (EvWlanActive true) (w_activate e)
      end);;
     c <- query (w_isconnected e);;
     if c : bool then ret true
     else
       call (EvWlanActive false) (w_down e);;
       sleep 1000;;
       call (EvWlanActive true) (w_up e);;
       sleep 1000;;
       call EvWlanConnect (w_connect e);;
       joined <- wifi_wait e 0 30;;
       if joined : bool then ret true
       else
         modify (fun s => s<|wifi_error_count := wifi_error_count s + 1|>);;
         s <- get;;
         write_log ERROR "WiFi timeout (attempt )" [wifi_error_count s];;
         ret false)
    (modify (fun s => s<|wifi_error_count := wifi_error_count s + 1|>);;
     write_log ERROR "WiFi error: " [];;
     ret false).

(** [ntp]: [import ntptime; ntptime.settime()] returns. *)
Definition sync_time_safe (libs : Libraries) (ntp : bool) : M bool :=
  if negb (lib_ntptime libs) then ret false
  else
    try_except
      (call EvNtpSettime ntp;;
       write_log INFO "NTP synced" [];;
       ret true)
      (write_log WARNING "NTP failed: " [];;
       ret false).

(** What the broker client answers during one [connect_mqtt_robust]. *)
Record MqttEnv := {
  m_new : option handle;   (* the import and MQTTClient(...): the new client *)
  m_connect : bool         (* connect() returns *)
}.

Definition connect_mqtt_robust (libs : Libraries) (e : MqttEnv) : M bool :=
  if negb (lib_umqtt libs) then ret false
  else
    try_except
      (s <- get;;
       (match mqtt_client s with
        | Some _ =>
            call_swallowed EvMqttDisconnect;;
            modify (fun s => s<|mqtt_client := None|>)
        | None => ret tt
        end);;
       c <- query (m_new e);;
       modify (fun s => s<|mqtt_client := Some c|>);;
       call EvMqttConnect (m_connect e);;
       modify (fun s => s<|mqtt_connected := true|>);;
       modify (fun s => s<|mqtt_error_count := 0|>);;
       write_log INFO "MQTT connected" [];;
       ret true)
      (modify (fun s => s<|mqtt_error_count := mqtt_error_count s + 1|>);;
       modify (fun s => s<|mqtt_connected := false|>);;
       s <- get;;
       write_log ERROR "MQTT error (count ): " [mqtt_error_count s];;
       ret false).

(** What the sensor library answers during one [init_sensor_robust]. *)
Record SensorInitEnv := {
  si_new : option handle;  (* the import, I2C(...) and SCD4X(i2c): the new driver *)
  si_stop : bool;          (* stop_periodic_measurement() returns *)
  si_start : bool          (* start_periodic_measurement() returns *)
}.

Definition init_sensor_robust (libs : Libraries) (e : SensorInitEnv) : M bool :=
  if negb (lib_scd4x libs) then
    write_log WARNING "SCD4X library unavailable" [];;
    ret false
  else
    try_except
      (d <- query (si_new e);;
       modify (fun s => s<|scd40 := Some d|>);;
       call EvSensorStop (si_stop e);;
       sleep 2000;;
       call EvSensorStart (si_start e);;
       write_log INFO "Sensor initialized" [];;
       ret true)
      (write_log ERROR "Sensor init error: " [];;
       ret false).

Record DisplayInitEnv := {
  di_new : option handle;  (* the import, the pins and TM1637(clk, dio) *)
  di_brightness : bool     (* brightness(7) returns *)
}.

Definition init_display_robust (libs : Libraries) (e : DisplayInitEnv) : M bool :=
  if negb (lib_tm1637 libs) then
    write_log WARNING "TM1637 library unavailable" [];;
    ret false
  else
    try_except
      (d <- query (di_new e);;
       modify (fun s => s<|display := Some d|>);;
       call (EvDisplayBrightness 7) (di_brightness e);;
       write_log INFO "Display initialized" [];;
       ret true)
      (write_log ERROR "Display init error: " [];;
       ret false).

(** Reading an attribute of the sensor driver that may not exist. *)
Inductive Attr :=
| Missing                  (* the driver has no such attribute *)
| Fails                    (* reading it raises *)
| Value (v : option Q).    (* its value: a float or None *)

(** [getattr(self.scd40, name, None)]. *)
Definition getattr_or_None (a : Attr) : M (option Q) :=
  match a with
  | Missing => ret None
  | Fails => raise
  | Value v => ret v
  end.

(** What the sensor driver answers during one [read_sensor_robust]. *)
Record SensorEnv := {
  s_data_ready : option bool;      (* self.scd40.data_ready *)
  s_CO2 : option (option Z);       (* self.scd40.CO2: an int or None *)
  s_temperature : Attr;
  s_humidity : Attr;
  s_relative_humidity : Attr;
  s_reinit : SensorInitEnv         (* answers to a reinitialisation *)
}.

(** The inner [try] of [read_sensor_robust]: temperature and humidity,
    under either of the two attribute names for the humidity.  [a or b] is
    [a] when [a] is truthy, and [b] otherwise. *)
Definition read_temperature_humidity (e : SensorEnv) : M unit :=
  try_except
    (t <- getattr_or_None (s_temperature e);;
     modify (fun s => s<|temperature_c := t|>);;
     h <- getattr_or_None (s_humidity e);;
     h <- (if truthy h then ret h
           else getattr_or_None (s_relative_humidity e));;
     modify (fun s => s<|humidity_percent := h|>))
    (modify (fun s => s<|temperature_c := None|>);;
     modify (fun s => s<|humidity_percent := None|>)).

Definition read_sensor_robust (libs : Libraries) (e : SensorEnv) : M bool :=
  s <- get;;
  match scd40 s with
  | None => ret false
  | Some _ =>
      try_except
        (ready <- query (s_data_ready e);;
         if negb ready then ret false
         else
           co2 <- query (s_CO2 e);;
           modify (fun s => s<|co2_ppm := co2|>);;
           read_temperature_humidity e;;
           modify (fun s =>
             s<|thi_value :=
                  calculate_thi_efficient (temperature_c s) (humidity_percent s)|>);;
           s <- get;;
           match co2_ppm s with
           | Some c =>
               if (c <? 0) || (c >? 50000) then
                 write_log WARNING "Invalid CO2: " [c];;
                 ret false
               else
                 modify (fun s => s<|successful_readings := successful_readings s + 1|>);;
                 modify (fun s => s<|sensor_error_count := 0|>);;
                 ret true
           | None =>
               modify (fun s => s<|successful_readings := successful_readings s + 1|>);;
               modify (fun s => s<|sensor_error_count := 0|>);;
               ret true
           end)
        (modify (fun s => s<|sensor_error_count := sensor_error_count s + 1|>);;
         s <- get;;
         write_log ERROR "Sensor read error (count ): " [sensor_error_count s];;
         (if sensor_error_count s >=? MAX_SENSOR_FAILURES then
            write_log WARNING "Sensor failure limit reached, reinitializing" [];;
            init_sensor_robust libs (s_reinit e);;
            modify (fun s => s<|sensor_error_count := 0|>)
          else ret tt);;
         ret false)
  end.

(** [now]: what [time.time()] answers.  Every call of the display is inside
    a [try] that swallows its exception; [int(self.co2_ppm)] is the stored
    integer itself. *)
Definition update_display_safe (now : Z) : M unit :=
  s <- get;;
  match display s with
  | None => ret tt
  | Some _ =>
      match co2_ppm s with
      | None => call_swallowed (EvDisplayShow TxtInit)
      | Some co2 =>
          let current_time := now in
          (if due current_time (last_display_switch s) DISPLAY_SWITCH_INTERVAL then
             modify (fun s => s<|show_co2_mode := negb (show_co2_mode s)|>);;
             modify (fun s => s<|last_display_switch := current_time|>)
           else ret tt);;
          s <- get;;
          if show_co2_mode s then call_swallowed (EvDisplayNumber co2)
          else
            match thi_value s with
            | Some thi => call_swallowed (EvDisplayShow (TxtHi (py_int thi)))
            | None => call_swallowed (EvDisplayShow TxtHiDashes)
            end
      end
  end.

(** What the clock and the broker client answer during one
    [publish_data_robust]. *)
Record PublishEnv := {
  p_now : Z;         (* time.time() *)
  p_co2 : bool;      (* publish on the CO2 topic returns *)
  p_sensor : bool    (* publish on the combined topic returns *)
}.

(** [len(sensor_payload)]: the two fixed keys and the present optional ones. *)
Definition payload_len (p : SensorPayload) : Z :=
  2 + (if is_some (pl_co2 p) then 1 else 0)
    + (if is_some (pl_temperature p) then 1 else 0)
    + (if is_some (pl_humidity p) then 1 else 0)
    + (if is_some (pl_thi p) then 1 else 0).

Definition publish_data_robust (e : PublishEnv) : M bool :=
  s <- get;;
  if negb (mqtt_connected s) || negb (is_some (mqtt_client s)) then ret false
  else
    try_except
      (let timestamp := p_now e in
       let sensor_payload := {|
         pl_timestamp := timestamp;
         pl_co2 := co2_ppm s;
         pl_temperature := option_map (fun x => py_round x 2) (temperature_c s);
         pl_humidity := option_map (fun x => py_round x 2) (humidity_percent s);
         pl_thi := option_map (fun x => py_round x 2) (thi_value s)
       |} in
       (match pl_co2 sensor_payload with
        | Some c => call (EvMqttPublish MQTT_TOPIC_CO2 (PCo2 c)) (p_co2 e)
        | None => ret tt
        end);;
       (if payload_len sensor_payload >? 2 then
          call (EvMqttPublish MQTT_TOPIC_SENSOR (PSensor sensor_payload)) (p_sensor e)
        else ret tt);;
       modify (fun s => s<|successful_transmissions := successful_transmissions s + 1|>);;
       modify (fun s => s<|mqtt_error_count := 0|>);;
       ret true)
      (modify (fun s => s<|mqtt_error_count := mqtt_error_count s + 1|>);;
       modify (fun s => s<|mqtt_connected := false|>);;
       s <- get;;
       write_log ERROR "MQTT publish error (count ): " [mqtt_error_count s];;
       ret false).

Record StatusEnv := {
  st_now_uptime : Z;   (* time.time() for the uptime *)
  st_mem_free : Z;     (* gc.mem_free() *)
  st_now : Z;          (* time.time() for the timestamp *)
  st_publish : bool    (* publish on the status topic returns *)
}.

Definition send_system_status (e : StatusEnv) : M unit :=
  s <- get;;
  if negb (mqtt_connected s) then ret tt
  else
    try_except
      (let uptime := st_now_uptime e - startup_time s in
       let status_data := {|
         sp_uptime := uptime;
         sp_memory_free := st_mem_free e;
         sp_successful_readings := successful_readings s;
         sp_successful_transmissions := successful_transmissions s;
         sp_sensor_errors := sensor_error_count s;
         sp_mqtt_errors := mqtt_error_count s;
         sp_wifi_errors := wifi_error_count s;
         sp_timestamp := st_now e
       |} in
       match mqtt_client s with
       | Some _ => call (EvMqttPublish MQTT_TOPIC_STATUS (PStatus status_data)) (st_publish e)
       | None => raise      (* None has no attribute publish *)
       end)
      (write_log ERROR "Status report error: " []).

Record ConnEnv := {
  cc_isconnected : option bool;  (* self.wlan.isconnected() in the test *)
  cc_wifi : WifiEnv;
  cc_mqtt : MqttEnv
}.

Definition check_connections_robust (libs : Libraries) (e : ConnEnv) : M unit :=
  s <- get;;
  (match wlan s with
   | None => connect_wifi_robust (cc_wifi e);; ret tt
   | Some _ =>
       c <- query (cc_isconnected e);;
       if negb c then connect_wifi_robust (cc_wifi e);; ret tt
       else ret tt
   end);;
  s <- get;;
  if negb (mqtt_connected s) && lib_umqtt libs then
    connect_mqtt_robust libs (cc_mqtt e);; ret tt
  else ret tt.

Definition preventive_system_reset (now : Z) : M unit :=
  s <- get;;
  let current_time := now in
  if due current_time (last_preventive_reset s) SYSTEM_RESET_INTERVAL then
    write_log INFO "Preventive system reset" [];;
    (let uptime := current_time - startup_time s in
     write_log INFO "Uptime: s, Readings: , Transmissions: "
       [uptime; successful_readings s; successful_transmissions s]);;
    sleep 2000;;
    machine_reset
  else ret tt.

Record MaintEnv := {
  mt_now : Z;              (* time.time() of run_system_maintenance *)
  mt_free_mem : Z;
  mt_conn : ConnEnv;
  mt_status : StatusEnv;
  mt_reset_now : Z         (* time.time() of preventive_system_reset *)
}.

Definition run_system_maintenance (libs : Libraries) (e : MaintEnv) : M unit :=
  let current_time := mt_now e in
  s <- get;;
  (if due current_time (last_gc s) GC_INTERVAL then
     memory_management_aggressive (mt_free_mem e);;
     modify (fun s => s<|last_gc := current_time|>)
   else ret tt);;
  s <- get;;
  (if due current_time (last_connection_check s) CONNECTION_RETRY_INTERVAL then
     check_connections_robust libs (mt_conn e);;
     modify (fun s => s<|last_connection_check := current_time|>)
   else ret tt);;
  s <- get;;
  (if due current_time (last_status_report s) 3600 then
     send_system_status (mt_status e);;
     modify (fun s => s<|last_status_report := current_time|>)
   else ret tt);;
  preventive_system_reset (mt_reset_now e).

Record CycleEnv := {
  cy_now : Z;              (* time.time() of run_monitoring_cycle *)
  cy_sensor : SensorEnv;
  cy_publish : PublishEnv
}.

Definition run_monitoring_cycle (libs : Libraries) (e : CycleEnv) : M unit :=
  let current_time := cy_now e in
  s <- get;;
  (if due current_time (last_sensor_read s) SENSOR_READ_INTERVAL then
     read_sensor_robust libs (cy_sensor e);;
     modify (fun s => s<|last_sensor_read := current_time|>)
   else ret tt);;
  s <- get;;
  if due current_time (last_publish s) PUBLISH_INTERVAL && is_some (co2_ppm s) then
    ok <- publish_data_robust (cy_publish e);;
    if ok : bool then modify (fun s => s<|last_publish := current_time|>)
    else ret tt
  else ret tt.

(** *** [production_main_loop] *)

(** What the outside world answers during the initialisation sequence. *)
Record InitEnv := {
  in_free_mem : Z;
  in_wdt : option handle;
  in_wifi : WifiEnv;
  in_ntp : bool;
  in_mqtt : MqttEnv;
  in_sensor : SensorInitEnv;
  in_display : DisplayInitEnv;
  in_now : Z               (* time.time() when the timers are set *)
}.

(** The statements of [production_main_loop] before its [try]. *)
Definition initialization_sequence (libs : Libraries) (e : InitEnv) : M unit :=
  write_log INFO "Production CO2 Monitor starting" [];;
  write_log INFO "Libraries: " [];;
  memory_management_aggressive (in_free_mem e);;
  init_watchdog (in_wdt e);;
  feed_watchdog_safe;;
  ok <- connect_wifi_robust (in_wifi e);;
  (if negb ok then
     write_log WARNING "WiFi init failed - proceeding in offline mode" []
   else ret tt);;
  feed_watchdog_safe;;
  sync_time_safe libs (in_ntp e);;
  feed_watchdog_safe;;
  connect_mqtt_robust libs (in_mqtt e);;
  feed_watchdog_safe;;
  ok <- init_sensor_robust libs (in_sensor e);;
  (if negb ok then
     write_log WARNING "Sensor init failed - display/network only mode" []
   else ret tt);;
  feed_watchdog_safe;;
  init_display_robust libs (in_display e);;
  let current_time := in_now e in
  modify (fun s => s<|last_sensor_read := current_time - SENSOR_READ_INTERVAL|>);;
  modify (fun s => s<|last_publish := current_time|>);;
  modify (fun s => s<|last_gc := current_time|>);;
  modify (fun s => s<|last_connection_check := current_time|>);;
  modify (fun s => s<|last_status_report := current_time|>);;
  write_log INFO "Production monitoring started" [].

(** What the outside world answers during one pass of the loop. *)
Record PassEnv := {
  ps_display_now : Z;      (* time.time() of update_display_safe *)
  ps_cycle : CycleEnv;
  ps_maint : MaintEnv;
  ps_led_on : bool;        (* self.led.on() returns *)
  ps_led_off : bool        (* self.led.off() returns *)
}.

(** The body of [while self.system_running].  The two calls of the LED
    are outside any [try], like the test of the link in the connectivity
    check: when one of them raises, the exception leaves the pass. *)
Definition loop_pass (libs : Libraries) (e : PassEnv) : M unit :=
  feed_watchdog_safe;;
  update_display_safe (ps_display_now e);;
  run_monitoring_cycle libs (ps_cycle e);;
  run_system_maintenance libs (ps_maint e);;
  call (EvLed true) (ps_led_on e);;
  sleep 50;;
  call (EvLed false) (ps_led_off e);;
  sleep 950.

(** The loop, observed for as many passes as [passes] has answers. *)
Fixpoint main_while (libs : Libraries) (passes : list PassEnv) : M unit :=
  match passes with
  | [] => ret tt
  | e :: rest =>
      s <- get;;
      if system_running s then loop_pass libs e;; main_while libs rest
      else ret tt
  end.

(** The initialisation, then the loop inside [try: ... except Exception:].
    The [finally] clause is not part of an observed prefix of the loop: no
    statement clears [system_running], and the handler ends in the reboot. *)
Definition production_main_loop (libs : Libraries) (ie : InitEnv)
    (passes : list PassEnv) : M unit :=
  initialization_sequence libs ie;;
  try_except
    (main_while libs passes)
    (write_log CRITICAL "FATAL SYSTEM ERROR: " [];;
     sleep 5000;;
     machine_reset).

(** ** Every way of using the object *)

(** One invocation of a method, with the answers it gets. *)
Inductive Op :=
| OpMemory (free_mem : Z)
| OpFeedWatchdog
| OpInitWatchdog (wdt : option handle)
| OpConnectWifi (e : WifiEnv)
| OpSyncTime (ntp : bool)
| OpConnectMqtt (e : MqttEnv)
| OpInitSensor (e : SensorInitEnv)
| OpInitDisplay (e : DisplayInitEnv)
| OpReadSensor (e : SensorEnv)
| OpUpdateDisplay (now : Z)
| OpPublish (e : PublishEnv)
| OpSendStatus (e : StatusEnv)
| OpCheckConnections (e : ConnEnv)
| OpPreventiveReset (now : Z)
| OpMaintenance (e : MaintEnv)
| OpMonitoringCycle (e : CycleEnv)
| OpInitialization (e : InitEnv)
| OpLoopPass (e : PassEnv)
| OpMainLoop (ie : InitEnv) (passes : list PassEnv).

Definition forget {A} (m : M A) : M unit := m;; ret tt.

Definition run_op (libs : Libraries) (op : Op) : M unit :=
  match op with
  | OpMemory free_mem => forget (memory_management_aggressive free_mem)
  | OpFeedWatchdog => feed_watchdog_safe
  | OpInitWatchdog wdt => forget (init_watchdog wdt)
  | OpConnectWifi e => forget (connect_wifi_robust e)
  | OpSyncTime ntp => forget (sync_time_safe libs ntp)
  | OpConnectMqtt e => forget (connect_mqtt_robust libs e)
  | OpInitSensor e => forget (init_sensor_robust libs e)
  | OpInitDisplay e => forget (init_display_robust libs e)
  | OpReadSensor e => forget (read_sensor_robust libs e)
  | OpUpdateDisplay now => update_display_safe now
  | OpPublish e => forget (publish_data_robust e)
  | OpSendStatus e => send_system_status e
  | OpCheckConnections e => check_connections_robust libs e
  | OpPreventiveReset now => preventive_system_reset now
  | OpMaintenance e => run_system_maintenance libs e
  | OpMonitoringCycle e => run_monitoring_cycle libs e
  | OpInitialization e => initialization_sequence libs e
  | OpLoopPass e => loop_pass libs e
  | OpMainLoop ie passes => production_main_loop libs ie passes
  end.

(** The states of the object that can be seen between two method
    invocations: the fresh object, and whatever a method leaves behind,
    however it ends. *)
Inductive reachable (libs : Libraries) : Monitor -> Prop :=
| reach_init (now : Z) : reachable libs (init_monitor now)
| reach_op (op : Op) (s : Monitor) :
    reachable libs s -> reachable libs (final (run_op libs op s)).

(** The broker session is consistent: connected only with a client. *)
Definition session_consistent (s : Monitor) : Prop :=
  mqtt_connected s = true -> mqtt_client s <> None.

(** The sensor failure counter is below its limit. *)
Definition sensor_count_bounded (s : Monitor) : Prop :=
  0 <= sensor_error_count s < MAX_SENSOR_FAILURES.

(** Counting events of one kind. *)
Definition count_events (p : Event -> bool) (evs : list Event) : nat :=
  List.length (filter p evs).

Definition is_feed (ev : Event) : bool :=
  match ev with EvWdtFeed => true | _ => false end.

Definition is_co2_publish (ev : Event) : bool :=
  match ev with EvMqttPublish MQTT_TOPIC_CO2 _ => true | _ => false end.

(** How many times the hardware watchdog was fed. *)
Definition count_feeds (evs : list Event) : nat := count_events is_feed evs.

(** How many messages went out on the CO2 topic. *)
Definition count_co2_publishes (evs : list Event) : nat :=
  count_events is_co2_publish evs.

(** ** Concrete situations *)

Definition all_libraries : Libraries :=
  {| lib_ntptime := true; lib_scd4x := true; lib_tm1637 := true; lib_umqtt := true |}.

Definition sensor_starts : SensorInitEnv :=
  {| si_new := Some 3%nat; si_stop := true; si_start := true |}.

(** The sensor has a measurement of [co2] ppm at 22.0 degrees and 55.0 %. *)
Definition sensor_reports (co2 : Z) : SensorEnv := {|
  s_data_ready := Some true;
  s_CO2 := Some (Some co2);
  s_temperature := Value (Some 22.0%Q);
  s_humidity := Value (Some 55.0%Q);
  s_relative_humidity := Missing;
  s_reinit := sensor_starts
|}.

(** The object after the sensor was initialised and read once, at 800 ppm. *)
Definition after_good_reading : Monitor :=
  final (run_op all_libraries (OpReadSensor (sensor_reports 800))
    (final (run_op all_libraries (OpInitSensor sensor_starts) (init_monitor 0)))).

(** The three collections every memory check starts with. *)
Definition three_collections : list Event := [EvGcCollect; EvGcCollect; EvGcCollect].

(** The read of the sensor raises: [data_ready] does, or it says that a
    measurement is there and [CO2] does. *)
Definition read_raises (e : SensorEnv) : bool :=
  match s_data_ready e with
  | None => true
  | Some false => false
  | Some true =>
      match s_CO2 e with
      | None => true
      | Some _ => false
      end
  end.

(** The same method invoked [n] times in a row with the same answers. *)
Fixpoint repeat_op (libs : Libraries) (op : Op) (n : nat) (s : Monitor) : Monitor :=
  match n with
  | O => s
  | S n' => repeat_op libs op n' (final (run_op libs op s))
  end.

(** A broker that refuses the connection. *)
Definition broker_refuses : MqttEnv := {| m_new := Some 4%nat; m_connect := false |}.

(** A broker that accepts it. *)
Definition broker_accepts : MqttEnv := {| m_new := Some 4%nat; m_connect := true |}.

(** The object after the broker accepted the connection and a memory check
    then found 11999 bytes free. *)
Definition after_session_teardown : Monitor :=
  final (run_op all_libraries (OpMemory 11999)
    (final (run_op all_libraries (OpConnectMqtt broker_accepts) (init_monitor 0)))).

(** A link that does not come up during the whole wait. *)
Definition link_stays_down : WifiEnv := {|
  w_new := Some 1%nat; w_activate := true; w_isconnected := Some false;
  w_down := true; w_up := true; w_connect := true;
  w_poll := fun _ => Some false; w_ifconfig := true
|}.

(** A link that is up. *)
Definition link_is_up : WifiEnv := {|
  w_new := Some 1%nat; w_activate := true; w_isconnected := Some true;
  w_down := true; w_up := true; w_connect := true;
  w_poll := fun _ => Some true; w_ifconfig := true
|}.

(** The answers of the outside world during one pass at time [now]: the
    sensor reports 800 ppm, 100000 bytes are free, the broker takes the
    sensor messages or not ([broker_takes]) and accepts connections, the
    link is reported up or not ([link_query]) and behaves as [link], and
    the LED works. *)
Definition pass_at (now : Z) (broker_takes link_query : bool) (link : WifiEnv)
    : PassEnv := {|
  ps_display_now := now;
  ps_cycle := {|
    cy_now := now;
    cy_sensor := sensor_reports 800;
    cy_publish := {| p_now := now; p_co2 := broker_takes; p_sensor := broker_takes |}
  |};
  ps_maint := {|
    mt_now := now;
    mt_free_mem := 100000;
    mt_conn := {| cc_isconnected := Some link_query; cc_wifi := link;
                  cc_mqtt := broker_accepts |};
    mt_status := {| st_now_uptime := now; st_mem_free := 100000;
                    st_now := now; st_publish := true |};
    mt_reset_now := now
  |};
  ps_led_on := true;
  ps_led_off := true
|}.

(** The answers of the outside world during an initialisation at time
    1000 in which every step succeeds. *)
Definition smooth_start : InitEnv := {|
  in_free_mem := 100000;
  in_wdt := Some 9%nat;
  in_wifi := link_is_up;
  in_ntp := true;
  in_mqtt := broker_accepts;
  in_sensor := sensor_starts;
  in_display := {| di_new := Some 5%nat; di_brightness := true |};
  in_now := 1000
|}.

(** The object when the loop is entered after that initialisation. *)
Definition after_smooth_start : Monitor :=
  final (run_op all_libraries (OpInitialization smooth_start) (init_monitor 990)).

(** A sensor whose [data_ready] raises. *)
Definition sensor_raises : SensorEnv := {|
  s_data_ready := None;
  s_CO2 := None;
  s_temperature := Missing;
  s_humidity := Missing;
  s_relative_humidity := Missing;
  s_reinit := sensor_starts
|}.

(** The object after the sensor was initialised and its read raised 14
    times in a row. *)
Definition after_14_failed_reads : Monitor :=
  repeat_op all_libraries (OpReadSensor sensor_raises) 14
    (final (run_op all_libraries (OpInitSensor sensor_starts) (init_monitor 0))).

(** ** Notions used in the statements about the publish timestamp *)

(** What the parts of a pass other than the publish leave alone. *)
Definition publish_state_kept (s s' : Monitor) : Prop :=
  last_publish s' = last_publish s /\
  successful_transmissions s' = successful_transmissions s /\
  co2_ppm s' = co2_ppm s.

Definition session_kept (s s' : Monitor) : Prop :=
  mqtt_connected s' = mqtt_connected s /\ mqtt_client s' = mqtt_client s.

(** From [s] to [s'], emitting [evs], either one publish succeeded: the
    count of transmissions went up by one, the timestamp is the clock of
    the cycle, the interval had elapsed and one message went out on the CO2
    topic; or none did: count and timestamp are as they were.  And the
    publish does succeed when the interval has elapsed, the session is up,
    the broker takes both messages and a CO2 reading is there. *)
Definition published_or_kept (e : CycleEnv) (s s' : Monitor) (evs : list Event) : Prop :=
  ((successful_transmissions s' = successful_transmissions s + 1 /\
    last_publish s' = cy_now e /\
    due (cy_now e) (last_publish s) PUBLISH_INTERVAL = true /\
    count_co2_publishes evs = 1%nat) \/
   (successful_transmissions s' = successful_transmissions s /\
    last_publish s' = last_publish s /\
    (count_co2_publishes evs <= 1)%nat)) /\
  (due (cy_now e) (last_publish s) PUBLISH_INTERVAL = true ->
   mqtt_connected s = true -> mqtt_client s <> None ->
   p_co2 (cy_publish e) = true -> p_sensor (cy_publish e) = true ->
   co2_ppm s' <> None ->
   successful_transmissions s' = successful_transmissions s + 1).

(** ** Further notions *)

(** [never_raises m]: no exception leaves [m]. *)
Definition never_raises {A} (m : M A) : Prop :=
  forall s, outcome (m s) <> Raised.

(** The methods that contain every exception of the drivers they call:
    all but the connectivity check, whose test of the link is outside any
    [try], and the two methods that run it, the second of which, the body
    of the loop, also calls the LED outside any [try]. *)
Definition absorbs_exceptions (op : Op) : bool :=
  match op with
  | OpCheckConnections _ | OpMaintenance _ | OpLoopPass _ => false
  | _ => true
  end.

(** The comfort index is the one of the stored temperature and humidity. *)
Definition comfort_index_current (s : Monitor) : Prop :=
  thi_value s = calculate_thi_efficient (temperature_c s) (humidity_percent s).

(** A pass at time [now] in whose connectivity check the test of the link
    raises. *)
Definition pass_where_link_test_raises (now : Z) : PassEnv := {|
  ps_display_now := now;
  ps_cycle := ps_cycle (pass_at now true true link_is_up);
  ps_maint := {|
    mt_now := now;
    mt_free_mem := 100000;
    mt_conn := {| cc_isconnected := None; cc_wifi := link_is_up;
                  cc_mqtt := broker_accepts |};
    mt_status := mt_status (ps_maint (pass_at now true true link_is_up));
    mt_reset_now := now
  |};
  ps_led_on := true;
  ps_led_off := true
|}.

(** A pass at time [now] in which everything works but switching the LED
    on. *)
Definition pass_where_led_raises (now : Z) : PassEnv := {|
  ps_display_now := now;
  ps_cycle := ps_cycle (pass_at now true true link_is_up);
  ps_maint := ps_maint (pass_at now true true link_is_up);
  ps_led_on := false;
  ps_led_off := true
|}.

(** What the handler of the main loop does with an exception. *)
Definition fatal_error_events : list Event :=
  [EvLog CRITICAL "FATAL SYSTEM ERROR: " []; EvSleep 5000; EvMachineReset].

(** What [k] seconds of waiting for the link emit: a sleep of one second
    and, with the watchdog armed, a feed, [k] times. *)
Fixpoint seconds_waited (armed : bool) (k : nat) : list Event :=
  match k with
  | O => []
  | S k' =>
      EvSleep 1000 :: (if armed then [EvWdtFeed] else [])
        ++ seconds_waited armed k'
  end.

(** The bounce of the interface and the request that precede the wait. *)
Definition interface_reset_events : list Event :=
  [EvWlanActive false; EvSleep 1000; EvWlanActive true; EvSleep 1000;
   EvWlanConnect].

(** A link that comes up in the sixth second of the wait. *)
Definition link_up_after_5s : WifiEnv := {|
  w_new := Some 1%nat; w_activate := true; w_isconnected := Some false;
  w_down := true; w_up := true; w_connect := true;
  w_poll := fun i => Some (Nat.eqb i 5); w_ifconfig := true
|}.

Definition is_disconnect (ev : Event) : bool :=
  match ev with EvMqttDisconnect => true | _ => false end.

(** The attributes that are given a value when the object is built and
    that no method assigns afterwards. *)
Definition construction_values_kept (s s' : Monitor) : Prop :=
  system_running s' = system_running s /\
  system_error_count s' = system_error_count s /\
  startup_time s' = startup_time s /\
  last_preventive_reset s' = last_preventive_reset s.

(** The two statistics have not gone down from [s] to [s']. *)
Definition statistics_not_decreased (s s' : Monitor) : Prop :=
  successful_readings s <= successful_readings s' /\
  successful_transmissions s <= successful_transmissions s'.

(** The object as it is when the broker client, the sensor or the display
    has never been used. *)
Definition broker_unused (s : Monitor) : Prop :=
  mqtt_client s = None /\ mqtt_connected s = false /\
  successful_transmissions s = 0 /\ mqtt_error_count s = 0.

Definition sensor_unused (s : Monitor) : Prop :=
  scd40 s = None /\ reading s = (None, None, None, None) /\
  successful_readings s = 0 /\ sensor_error_count s = 0.

Definition display_unused (s : Monitor) : Prop :=
  display s = None /\ show_co2_mode s = true /\ last_display_switch s = 0.

(** A device on which none of the four optional libraries can be imported. *)
Definition no_libraries : Libraries := {|
  lib_ntptime := false; lib_scd4x := false; lib_tm1637 := false;
  lib_umqtt := false
|}.

(** What the main loop leaves behind on such a device after a start and
    two passes. *)
Definition after_run_without_libraries : Monitor :=
  final (run_op no_libraries
           (OpMainLoop smooth_start
              [pass_at 1001 true true link_is_up;
               pass_at 1400 true false link_stays_down])
           (init_monitor 990)).

(** The three timers of the periodic maintenance tasks are in [s'] as in
    [s]. *)
Definition timers_kept (s s' : Monitor) : Prop :=
  last_gc s' = last_gc s /\
  last_connection_check s' = last_connection_check s /\
  last_status_report s' = last_status_report s.

(** What the display shows for the comfort index. *)
Definition index_text (s : Monitor) : DisplayText :=
  match thi_value s with
  | Some thi => TxtHi (py_int thi)
  | None => TxtHiDashes
  end.

(** A maintenance at time [now] with a link that stays down and a broker
    that refuses. *)
Definition maintenance_without_network (now : Z) : MaintEnv := {|
  mt_now := now;
  mt_free_mem := 100000;
  mt_conn := {| cc_isconnected := Some false; cc_wifi := link_stays_down;
                cc_mqtt := broker_refuses |};
  mt_status := {| st_now_uptime := now; st_mem_free := 100000;
                  st_now := now; st_publish := false |};
  mt_reset_now := now
|}.

(** The events by which the object tries to bring up the link or the
    broker session. *)
Definition is_connection_attempt (ev : Event) : bool :=
  match ev with
  | EvWlanActive _ | EvWlanConnect | EvMqttConnect => true
  | _ => false
  end.

(** [never_reboots m]: [m] does not restart the device. *)
Definition never_reboots {A} (m : M A) : Prop :=
  forall s, outcome (m s) <> Rebooted.

(** The object after a smooth start and a first pass of the loop, in which
    800 ppm were read. *)
Definition after_first_pass : Monitor :=
  final (run_op all_libraries (OpLoopPass (pass_at 1001 true true link_is_up))
           after_smooth_start).

(** A cycle at time 1031 in which the sensor reports 1200 ppm and the
    broker takes the messages. *)
Definition cycle_reading_1200 : CycleEnv := {|
  cy_now := 1031;
  cy_sensor := sensor_reports 1200;
  cy_publish := {| p_now := 1031; p_co2 := true; p_sensor := true |}
|}.

Definition is_broker_connect (ev : Event) : bool :=
  match ev with EvMqttConnect => true | _ => false end.

(** A connectivity check that finds the link down for good and a broker
    that accepts. *)
Definition check_without_link : ConnEnv := {|
  cc_isconnected := Some false;
  cc_wifi := link_stays_down;
  cc_mqtt := broker_accepts
|}.

(** The object after a smooth start and a publish that the broker did not
    take: the session is marked as down. *)
Definition after_failed_publish : Monitor :=
  final (run_op all_libraries
           (OpPublish {| p_now := 1001; p_co2 := false; p_sensor := false |})
           after_first_pass).

(** A sensor whose driver is constructed but does not start. *)
Definition sensor_does_not_start : SensorInitEnv :=
  {| si_new := Some 7%nat; si_stop := true; si_start := false |}.

(** *** The log file *)

(** [write_log] seen from the file system.  The file [system.log] is
    known by its size in bytes, [None] when it does not exist, and an
    entry by the number of bytes of its line [timestamp|level|message]. *)
Definition max_log_size : Z := 50000.

Record LogEnv := {
  lg_remove : bool;   (* os.remove returns; otherwise it raises OSError *)
  lg_open : bool;     (* open(self.log_file, "a") returns *)
  lg_write : bool     (* f.write(log_entry) returns *)
}.

(** [os.stat] raises [OSError] when the file does not exist; a write that
    raises is taken to have written nothing. *)
Definition write_log_file (e : LogEnv) (entry : Z) (file : option Z) : option Z :=
  let file :=
    match file with
    | Some size =>
        if size >? max_log_size then
          if lg_remove e then None else file
        else file
    | None => file
    end in
  if lg_open e then
    let size := match file with Some size => size | None => 0 end in
    if lg_write e then Some (size + entry) else Some size
  else file.

(** One call of [write_log] after the other. *)
Fixpoint write_logs (calls : list (LogEnv * Z)) (file : option Z) : option Z :=
  match calls with
  | [] => file
  | (e, entry) :: rest => write_logs rest (write_log_file e entry file)
  end.

Definition file_size (file : option Z) : Z :=
  match file with Some size => size | None => 0 end.

(** A file system on which everything succeeds. *)
Definition log_works : LogEnv :=
  {| lg_remove := true; lg_open := true; lg_write := true |}.

Definition is_led_on (ev : Event) : bool :=
  match ev with
  | EvLed on => on
  | _ => false
  end.

(** The loop goes on and the time of the preventive reset is as in [s]. *)
Definition loop_going (s s' : Monitor) : Prop :=
  system_running s' = true /\
  last_preventive_reset s' = last_preventive_reset s.

(** A pass at time [now] in which nothing works but the LED: the sensor
    raises, the broker takes nothing and refuses connections, the link is
    down for good and only 9000 bytes are free. *)
Definition pass_in_trouble (now : Z) : PassEnv := {|
  ps_display_now := now;
  ps_cycle := {|
    cy_now := now;
    cy_sensor := sensor_raises;
    cy_publish := {| p_now := now; p_co2 := false; p_sensor := false |}
  |};
  ps_maint := {|
    mt_now := now;
    mt_free_mem := 9000;
    mt_conn := {| cc_isconnected := Some false; cc_wifi := link_stays_down;
                  cc_mqtt := broker_refuses |};
    mt_status := {| st_now_uptime := now; st_mem_free := 9000;
                    st_now := now; st_publish := false |};
    mt_reset_now := now
  |};
  ps_led_on := true;
  ps_led_off := true
|}.

(** A start in which nothing works either, but the watchdog. *)
Definition rough_start : InitEnv := {|
  in_free_mem := 9000;
  in_wdt := Some 9%nat;
  in_wifi := link_stays_down;
  in_ntp := false;
  in_mqtt := broker_refuses;
  in_sensor := sensor_does_not_start;
  in_display := {| di_new := None; di_brightness := false |};
  in_now := 1000
|}.

(** ** Notions used in the statements about the failure counters *)

(** An event without the numbers shown in a log line. *)
Definition forget_numbers (ev : Event) : Event :=
  match ev with
  | EvLog level text _ => EvLog level text []
  | _ => ev
  end.

(** The object with the broker and the link failure counters at other
    values. *)
Definition with_counters (s : Monitor) (broker link : Z) : Monitor :=
  s<|mqtt_error_count := broker|><|wifi_error_count := link|>.

(** Two runs that end the same way, emit the same events but for the
    numbers in the log lines, and leave the same object but for the two
    counters. *)
Definition same_but_counters {A} (r r' : Res A) : Prop :=
  outcome r = outcome r' /\
  with_counters (final r) 0 0 = with_counters (final r') 0 0 /\
  map forget_numbers (out r) = map forget_numbers (out r').

(** The log lines written when a connection to the broker, or of the
    link, has succeeded. *)
Definition broker_connected_logged : Event := EvLog INFO "MQTT connected" [].
Definition link_connected_logged : Event := EvLog INFO "WiFi connected: " [].

(** From [s] to [s'], while [evs] were emitted: the count of
    transmissions did not go down; the broker failure counter went down
    only if a connection to the broker succeeded or a transmission was
    counted; the link failure counter went down only if a connection of
    the link succeeded. *)
Definition counters_fall_on_success_only (s s' : Monitor) (evs : list Event) : Prop :=
  successful_transmissions s <= successful_transmissions s' /\
  (mqtt_error_count s' < mqtt_error_count s ->
   In broker_connected_logged evs \/
   successful_transmissions s < successful_transmissions s') /\
  (wifi_error_count s' < wifi_error_count s -> In link_connected_logged evs).

(** [orderly m]: that holds of [m], from whatever object it starts. *)
Definition orderly {A} (m : M A) : Prop :=
  forall s, counters_fall_on_success_only s (final (m s)) (out (m s)).

(** ** Notions for reasoning about computations *)

(** [preserves P m]: whatever way [m] ends, it leaves [P] as it found it. *)
Definition preserves {A} (P : Monitor -> Prop) (m : M A) : Prop :=
  forall s, P s -> P (final (m s)).

(** [ensures m s Q]: started in [s], [m] ends with an outcome, a final
    object and emitted events that satisfy [Q]. *)
Definition ensures {A} (m : M A) (s : Monitor)
    (Q : Outcome A -> Monitor -> list Event -> Prop) : Prop :=
  Q (outcome (m s)) (final (m s)) (out (m s)).

(** [at_most p n m]: however [m] ends, it emitted at most [n] events of
    kind [p]. *)
Definition at_most {A} (p : Event -> bool) (n : nat) (m : M A) : Prop :=
  forall s, (count_events p (out (m s)) <= n)%nat.

(** * Properties *)

(** The wait for the link is unrolled one second at a time, on request. *)
Lemma wifi_wait_O e i : wifi_wait e i 0 = ret false.
Proof. reflexivity. Qed.

Lemma wifi_wait_S e i n :
  wifi_wait e i (S n) =
    (c <- query (w_poll e i);;
     if c : bool then
       (if w_ifconfig e then ret tt else raise);;
       write_log INFO "WiFi connected: " [];;
       modify (fun s => s<|wifi_error_count := 0|>);;
       ret true
     else
       sleep 1000;;
       feed_watchdog_safe;;
       wifi_wait e (S i) n).
Proof. reflexivity. Qed.

Arguments wifi_wait : simpl never.

(** ** Comparisons *)

Lemma geb_false a b : (a >=? b) = false -> a < b.
Proof. rewrite Z.geb_leb. apply Z.leb_gt. Qed.

Lemma due_true t last interval : due t last interval = true <-> last + interval <= t.
Proof. unfold due. rewrite Z.geb_leb, Z.leb_le. lia. Qed.

Lemma due_false t last interval : due t last interval = false <-> t < last + interval.
Proof. unfold due. rewrite Z.geb_leb, Z.leb_gt. lia. Qed.

(** ** Reasoning about computations *)

Section Preserves.
Context (P : Monitor -> Prop).

Lemma preserves_ret {A} (a : A) : preserves P (ret a).
Proof. intros s H. exact H. Qed.

Lemma preserves_get : preserves P get.
Proof. intros s H. exact H. Qed.

Lemma preserves_emit ev : preserves P (emit ev).
Proof. intros s H. exact H. Qed.

Lemma preserves_raise {A} : preserves P (@raise A).
Proof. intros s H. exact H. Qed.

Lemma preserves_machine_reset {A} : preserves P (@machine_reset A).
Proof. intros s H. exact H. Qed.

Lemma preserves_query {A} (o : option A) : preserves P (query o).
Proof. destruct o; intros s H; exact H. Qed.

Lemma preserves_call ev ok : preserves P (call ev ok).
Proof. destruct ok; intros s H; exact H. Qed.

Lemma preserves_modify f : (forall s, P s -> P (f s)) -> preserves P (modify f).
Proof. intros Hf s H. apply Hf, H. Qed.

Lemma preserves_bind {A B} (m : M A) (k : A -> M B) :
  preserves P m -> (forall a, preserves P (k a)) -> preserves P (bind m k).
Proof.
  intros Hm Hk s H. unfold bind.
  specialize (Hm s H).
  destruct (m s) as [[a| |] s1 o1]; cbn in *; auto.
  specialize (Hk a s1 Hm).
  destruct (k a s1) as [o s2 o2]; cbn in *; auto.
Qed.

Lemma preserves_try {A} (m h : M A) :
  preserves P m -> preserves P h -> preserves P (try_except m h).
Proof.
  intros Hm Hh s H. unfold try_except.
  specialize (Hm s H).
  destruct (m s) as [[a| |] s1 o1]; cbn in *; auto.
  specialize (Hh s1 Hm).
  destruct (h s1) as [o s2 o2]; cbn in *; auto.
Qed.

Lemma preserves_forget {A} (m : M A) : preserves P m -> preserves P (forget m).
Proof. intros Hm. apply preserves_bind; [exact Hm | intros a; apply preserves_ret]. Qed.
End Preserves.

(** Breaks a computation into its statements, entering the methods it
    calls unless a lemma at hand already covers them; what is left are the
    assignments, to be checked against [P] by [tac]. *)
Ltac head_of t :=
  lazymatch t with
  | ?f _ => head_of f
  | _ => t
  end.

Ltac preserves_step tac :=
  lazymatch goal with
  | |- preserves _ (ret _) => apply preserves_ret
  | |- preserves _ get => apply preserves_get
  | |- preserves _ (emit _) => apply preserves_emit
  | |- preserves _ raise => apply preserves_raise
  | |- preserves _ machine_reset => apply preserves_machine_reset
  | |- preserves _ (query _) => apply preserves_query
  | |- preserves _ (call _ _) => apply preserves_call
  | |- preserves _ (forget _) => apply preserves_forget
  | |- preserves _ (bind _ _) => apply preserves_bind; [ | intros ? ]
  | |- preserves _ (try_except _ _) => apply preserves_try
  | |- preserves _ (modify _) => apply preserves_modify; intros ? ?; tac
  | |- preserves _ (if ?b then _ else _) => destruct b
  | |- preserves _ (match ?x with _ => _ end) => destruct x
  | |- preserves _ ?m =>
      first
        [ assumption
        | match goal with
          | H : forall _, preserves _ _ |- _ => apply H
          | H : forall _ _, preserves _ _ |- _ => apply H
          | H : forall _ _ _, preserves _ _ |- _ => apply H
          end
        | let h := head_of m in unfold h ]
  end.

Ltac preserves_with tac := repeat (preserves_step tac).

(** ** What a computation ensures *)

Arguments ensures : simpl never.

Lemma ensures_weaken {A} (m : M A) s (Q1 Q2 : Outcome A -> Monitor -> list Event -> Prop) :
  ensures m s Q1 -> (forall o s' evs, Q1 o s' evs -> Q2 o s' evs) -> ensures m s Q2.
Proof. unfold ensures. intros H HQ. apply HQ, H. Qed.

Lemma ensures_ret {A} (a : A) s Q : Q (Returned a) s [] -> ensures (ret a) s Q.
Proof. exact (fun H => H). Qed.

Lemma ensures_get s Q : Q (Returned s) s [] -> ensures get s Q.
Proof. exact (fun H => H). Qed.

Lemma ensures_modify f s Q : Q (Returned tt) (f s) [] -> ensures (modify f) s Q.
Proof. exact (fun H => H). Qed.

Lemma ensures_emit ev s Q : Q (Returned tt) s [ev] -> ensures (emit ev) s Q.
Proof. exact (fun H => H). Qed.

Lemma ensures_raise {A} s (Q : Outcome A -> _) : Q Raised s [] -> ensures raise s Q.
Proof. exact (fun H => H). Qed.

Lemma ensures_machine_reset {A} s (Q : Outcome A -> _) :
  Q Rebooted s [EvMachineReset] -> ensures machine_reset s Q.
Proof. exact (fun H => H). Qed.

Lemma ensures_bind {A B} (m : M A) (k : A -> M B) s Q :
  ensures m s (fun o s1 evs1 =>
    match o with
    | Returned a => ensures (k a) s1 (fun o' s2 evs2 => Q o' s2 (evs1 ++ evs2))
    | Raised => Q Raised s1 evs1
    | Rebooted => Q Rebooted s1 evs1
    end) ->
  ensures (bind m k) s Q.
Proof.
  unfold ensures, bind. destruct (m s) as [[a| |] s1 o1]; cbn; auto.
  destruct (k a s1) as [o s2 o2]; cbn; auto.
Qed.

Lemma ensures_try {A} (m h : M A) s Q :
  ensures m s (fun o s1 evs1 =>
    match o with
    | Raised => ensures h s1 (fun o' s2 evs2 => Q o' s2 (evs1 ++ evs2))
    | _ => Q o s1 evs1
    end) ->
  ensures (try_except m h) s Q.
Proof.
  unfold ensures, try_except. destruct (m s) as [[a| |] s1 o1]; cbn; auto.
  destruct (h s1) as [o s2 o2]; cbn; auto.
Qed.

(** One statement of the computation at a time; stops at a method call. *)
Ltac wp_step :=
  lazymatch goal with
  | |- ensures (bind _ _) _ _ => apply ensures_bind
  | |- ensures (try_except _ _) _ _ => apply ensures_try
  | |- ensures (ret _) _ _ => apply ensures_ret; cbv beta iota
  | |- ensures get _ _ => apply ensures_get; cbv beta iota
  | |- ensures (modify _) _ _ => apply ensures_modify; cbv beta iota
  | |- ensures (emit _) _ _ => apply ensures_emit; cbv beta iota
  | |- ensures raise _ _ => apply ensures_raise; cbv beta iota
  | |- ensures machine_reset _ _ => apply ensures_machine_reset; cbv beta iota
  | |- ensures (write_log _ _ _) _ _ => unfold write_log
  | |- ensures (sleep _) _ _ => unfold sleep
  | |- ensures (call_swallowed _) _ _ => unfold call_swallowed
  | |- ensures (call _ _) _ _ => unfold call
  | |- ensures (forget _) _ _ => unfold forget
  | |- ensures (query ?o) _ _ => unfold query
  | |- ensures (getattr_or_None ?a) _ _ => unfold getattr_or_None
  | |- ensures (if ?b then _ else _) _ _ => destruct b eqn:?
  | |- ensures (match ?x with _ => _ end) _ _ => destruct x eqn:?
  end.

Ltac wp := repeat wp_step.

(** Enters the method the computation is about to call. *)
Ltac wp_enter :=
  lazymatch goal with
  | |- ensures ?m _ _ => let h := head_of m in unfold h
  end.

(** Uses what is known of the method the computation is about to call. *)
Ltac wp_apply H :=
  eapply ensures_weaken; [ apply H | cbv beta; intros ? ? ? ? ].

Lemma ensures_any {A} (m : M A) s (Q : Outcome A -> Monitor -> list Event -> Prop) :
  (forall o s' evs, Q o s' evs) -> ensures m s Q.
Proof. intros H. apply H. Qed.

(** Steps over the method the computation is about to call, whatever it
    does. *)
Ltac wp_skip :=
  let o := fresh "o" in
  let s' := fresh "s'" in
  let evs := fresh "evs" in
  apply ensures_any; intros o s' evs; destruct o; cbv beta iota.

(** ** Counting what a computation emits *)

Lemma count_events_app p evs1 evs2 :
  count_events p (evs1 ++ evs2) = (count_events p evs1 + count_events p evs2)%nat.
Proof. unfold count_events. rewrite filter_app, List.length_app. reflexivity. Qed.

Section AtMost.
Context (p : Event -> bool).

Lemma at_most_ret {A} (a : A) : at_most p 0 (ret a).
Proof. intros s. cbn. lia. Qed.

Lemma at_most_get : at_most p 0 get.
Proof. intros s. cbn. lia. Qed.

Lemma at_most_modify f : at_most p 0 (modify f).
Proof. intros s. cbn. lia. Qed.

Lemma at_most_raise {A} : at_most p 0 (@raise A).
Proof. intros s. cbn. lia. Qed.

Lemma at_most_query {A} (o : option A) : at_most p 0 (query o).
Proof. destruct o; intros s; cbn; lia. Qed.

Lemma at_most_emit ev : p ev = false -> at_most p 0 (emit ev).
Proof. intros H s. unfold count_events. cbn. rewrite H. cbn. lia. Qed.

Lemma at_most_machine_reset {A} :
  p EvMachineReset = false -> at_most p 0 (@machine_reset A).
Proof. intros H s. unfold count_events. cbn. rewrite H. cbn. lia. Qed.

Lemma at_most_bind {A B} n1 n2 (m : M A) (k : A -> M B) :
  at_most p n1 m -> (forall a, at_most p n2 (k a)) ->
  at_most p (n1 + n2) (bind m k).
Proof.
  intros Hm Hk s. unfold bind. specialize (Hm s).
  destruct (m s) as [[a| |] s1 o1]; cbn [outcome final out] in *; try lia.
  specialize (Hk a s1). destruct (k a s1) as [o s2 o2]; cbn [outcome final out] in *.
  rewrite count_events_app. lia.
Qed.

Lemma at_most_try {A} n1 n2 (m h : M A) :
  at_most p n1 m -> at_most p n2 h -> at_most p (n1 + n2) (try_except m h).
Proof.
  intros Hm Hh s. unfold try_except. specialize (Hm s).
  destruct (m s) as [[a| |] s1 o1]; cbn [outcome final out] in *; try lia.
  specialize (Hh s1). destruct (h s1) as [o s2 o2]; cbn [outcome final out] in *.
  rewrite count_events_app. lia.
Qed.

Lemma at_most_more {A} n n' (m : M A) :
  at_most p n m -> (n <= n')%nat -> at_most p n' m.
Proof. intros H Hle s. specialize (H s). lia. Qed.
End AtMost.

(** Shows that a computation emits no event of kind [p], statement by
    statement; [tac] settles that an emitted event is of another kind. *)
Ltac quiet_step tac :=
  lazymatch goal with
  | |- at_most _ 0 (ret _) => apply at_most_ret
  | |- at_most _ 0 get => apply at_most_get
  | |- at_most _ 0 (modify _) => apply at_most_modify
  | |- at_most _ 0 raise => apply at_most_raise
  | |- at_most _ 0 (query _) => apply at_most_query
  | |- at_most _ 0 (emit _) => apply at_most_emit; tac
  | |- at_most _ 0 machine_reset => apply at_most_machine_reset; tac
  | |- at_most ?p 0 (bind _ _) => apply (at_most_bind p 0 0); [ | intros ? ]
  | |- at_most ?p 0 (try_except _ _) => apply (at_most_try p 0 0)
  | |- at_most _ 0 (if ?b then _ else _) => destruct b
  | |- at_most _ 0 (match ?x with _ => _ end) => destruct x
  | |- at_most _ 0 ?m =>
      first
        [ assumption
        | match goal with
          | H : forall _, at_most _ 0 _ |- _ => apply H
          | H : forall _ _, at_most _ 0 _ |- _ => apply H
          | H : forall _ _ _, at_most _ 0 _ |- _ => apply H
          end
        | let h := head_of m in unfold h ]
  end.

Ltac quiet := repeat (quiet_step ltac:(reflexivity)).

(** What the method about to be called keeps and how little it emits. *)
Lemma ensures_kept {A} (P : Monitor -> Prop) p n (m : M A) s :
  preserves P m -> at_most p n m -> P s ->
  ensures m s (fun _ s' evs => P s' /\ (count_events p evs <= n)%nat).
Proof. intros Hp Ha Hs. split; [ apply Hp, Hs | apply Ha ]. Qed.

(** The method about to be called keeps [P] and emits at most [n] events
    of kind [p]; goes on with the statements after the call. *)
Ltac wp_call P p n tac :=
  eapply ensures_weaken;
  [ apply (ensures_kept P p n); [ preserves_with tac | quiet | ]
  | let o := fresh "o" in
    let s' := fresh "s'" in
    let evs := fresh "evs" in
    let Hk := fresh "Hk" in
    let Hn := fresh "Hn" in
    cbv beta; intros o s' evs [Hk Hn]; destruct o; cbv beta iota ].

(** The wait for the link touches the link failure counter only, and emits
    only sleeps, feeds and log lines. *)
Lemma preserves_wifi_wait (P : Monitor -> Prop) :
  (forall s v, P s -> P (s<|wifi_error_count := v|>)) ->
  forall e n i, preserves P (wifi_wait e i n).
Proof.
  intros HP e n. induction n as [|n IH]; intros i;
    [ rewrite wifi_wait_O | rewrite wifi_wait_S ];
    preserves_with ltac:(apply HP; assumption).
Qed.

Lemma quiet_wifi_wait p :
  p (EvSleep 1000) = false -> p EvWdtFeed = false ->
  p (EvLog INFO "WiFi connected: " []) = false ->
  forall e n i, at_most p 0 (wifi_wait e i n).
Proof.
  intros H1 H2 H3 e n. induction n as [|n IH]; intros i;
    [ rewrite wifi_wait_O | rewrite wifi_wait_S ];
    repeat (quiet_step ltac:(assumption)).
Qed.

(** ** Invariants of the object *)

(** A property of the broker session and the sensor failure counter that
    the four methods assigning to them keep is kept by every method. *)
Section Invariant.
Variable P : Monitor -> Prop.
Variable libs : Libraries.
Hypothesis P_frame : forall s s',
  mqtt_connected s' = mqtt_connected s ->
  mqtt_client s' = mqtt_client s ->
  sensor_error_count s' = sensor_error_count s ->
  P s -> P s'.
Hypothesis P_memory : forall free_mem,
  preserves P (memory_management_aggressive free_mem).
Hypothesis P_connect_mqtt : forall e, preserves P (connect_mqtt_robust libs e).
Hypothesis P_publish : forall e, preserves P (publish_data_robust e).
Hypothesis P_read : forall e, preserves P (read_sensor_robust libs e).

Ltac frame_tac :=
  idtac;
  match goal with
  | H : P _ |- P _ => apply (P_frame _ _) with (4 := H); reflexivity
  end.

Lemma invariant_wifi_wait e n : forall i, preserves P (wifi_wait e i n).
Proof.
  induction n as [|n IH]; intros i; [ rewrite wifi_wait_O | rewrite wifi_wait_S ];
    preserves_with frame_tac.
Qed.

Lemma invariant_loop_pass e : preserves P (loop_pass libs e).
Proof.
  pose proof invariant_wifi_wait as Hw.
  preserves_with frame_tac.
Qed.

Lemma invariant_main_while passes : preserves P (main_while libs passes).
Proof.
  pose proof invariant_loop_pass as Hp.
  induction passes as [|e rest IH]; cbn [main_while];
    preserves_with frame_tac.
Qed.

Lemma invariant_run_op op : preserves P (run_op libs op).
Proof.
  pose proof invariant_wifi_wait as Hw.
  pose proof invariant_main_while as Hl.
  destruct op; cbn [run_op]; preserves_with frame_tac.
Qed.

Lemma invariant_reachable :
  (forall now, P (init_monitor now)) ->
  forall s, reachable libs s -> P s.
Proof.
  intros Hinit s Hs. induction Hs as [now | op s Hs IH].
  - apply Hinit.
  - apply invariant_run_op, IH.
Qed.
End Invariant.

(** *** The broker session stays consistent *)

Lemma session_memory_management free_mem :
  preserves session_consistent (memory_management_aggressive free_mem).
Proof.
  intros s H. unfold memory_management_aggressive, bind, get, emit; cbn.
  destruct (free_mem <? MEMORY_EMERGENCY_THRESHOLD);
    [ destruct (display s)
    | destruct (free_mem <? MEMORY_CRITICAL_THRESHOLD);
      [ destruct (mqtt_client s) eqn:E
      | destruct (free_mem <? MEMORY_WARNING_THRESHOLD) ] ];
    unfold session_consistent in *; cbn in *; auto; congruence.
Qed.

Lemma session_connect_mqtt libs e :
  preserves session_consistent (connect_mqtt_robust libs e).
Proof.
  intros s H. unfold connect_mqtt_robust.
  destruct (lib_umqtt libs); cbn; [ | exact H ].
  unfold try_except, bind, get; cbn.
  destruct (mqtt_client s) eqn:E, (m_new e), (m_connect e);
    unfold session_consistent in *; cbn in *; auto; congruence.
Qed.

Lemma session_publish e : preserves session_consistent (publish_data_robust e).
Proof.
  preserves_with
    ltac:(unfold session_consistent in *; cbn in *; auto; try congruence).
Qed.

Lemma session_read_sensor libs e :
  preserves session_consistent (read_sensor_robust libs e).
Proof.
  preserves_with
    ltac:(unfold session_consistent in *; cbn in *; auto; try congruence).
Qed.

Lemma session_reachable libs s : reachable libs s -> session_consistent s.
Proof.
  apply invariant_reachable.
  - intros s1 s2 H1 H2 _. unfold session_consistent. rewrite H1, H2. auto.
  - apply session_memory_management.
  - apply session_connect_mqtt.
  - apply session_publish.
  - apply session_read_sensor.
  - intros now. unfold session_consistent. cbn. discriminate.
Qed.

(** *** The sensor failure counter stays below its limit *)

(** The inner [try] of the sensor read always completes, and assigns the
    temperature and the humidity only. *)
Lemma read_temperature_humidity_returns e s :
  exists t h,
    read_temperature_humidity e s =
      mkRes (Returned tt) (s<|temperature_c := t|><|humidity_percent := h|>) [].
Proof.
  unfold read_temperature_humidity, try_except, bind; cbn.
  destruct (s_temperature e), (s_humidity e) as [| |hv],
    (s_relative_humidity e); cbn;
    try destruct (truthy hv); cbn; do 2 eexists; reflexivity.
Qed.

Arguments read_temperature_humidity : simpl never.

Ltac run_climate e :=
  match goal with
  | |- context [read_temperature_humidity e ?s1] =>
      let t := fresh "t" in
      let h := fresh "h" in
      let E := fresh "E" in
      destruct (read_temperature_humidity_returns e s1) as (t & h & E);
      rewrite E; clear E; cbn
  end.

Lemma init_sensor_returns libs e s :
  exists b, outcome (init_sensor_robust libs e s) = Returned b.
Proof.
  unfold init_sensor_robust.
  destruct (lib_scd4x libs); cbn; eauto.
  unfold try_except, bind; cbn.
  destruct (si_new e), (si_stop e), (si_start e); cbn; eauto.
Qed.

Ltac run_reinit libs e :=
  match goal with
  | |- context [init_sensor_robust libs (s_reinit e) ?s1] =>
      let b := fresh "b" in
      let Hb := fresh "Hb" in
      destruct (init_sensor_returns libs (s_reinit e) s1) as [b Hb];
      destruct (init_sensor_robust libs (s_reinit e) s1) as [? ? ?];
      cbn in Hb; subst; cbn
  end.

Lemma sensor_bounded_read libs e :
  preserves sensor_count_bounded (read_sensor_robust libs e).
Proof.
  intros s H. unfold read_sensor_robust, bind, get; cbn.
  destruct (scd40 s); cbn; [ | exact H ].
  unfold try_except, bind; cbn.
  destruct (s_data_ready e) as [[|]|]; cbn;
    [ destruct (s_CO2 e) as [[c|]|]; cbn | exact H | ];
    try run_climate e;
    try match goal with
        | |- context [(?c <? 0) || (?c >? 50000)] =>
            destruct ((c <? 0) || (c >? 50000)); cbn
        end;
    try match goal with
        | |- context [?n >=? MAX_SENSOR_FAILURES] =>
            let E := fresh "E" in
            destruct (n >=? MAX_SENSOR_FAILURES) eqn:E; cbn;
            [ run_reinit libs e | apply geb_false in E ]
        end;
    unfold sensor_count_bounded, MAX_SENSOR_FAILURES in *; cbn in *; lia.
Qed.

Lemma sensor_bounded_reachable libs s : reachable libs s -> sensor_count_bounded s.
Proof.
  apply invariant_reachable.
  - intros s1 s2 _ _ H. unfold sensor_count_bounded. rewrite H. auto.
  - intros f.
    preserves_with ltac:(unfold sensor_count_bounded in *; cbn in *; auto).
  - intros e.
    preserves_with ltac:(unfold sensor_count_bounded in *; cbn in *; auto).
  - intros e.
    preserves_with ltac:(unfold sensor_count_bounded in *; cbn in *; auto).
  - apply sensor_bounded_read.
  - intros now. unfold sensor_count_bounded, MAX_SENSOR_FAILURES. cbn. lia.
Qed.

(** ** An out-of-range CO2 value *)

Lemma invalid_co2_test (v : Z) :
  v < 0 \/ 50000 < v -> (v <? 0) || (v >? 50000) = true.
Proof.
  intros [H|H]; apply orb_true_iff.
  - left. apply Z.ltb_lt. exact H.
  - right. apply Z.gtb_lt. lia.
Qed.

(** The range test comes after the assignment: the sampled value is in
    [co2_ppm] when the read reports it as invalid. *)
Lemma invalid_co2_is_stored libs s e h v :
  scd40 s = Some h ->
  s_data_ready e = Some true ->
  s_CO2 e = Some (Some v) ->
  v < 0 \/ 50000 < v ->
  co2_ppm (final (read_sensor_robust libs e s)) = Some v.
Proof.
  intros Hs Hr Hc Hv.
  unfold read_sensor_robust, bind, get; cbn. rewrite Hs.
  unfold try_except, bind; cbn. rewrite Hr; cbn. rewrite Hc; cbn.
  run_climate e. rewrite (invalid_co2_test v Hv); cbn. reflexivity.
Qed.

(** C1, as stated, fails: after a valid reading of 800 ppm, a sample of
    60000 ppm replaces the stored reading, and the sensor failure counter
    is not incremented. *)
Lemma C1_counterexample :
  let s := after_good_reading in
  let r := read_sensor_robust all_libraries (sensor_reports 60000) s in
  reachable all_libraries s /\
  co2_ppm s = Some 800 /\
  co2_ppm (final r) = Some 60000 /\
  reading (final r) <> reading s /\
  sensor_error_count (final r) <> sensor_error_count s + 1.
Proof.
  cbv zeta. split; [ | vm_compute; repeat split; discriminate ].
  unfold after_good_reading. do 2 apply reach_op. apply reach_init.
Qed.

(** C1, amended: for every sampled CO2 value outside [0, 50000], the read
    reports failure, writes the "Invalid CO2" warning, does not count a
    successful reading, and leaves the sensor failure counter as it was
    (the counter is incremented only when the read raises). *)
Theorem C1_invalid_co2_reported_not_counted libs s e h v :
  scd40 s = Some h ->
  s_data_ready e = Some true ->
  s_CO2 e = Some (Some v) ->
  v < 0 \/ 50000 < v ->
  let r := read_sensor_robust libs e s in
  outcome r = Returned false /\
  out r = [EvLog WARNING "Invalid CO2: " [v]] /\
  successful_readings (final r) = successful_readings s /\
  sensor_error_count (final r) = sensor_error_count s.
Proof.
  intros Hs Hr Hc Hv r. subst r.
  unfold read_sensor_robust, bind, get; cbn. rewrite Hs.
  unfold try_except, bind; cbn. rewrite Hr; cbn. rewrite Hc; cbn.
  run_climate e. rewrite (invalid_co2_test v Hv); cbn. auto.
Qed.

(** At a sample of 60000 ppm after a reading of 800 ppm. *)
Lemma C1_invalid_co2_reported_not_counted_witness :
  let r := read_sensor_robust all_libraries (sensor_reports 60000) after_good_reading in
  outcome r = Returned false /\
  out r = [EvLog WARNING "Invalid CO2: " [60000]] /\
  successful_readings (final r) = successful_readings after_good_reading /\
  sensor_error_count (final r) = sensor_error_count after_good_reading.
Proof.
  apply (C1_invalid_co2_reported_not_counted all_libraries after_good_reading
           (sensor_reports 60000) 3%nat 60000).
  - reflexivity.
  - reflexivity.
  - reflexivity.
  - right. lia.
Defined.

(** ** The memory check *)

(** C3: the memory check does exactly what the zone of the free-memory
    value asks for.  Below 8000 (so at 7999) the display is released, the
    CRITICAL line is logged and the device reboots; in [8000, 12000) (so at
    11999) the broker client is dropped and the session marked disconnected,
    with a WARNING line and no reboot; in [12000, 20000) (so at 19999) only
    the WARNING line is logged; from 20000 on (so at 20001) nothing is done
    beyond the three collections. *)
Theorem C3_memory_zones free_mem s :
  session_consistent s ->
  let r := memory_management_aggressive free_mem s in
  (free_mem < 8000 ->
     outcome r = Rebooted /\
     final r = s<|display := None|> /\
     out r = three_collections
             ++ (if is_some (display s) then [EvDisplayShow TxtBlank] else [])
             ++ [EvLog CRITICAL "EMERGENCY_RESET: Memory=" [free_mem];
                 EvSleep 1000; EvMachineReset]) /\
  (8000 <= free_mem < 12000 ->
     outcome r = Returned free_mem /\
     final r = s<|mqtt_client := None|><|mqtt_connected := false|> /\
     out r = three_collections
             ++ (if is_some (mqtt_client s) then [EvMqttDisconnect] else [])
             ++ [EvLog WARNING "MEMORY_CRITICAL: " [free_mem]]) /\
  (12000 <= free_mem < 20000 ->
     outcome r = Returned free_mem /\
     final r = s /\
     out r = three_collections ++ [EvLog WARNING "MEMORY_WARNING: " [free_mem]]) /\
  (20000 <= free_mem ->
     outcome r = Returned free_mem /\
     final r = s /\
     out r = three_collections).
Proof.
  intros Hs r. subst r.
  unfold memory_management_aggressive, bind, get, emit,
    MEMORY_EMERGENCY_THRESHOLD, MEMORY_CRITICAL_THRESHOLD,
    MEMORY_WARNING_THRESHOLD; cbn.
  split; [ | split; [ | split ] ]; intros Hz; (split; [ | split ]).
  all: destruct (free_mem <? 8000) eqn:E1; try (apply Z.ltb_lt in E1; lia);
       try (apply Z.ltb_ge in E1; lia).
  all: try (destruct (free_mem <? 12000) eqn:E2;
            try (apply Z.ltb_lt in E2; lia); try (apply Z.ltb_ge in E2; lia)).
  all: try (destruct (free_mem <? 20000) eqn:E3;
            try (apply Z.ltb_lt in E3; lia); try (apply Z.ltb_ge in E3; lia)).
  all: try reflexivity.
  all: unfold session_consistent in Hs; destruct s; cbn in *.
  all: try match goal with
           | |- context [match ?d with Some _ => _ | None => _ end] =>
               destruct d; cbn; try reflexivity
           end.
  all: try match goal with
           | H : ?c = true -> None <> None |- _ =>
               destruct c; [ exfalso; apply H; reflexivity | reflexivity ]
           end.
Qed.

(** At 7999, 11999, 19999 and 20001 bytes with a display attached. *)
Lemma C3_memory_zones_witness :
  let s := (init_monitor 0)<|display := Some 5%nat|> in
  let r := memory_management_aggressive 7999 s in
  outcome r = Rebooted /\ display (final r) = None /\
  outcome (memory_management_aggressive 11999 s) = Returned 11999 /\
  final (memory_management_aggressive 19999 s) = s /\
  out (memory_management_aggressive 20001 s) = three_collections.
Proof.
  pose proof (C3_memory_zones 7999 ((init_monitor 0)<|display := Some 5%nat|>))
    as H1.
  pose proof (C3_memory_zones 11999 ((init_monitor 0)<|display := Some 5%nat|>))
    as H2.
  pose proof (C3_memory_zones 19999 ((init_monitor 0)<|display := Some 5%nat|>))
    as H3.
  pose proof (C3_memory_zones 20001 ((init_monitor 0)<|display := Some 5%nat|>))
    as H4.
  assert (Hs : session_consistent ((init_monitor 0)<|display := Some 5%nat|>))
    by (unfold session_consistent; cbn; discriminate).
  specialize (H1 Hs). specialize (H2 Hs). specialize (H3 Hs). specialize (H4 Hs).
  cbv zeta in *.
  destruct H1 as [H1 _]. destruct H2 as [_ [H2 _]].
  destruct H3 as [_ [_ [H3 _]]]. destruct H4 as [_ [_ [_ H4]]].
  destruct (H1 ltac:(lia)) as (A1 & A2 & _).
  destruct (H2 ltac:(lia)) as (B1 & _).
  destruct (H3 ltac:(lia)) as (_ & C1 & _).
  destruct (H4 ltac:(lia)) as (_ & _ & D1).
  rewrite A2. repeat split; assumption.
Defined.

(** ** The comfort index *)

(** Every number strictly between 68.15 and 68.25 rounds to 68.2: an
    error of the floating-point evaluation far larger than any rounding
    error of the formula does not change the result at 22.0 and 55.0. *)
Lemma py_round_about_68_2 (x : Q) :
  (68.15 < x)%Q -> (x < 68.25)%Q -> (py_round x 1 == 68.2)%Q.
Proof.
  destruct x as [n d]. unfold Qlt, Qeq, py_round.
  change (Pos.pow 10 (Pos.of_nat 1)) with 10%positive.
  unfold round_half_even, Qmult, inject_Z. cbn [Qnum Qden].
  rewrite Pos.mul_1_r. intros Hlo Hhi.
  pose proof (Z.div_mod (n * 10) (Zpos d) ltac:(lia)) as Hdm.
  pose proof (Z.mod_pos_bound (n * 10) (Zpos d) ltac:(lia)) as Hr.
  set (q := n * 10 / Zpos d) in *.
  set (m := (n * 10) mod Zpos d) in *.
  destruct (2 * m ?= Zpos d) eqn:E.
  - apply Z.compare_eq in E.
    assert (H : 2 * (n * 10) = Zpos d * (2 * q + 1)) by lia.
    assert (1363 < 2 * q + 1 < 1365) by nia.
    lia.
  - rewrite Z.compare_lt_iff in E. assert (q = 682) by nia. lia.
  - rewrite Z.compare_gt_iff in E. assert (q = 681) by nia. lia.
Qed.

(** C7, as stated, fails: at 22.0 and 55.0 the comfort index is not 68.0. *)
Lemma C7_counterexample :
  exists v,
    calculate_thi_efficient (Some 22.0%Q) (Some 55.0%Q) = Some v /\
    ~ (v == 68.0)%Q.
Proof.
  eexists. split.
  - reflexivity.
  - vm_compute. discriminate.
Qed.

(** C7, amended: at temperature 22.0 and humidity 55.0 the formula gives
    68.234 and the comfort index, rounded to one decimal, is 68.2. *)
Theorem C7_thi_of_22_and_55 :
  (0.81 * 22.0 + 0.01 * 55.0 * (0.99 * 22.0 - 14.3) + 46.3 == 68.234)%Q /\
  exists v,
    calculate_thi_efficient (Some 22.0%Q) (Some 55.0%Q) = Some v /\
    (v == 68.2)%Q.
Proof.
  split.
  - reflexivity.
  - eexists. split; reflexivity.
Qed.

(** ** The link that is already up *)

(** C8: when the link is already connected, [connect_wifi_robust] returns
    True at once: it does not deactivate or reactivate the interface, does
    not ask for a connection, does not sleep or feed the watchdog, and
    leaves the link failure counter alone.  With the interface object at
    hand it does nothing at all; without one it only creates and activates
    it before asking. *)
Theorem C8_connected_link_left_alone e s :
  w_isconnected e = Some true ->
  (wlan s = None -> exists w, w_new e = Some w /\ w_activate e = true) ->
  let r := connect_wifi_robust e s in
  outcome r = Returned true /\
  ~ In (EvWlanActive false) (out r) /\
  out r = (if is_some (wlan s) then [] else [EvWlanActive true]) /\
  wifi_error_count (final r) = wifi_error_count s /\
  (wlan s <> None -> final r = s).
Proof.
  intros Hc Hn r. subst r.
  unfold connect_wifi_robust, try_except, bind, get; cbn.
  destruct (wlan s) as [w|] eqn:Ew; cbn.
  - rewrite Hc; cbn. repeat split; auto.
  - destruct (Hn eq_refl) as (w & Hw & Ha). rewrite Hw; cbn.
    rewrite Ha; cbn. rewrite Hc; cbn.
    repeat split; auto; try congruence.
    intros [H|[]]. discriminate.
Qed.

(** With the interface object at hand and the link up. *)
Lemma C8_connected_link_left_alone_witness :
  let e := {| w_new := None; w_activate := false; w_isconnected := Some true;
              w_down := true; w_up := true; w_connect := true;
              w_poll := fun _ => Some true; w_ifconfig := true |} in
  let s := (init_monitor 0)<|wlan := Some 2%nat|> in
  outcome (connect_wifi_robust e s) = Returned true /\
  out (connect_wifi_robust e s) = [] /\
  final (connect_wifi_robust e s) = s.
Proof.
  intros e s.
  destruct (C8_connected_link_left_alone e s) as (H1 & _ & H3 & _ & H5).
  - reflexivity.
  - cbn. discriminate.
  - split; [ exact H1 | split; [ exact H3 | apply H5; cbn; discriminate ] ].
Defined.

(** ** A humidity of zero *)

(** C9: when the driver reports a falsy humidity (0.0 or None) as
    [humidity], the read takes the humidity from [relative_humidity]
    instead; when the driver has no such attribute, the stored humidity is
    None and no comfort index is computed, whatever the temperature. *)
Theorem C9_zero_humidity_is_absent libs s e h c hv :
  scd40 s = Some h ->
  s_data_ready e = Some true ->
  s_CO2 e = Some c ->
  s_humidity e = Value hv ->
  truthy hv = false ->
  let r := read_sensor_robust libs e s in
  (s_relative_humidity e = Missing ->
     humidity_percent (final r) = None /\ thi_value (final r) = None) /\
  (forall t v, s_temperature e = Value t -> s_relative_humidity e = Value v ->
     humidity_percent (final r) = v).
Proof.
  intros Hs Hr Hc Hh Hf r. subst r.
  unfold read_sensor_robust, bind, get; cbn. rewrite Hs.
  unfold try_except at 1. unfold bind; cbn. rewrite Hr; cbn. rewrite Hc; cbn.
  unfold read_temperature_humidity, try_except, bind; cbn.
  rewrite Hh; cbn.
  split.
  - intros Hm. rewrite Hm.
    destruct (s_temperature e) as [| |t]; cbn; rewrite ?Hf; cbn;
      destruct c as [c|]; cbn;
      try destruct ((c <? 0) || (c >? 50000)); cbn;
      split; try reflexivity; destruct t; reflexivity.
  - intros t v Ht Hv. rewrite Ht, Hv; cbn. rewrite Hf; cbn.
    destruct c as [c|]; cbn;
      try destruct ((c <? 0) || (c >? 50000)); cbn; reflexivity.
Qed.

(** At a humidity of 0.0 after a reading with 55.0 %. *)
Lemma C9_zero_humidity_is_absent_witness :
  let e := {| s_data_ready := Some true; s_CO2 := Some (Some 800);
              s_temperature := Value (Some 22.0%Q);
              s_humidity := Value (Some 0.0%Q);
              s_relative_humidity := Missing;
              s_reinit := sensor_starts |} in
  let r := read_sensor_robust all_libraries e after_good_reading in
  humidity_percent after_good_reading = Some 55.0%Q /\
  humidity_percent (final r) = None /\ thi_value (final r) = None.
Proof.
  intros e r. split; [ reflexivity | ].
  apply (C9_zero_humidity_is_absent all_libraries after_good_reading e 3%nat
           (Some 800) (Some 0.0%Q)); reflexivity.
Defined.

(** ** The failure counters *)

Lemma reachable_repeat_op libs op n : forall s,
  reachable libs s -> reachable libs (repeat_op libs op n s).
Proof.
  induction n as [|n IH]; intros s H; cbn.
  - exact H.
  - apply IH, reach_op, H.
Qed.

(** The wait for the link: it resets the counter when it sees the link,
    and leaves it alone otherwise; it never reboots. *)
Lemma wifi_wait_counter e n : forall i s,
  ensures (wifi_wait e i n) s (fun o s' _ =>
    match o with
    | Returned true => wifi_error_count s' = 0
    | Returned false => wifi_error_count s' = wifi_error_count s
    | Raised => wifi_error_count s' = wifi_error_count s
    | Rebooted => False
    end).
Proof.
  induction n as [|n IH]; intros i s.
  - rewrite wifi_wait_O. wp. reflexivity.
  - rewrite wifi_wait_S. wp; try reflexivity.
    wp_enter. wp; wp_apply IH; assumption.
Qed.

Lemma connect_wifi_counter e s :
  ensures (connect_wifi_robust e) s (fun o s' _ =>
    match o with
    | Returned true => True
    | Returned false => wifi_error_count s' = wifi_error_count s + 1
    | _ => False
    end).
Proof.
  wp_enter. wp; cbn; auto.
  all: wp_apply wifi_wait_counter.
  all: match goal with o : Outcome bool |- _ => destruct o as [[|]| |] end.
  all: wp; cbn in *; auto; try lia.
Qed.

Lemma feed_result s :
  feed_watchdog_safe s =
    mkRes (Returned tt) s (if is_some (watchdog s) then [EvWdtFeed] else []).
Proof.
  unfold feed_watchdog_safe, bind, get, call_swallowed, emit, ret.
  destruct (watchdog s); reflexivity.
Qed.

(** *** The broker and link counters are not consulted *)

Lemma connect_mqtt_same libs e s n k :
  same_but_counters (connect_mqtt_robust libs e (with_counters s n k))
                    (connect_mqtt_robust libs e s).
Proof.
  unfold same_but_counters, with_counters, connect_mqtt_robust.
  destruct (lib_umqtt libs); cbn; [ | repeat split; reflexivity ].
  unfold try_except, bind, get; cbn.
  destruct (mqtt_client s), (m_new e), (m_connect e); cbn;
    repeat split; reflexivity.
Qed.

Lemma publish_same e s n k :
  same_but_counters (publish_data_robust e (with_counters s n k))
                    (publish_data_robust e s).
Proof.
  unfold same_but_counters, with_counters, publish_data_robust, bind, get; cbn.
  destruct (mqtt_connected s), (mqtt_client s); cbn;
    try (repeat split; reflexivity).
  unfold try_except, bind, call; cbn.
  destruct (co2_ppm s); cbn; [ destruct (p_co2 e); cbn | ];
    try (repeat split; reflexivity);
    match goal with |- context [if ?b then _ else _] => destruct b end; cbn;
    try (repeat split; reflexivity);
    destruct (p_sensor e); cbn; repeat split; reflexivity.
Qed.

Lemma wifi_wait_same e n : forall i s1 s2,
  with_counters s1 0 0 = with_counters s2 0 0 ->
  same_but_counters (wifi_wait e i n s1) (wifi_wait e i n s2).
Proof.
  induction n as [|n IH]; intros i s1 s2 H.
  - rewrite wifi_wait_O. repeat split; assumption.
  - assert (Hw : watchdog s1 = watchdog s2)
      by exact (f_equal watchdog H).
    rewrite wifi_wait_S. unfold bind.
    destruct (w_poll e i) as [[|]|]; cbn [query ret raise sleep emit].
    + destruct (w_ifconfig e); cbn; repeat split; try reflexivity; exact H.
    + rewrite !feed_result, Hw.
      specialize (IH (S i) s1 s2 H).
      destruct (wifi_wait e (S i) n s1) as [o1 f1 ev1],
               (wifi_wait e (S i) n s2) as [o2 f2 ev2].
      destruct IH as (Ho & Hf & Hev). cbn in Ho, Hf, Hev. subst o2.
      destruct (watchdog s2); unfold same_but_counters;
        cbn [outcome final out app map forget_numbers is_some];
        (split; [ reflexivity | split; [ exact Hf | rewrite Hev; reflexivity ] ]).
    + repeat split; assumption.
Qed.

Lemma connect_wifi_same_from e s1 s2 :
  with_counters s1 0 0 = with_counters s2 0 0 ->
  same_but_counters (connect_wifi_robust e s1) (connect_wifi_robust e s2).
Proof.
  intros H.
  assert (Hwlan : wlan s1 = wlan s2) by exact (f_equal wlan H).
  assert (Hset : forall w,
            with_counters (s1<|wlan := Some w|>) 0 0
              = with_counters (s2<|wlan := Some w|>) 0 0)
    by (intros w; exact (f_equal (fun s => s<|wlan := Some w|>) H)).
  unfold connect_wifi_robust, try_except. unfold call, bind, get.
  rewrite Hwlan.
  destruct (wlan s2) as [w|]; cbn [ret query raise sleep emit modify];
    [ | destruct (w_new e) as [w|]; cbn [ret query raise sleep emit modify];
        [ destruct (w_activate e); cbn [ret query raise sleep emit modify] | ] ].
  all: try (cbn; repeat split; try reflexivity; first [ exact H | apply Hset ]).
  all: destruct (w_isconnected e) as [[|]|]; cbn [ret query raise sleep emit modify];
    try (cbn; repeat split; try reflexivity; first [ exact H | apply Hset ]).
  all: destruct (w_down e); cbn [ret query raise sleep emit modify app];
    try (cbn; repeat split; try reflexivity; first [ exact H | apply Hset ]).
  all: destruct (w_up e); cbn [ret query raise sleep emit modify app];
    try (cbn; repeat split; try reflexivity; first [ exact H | apply Hset ]).
  all: destruct (w_connect e); cbn [ret query raise sleep emit modify app];
    try (cbn; repeat split; try reflexivity; first [ exact H | apply Hset ]).
  all: match goal with
       | |- context [wifi_wait _ 0 30 ?a] =>
           match goal with
           | |- same_but_counters _ ?rhs =>
               match rhs with
               | context [wifi_wait _ 0 30 ?b] =>
                   let Hw := fresh "Hw" in
                   assert (Hw : same_but_counters (wifi_wait e 0 30 a)
                                                  (wifi_wait e 0 30 b))
                     by (apply wifi_wait_same; first [ exact H | apply Hset ]);
                   destruct (wifi_wait e 0 30 a) as [o1 f1 ev1],
                            (wifi_wait e 0 30 b) as [o2 f2 ev2];
                   destruct Hw as (Ho & Hf & Hev); cbn in Ho, Hf, Hev; subst o2
               end
           end
       end.
  all: unfold same_but_counters.
  all: destruct o1 as [[|]| |]; cbn -[with_counters map];
    cbn [map]; rewrite ?map_app, ?Hev;
    (split; [ reflexivity | split; [ exact Hf | reflexivity ] ]).
Qed.

Lemma connect_wifi_same e s n k :
  same_but_counters (connect_wifi_robust e (with_counters s n k))
                    (connect_wifi_robust e s).
Proof. apply connect_wifi_same_from. reflexivity. Qed.

(** *** A counter goes down only on a success *)

Lemma fall_same s evs : counters_fall_on_success_only s s evs.
Proof. unfold counters_fall_on_success_only. split; [ lia | split; intros; lia ]. Qed.

Lemma fall_trans s s1 s2 evs1 evs2 :
  counters_fall_on_success_only s s1 evs1 ->
  counters_fall_on_success_only s1 s2 evs2 ->
  counters_fall_on_success_only s s2 (evs1 ++ evs2).
Proof.
  unfold counters_fall_on_success_only.
  intros (T1 & B1 & L1) (T2 & B2 & L2).
  split; [ lia | split ].
  - intros H.
    destruct (Z_lt_le_dec (mqtt_error_count s1) (mqtt_error_count s)) as [Hlt|Hge].
    + destruct (B1 Hlt) as [Hin|Ht]; [ left; apply in_or_app; auto | right; lia ].
    + destruct (B2 ltac:(lia)) as [Hin|Ht]; [ left; apply in_or_app; auto | right; lia ].
  - intros H. apply in_or_app.
    destruct (Z_lt_le_dec (wifi_error_count s1) (wifi_error_count s)) as [Hlt|Hge].
    + left. apply L1, Hlt.
    + right. apply L2. lia.
Qed.

Lemma orderly_ret {A} (a : A) : orderly (ret a).
Proof. intros s. apply fall_same. Qed.

Lemma orderly_get : orderly get.
Proof. intros s. apply fall_same. Qed.

Lemma orderly_emit ev : orderly (emit ev).
Proof. intros s. apply fall_same. Qed.

Lemma orderly_raise {A} : orderly (@raise A).
Proof. intros s. apply fall_same. Qed.

Lemma orderly_machine_reset {A} : orderly (@machine_reset A).
Proof. intros s. apply fall_same. Qed.

Lemma orderly_query {A} (o : option A) : orderly (query o).
Proof. intros s. destruct o; apply fall_same. Qed.

Lemma orderly_call ev ok : orderly (call ev ok).
Proof. intros s. destruct ok; apply fall_same. Qed.

Lemma orderly_modify f :
  (forall s, counters_fall_on_success_only s (f s) []) -> orderly (modify f).
Proof. intros H s. apply H. Qed.

Lemma orderly_bind {A B} (m : M A) (k : A -> M B) :
  orderly m -> (forall a, orderly (k a)) -> orderly (bind m k).
Proof.
  intros Hm Hk s. unfold bind. specialize (Hm s).
  destruct (m s) as [[a| |] s1 o1]; cbn in *; try exact Hm.
  specialize (Hk a s1). destruct (k a s1) as [o s2 o2]; cbn in *.
  apply fall_trans with (s1 := s1); assumption.
Qed.

Lemma orderly_try {A} (m h : M A) : orderly m -> orderly h -> orderly (try_except m h).
Proof.
  intros Hm Hh s. unfold try_except. specialize (Hm s).
  destruct (m s) as [[a| |] s1 o1]; cbn in *; try exact Hm.
  specialize (Hh s1). destruct (h s1) as [o s2 o2]; cbn in *.
  apply fall_trans with (s1 := s1); assumption.
Qed.

Lemma orderly_forget {A} (m : M A) : orderly m -> orderly (forget m).
Proof. intros Hm. apply orderly_bind; [ exact Hm | intros a; apply orderly_ret ]. Qed.

(** Breaks a computation into its statements; what is left are the
    assignments, none of which may lower a counter. *)
Ltac orderly_step :=
  lazymatch goal with
  | |- orderly (ret _) => apply orderly_ret
  | |- orderly get => apply orderly_get
  | |- orderly (emit _) => apply orderly_emit
  | |- orderly raise => apply orderly_raise
  | |- orderly machine_reset => apply orderly_machine_reset
  | |- orderly (query _) => apply orderly_query
  | |- orderly (call _ _) => apply orderly_call
  | |- orderly (forget _) => apply orderly_forget
  | |- orderly (bind _ _) => apply orderly_bind; [ | intros ? ]
  | |- orderly (try_except _ _) => apply orderly_try
  | |- orderly (modify _) =>
      apply orderly_modify; intros ?;
      unfold counters_fall_on_success_only; cbn;
      (split; [ lia | split; intros; lia ])
  | |- orderly (if ?b then _ else _) => destruct b
  | |- orderly (match ?x with _ => _ end) => destruct x
  | |- orderly ?m =>
      first
        [ assumption
        | match goal with
          | H : forall _, orderly _ |- _ => apply H
          | H : forall _ _, orderly _ |- _ => apply H
          | H : forall _ _ _, orderly _ |- _ => apply H
          end
        | let h := head_of m in unfold h ]
  end.

Ltac orderly_steps := repeat orderly_step.

Lemma orderly_connect_mqtt libs e : orderly (connect_mqtt_robust libs e).
Proof.
  intros s. unfold connect_mqtt_robust.
  destruct (lib_umqtt libs); cbn; [ | apply fall_same ].
  unfold try_except, bind, get; cbn.
  unfold counters_fall_on_success_only, broker_connected_logged.
  destruct (mqtt_client s), (m_new e), (m_connect e); cbn;
    (split; [ lia | split; intros; first [ lia | left; auto 10 ] ]).
Qed.

Lemma orderly_publish e : orderly (publish_data_robust e).
Proof.
  intros s. unfold publish_data_robust, bind, get; cbn.
  destruct (mqtt_connected s), (mqtt_client s); cbn; try apply fall_same.
  unfold try_except, bind, call; cbn.
  unfold counters_fall_on_success_only.
  destruct (co2_ppm s); cbn; [ destruct (p_co2 e); cbn | ];
    try (split; [ lia | split; intros; first [ lia | right; lia ] ]);
    match goal with |- context [if ?b then _ else _] => destruct b end; cbn;
    try (split; [ lia | split; intros; first [ lia | right; lia ] ]);
    destruct (p_sensor e); cbn;
    (split; [ lia | split; intros; first [ lia | right; lia ] ]).
Qed.

Lemma orderly_wifi_wait e n : forall i, orderly (wifi_wait e i n).
Proof.
  induction n as [|n IH]; intros i;
    [ rewrite wifi_wait_O; apply orderly_ret | rewrite wifi_wait_S ].
  apply orderly_bind; [ apply orderly_query | intros c ].
  destruct c.
  - intros s. unfold bind; cbn.
    unfold counters_fall_on_success_only, link_connected_logged.
    destruct (w_ifconfig e); cbn;
      (split; [ lia | split; intros; first [ lia | auto 10 ] ]).
  - orderly_steps.
Qed.

Lemma orderly_run_op libs op : orderly (run_op libs op).
Proof.
  pose proof (orderly_connect_mqtt libs) as Hc.
  pose proof orderly_publish as Hp.
  pose proof orderly_wifi_wait as Hw.
  assert (Hpass : forall e, orderly (loop_pass libs e))
    by (intros e; orderly_steps).
  assert (Hloop : forall passes, orderly (main_while libs passes))
    by (intros passes; induction passes; cbn [main_while]; orderly_steps).
  destruct op; cbn [run_op]; orderly_steps.
Qed.

(** C2, as stated, fails: eleven refused broker connections in a row leave
    the broker failure counter at 11, above [MAX_MQTT_FAILURES]. *)
Lemma C2_counterexample :
  let s := repeat_op all_libraries (OpConnectMqtt broker_refuses) 11 (init_monitor 0) in
  reachable all_libraries s /\
  mqtt_error_count s = 11 /\
  MAX_MQTT_FAILURES < mqtt_error_count s.
Proof.
  cbv zeta. split.
  - apply reachable_repeat_op, reach_init.
  - vm_compute. split; reflexivity.
Qed.

(** C2, amended: the sensor failure counter stays below its limit of 15
    in every reachable state: a raising read that brings it to 15
    reinitialises the sensor exactly once and resets the counter to zero in
    the same call, and any other raising read adds one.  The broker and
    link counters have no limit and are not consulted.  A broker
    connection with the library there, a data publish with the session up
    and a link connection add one to their counter whenever they return
    False, whatever the count; a status report leaves the broker counter
    alone, also when its publish fails.  Started with any other counts,
    each of the three methods ends the same way, emits the same events but
    for the count shown in its log line, and leaves the same object but for
    the counters: no count triggers a reinitialisation
    ([MAX_MQTT_FAILURES] and [MAX_CONSECUTIVE_ERRORS] are not consulted).
    And through any method, a counter goes down, in particular back to
    zero, only if meanwhile a connection to the broker succeeded or a
    transmission was counted (broker counter), or a connection of the link
    succeeded (link counter). *)
Theorem C2_only_sensor_counter_is_limited libs s :
  reachable libs s ->
  sensor_count_bounded s /\
  (forall e h, scd40 s = Some h -> read_raises e = true ->
     let r := read_sensor_robust libs e s in
     let s1 := s<|sensor_error_count := sensor_error_count s + 1|> in
     let failed := EvLog ERROR "Sensor read error (count ): " [sensor_error_count s + 1] in
     let limit := EvLog WARNING "Sensor failure limit reached, reinitializing" [] in
     let reinit := init_sensor_robust libs (s_reinit e) s1 in
     outcome r = Returned false /\
     if sensor_error_count s + 1 >=? MAX_SENSOR_FAILURES
     then final r = (final reinit)<|sensor_error_count := 0|> /\
          out r = [failed; limit] ++ out reinit
     else final r = s1 /\ out r = [failed]) /\
  (forall e, lib_umqtt libs = true ->
     let r := connect_mqtt_robust libs e s in
     outcome r = Returned false ->
     mqtt_error_count (final r) = mqtt_error_count s + 1) /\
  (forall e, mqtt_connected s = true ->
     let r := publish_data_robust e s in
     outcome r = Returned false ->
     mqtt_error_count (final r) = mqtt_error_count s + 1) /\
  (forall e,
     let r := connect_wifi_robust e s in
     outcome r = Returned false ->
     wifi_error_count (final r) = wifi_error_count s + 1) /\
  (forall e,
     mqtt_error_count (final (send_system_status e s)) = mqtt_error_count s) /\
  (forall n k,
     (forall e, same_but_counters
                  (connect_mqtt_robust libs e (with_counters s n k))
                  (connect_mqtt_robust libs e s)) /\
     (forall e, same_but_counters
                  (publish_data_robust e (with_counters s n k))
                  (publish_data_robust e s)) /\
     (forall e, same_but_counters
                  (connect_wifi_robust e (with_counters s n k))
                  (connect_wifi_robust e s))) /\
  (forall op,
     let r := run_op libs op s in
     counters_fall_on_success_only s (final r) (out r)).
Proof.
  intros Hreach.
  split; [ apply (sensor_bounded_reachable libs), Hreach | ].
  split; [ | split; [ | split; [ | split; [ | split; [ | split ] ] ] ] ].
  - intros e h Hs Hraise r s1 failed limit reinit.
    subst r s1 failed limit reinit.
    unfold read_sensor_robust, bind, get; cbn. rewrite Hs.
    unfold try_except, bind; cbn.
    unfold read_raises in Hraise.
    destruct (s_data_ready e) as [[|]|]; cbn; try discriminate.
    + destruct (s_CO2 e) as [c|]; cbn; try discriminate.
      destruct (sensor_error_count s + 1 >=? MAX_SENSOR_FAILURES); cbn; auto.
      match goal with
      | |- context [init_sensor_robust libs (s_reinit e) ?s1] =>
          destruct (init_sensor_returns libs (s_reinit e) s1) as [b Hb];
          destruct (init_sensor_robust libs (s_reinit e) s1) as [o s2 o2]
      end.
      cbn in Hb; subst o; cbn. rewrite ?app_nil_r. auto.
    + destruct (sensor_error_count s + 1 >=? MAX_SENSOR_FAILURES); cbn; auto.
      match goal with
      | |- context [init_sensor_robust libs (s_reinit e) ?s1] =>
          destruct (init_sensor_returns libs (s_reinit e) s1) as [b Hb];
          destruct (init_sensor_robust libs (s_reinit e) s1) as [o s2 o2]
      end.
      cbn in Hb; subst o; cbn. rewrite ?app_nil_r. auto.
  - intros e Hlib r. subst r. unfold connect_mqtt_robust. rewrite Hlib; cbn.
    unfold try_except, bind, get; cbn.
    destruct (mqtt_client s), (m_new e), (m_connect e); cbn;
      intros H; try discriminate; reflexivity.
  - intros e Hc r. subst r.
    pose proof (session_reachable libs s Hreach Hc) as Hclient.
    unfold publish_data_robust, bind, get; cbn. rewrite Hc.
    destruct (mqtt_client s) as [c|]; [ | congruence ]. cbn.
    unfold try_except, bind; cbn.
    destruct (co2_ppm s) as [v|]; cbn.
    + destruct (p_co2 e); cbn.
      * match goal with |- context [if ?b then _ else _] => destruct b end; cbn.
        -- destruct (p_sensor e); cbn; intros H; try discriminate; reflexivity.
        -- intros H; discriminate.
      * intros _. reflexivity.
    + match goal with |- context [if ?b then _ else _] => destruct b end; cbn.
      * destruct (p_sensor e); cbn; intros H; try discriminate; reflexivity.
      * intros H; discriminate.
  - intros e r. subst r.
    pose proof (connect_wifi_counter e s) as H. unfold ensures in H.
    intros Ho. rewrite Ho in H. exact H.
  - intros e. unfold send_system_status, bind, get; cbn.
    destruct (mqtt_connected s); cbn; [ | reflexivity ].
    unfold try_except; cbn.
    destruct (mqtt_client s); cbn; [ destruct (st_publish e) | ]; reflexivity.
  - intros n k. split; [ | split ]; intros e.
    + apply connect_mqtt_same.
    + apply publish_same.
    + apply connect_wifi_same.
  - intros op r. apply orderly_run_op.
Qed.

(** At the fifteenth raising read in a row. *)
Lemma C2_only_sensor_counter_is_limited_witness :
  let s := after_14_failed_reads in
  let r := read_sensor_robust all_libraries sensor_raises s in
  sensor_count_bounded s /\
  sensor_error_count s = 14 /\
  sensor_error_count (final r) = 0 /\
  out r = [EvLog ERROR "Sensor read error (count ): " [15];
           EvLog WARNING "Sensor failure limit reached, reinitializing" [];
           EvSensorStop; EvSleep 2000; EvSensorStart;
           EvLog INFO "Sensor initialized" []].
Proof.
  intros s r.
  assert (Hreach : reachable all_libraries s).
  { unfold s, after_14_failed_reads.
    apply reachable_repeat_op, reach_op, reach_init. }
  destruct (C2_only_sensor_counter_is_limited all_libraries s Hreach)
    as (Hb & Hsensor & _).
  destruct (Hsensor sensor_raises 3%nat eq_refl eq_refl) as (_ & Hlimit).
  change (sensor_error_count s + 1 >=? MAX_SENSOR_FAILURES) with true in Hlimit.
  destruct Hlimit as (Hfinal & Hout).
  fold r in Hfinal, Hout.
  split; [ exact Hb | ]. split; [ reflexivity | ].
  split; [ rewrite Hfinal; reflexivity | rewrite Hout; reflexivity ].
Defined.

(** ** The broker session *)

(** C10: in every state the object can be seen in, [mqtt_connected] is
    True only when [mqtt_client] is there.  [connect_mqtt_robust] reports
    success only after it stored the new client and then set the flag; a
    memory check that leaves no client leaves the flag False; so the
    publish paths, which test the flag, find a client whenever the flag is
    True. *)
Theorem C10_connected_only_with_client libs s :
  reachable libs s ->
  session_consistent s /\
  (mqtt_connected s = true -> exists c, mqtt_client s = Some c) /\
  (forall e, let r := connect_mqtt_robust libs e s in
     outcome r = Returned true ->
     mqtt_connected (final r) = true /\
     exists c, m_new e = Some c /\ mqtt_client (final r) = Some c) /\
  (forall free_mem, let r := memory_management_aggressive free_mem s in
     mqtt_client (final r) = None -> mqtt_connected (final r) = false).
Proof.
  intros Hreach.
  pose proof (session_reachable libs s Hreach) as Hs.
  split; [ exact Hs | ]. split; [ | split ].
  - intros Hc. specialize (Hs Hc). destruct (mqtt_client s) as [c|].
    + exists c. reflexivity.
    + congruence.
  - intros e r. subst r. unfold connect_mqtt_robust.
    destruct (lib_umqtt libs); cbn; [ | discriminate ].
    unfold try_except, bind, get; cbn.
    destruct (mqtt_client s), (m_new e) as [c|], (m_connect e); cbn;
      intros H; try discriminate; (split; [ reflexivity | exists c; auto ]).
  - intros free_mem r. subst r.
    pose proof (session_memory_management free_mem s Hs) as Hf.
    unfold session_consistent in Hf.
    intros Hn. destruct (mqtt_connected (final _)); [ | reflexivity ].
    exfalso. apply Hf; auto.
Qed.

(** After a connection and a memory check in the critical zone. *)
Lemma C10_connected_only_with_client_witness :
  session_consistent after_session_teardown /\
  mqtt_client after_session_teardown = None /\
  mqtt_connected after_session_teardown = false.
Proof.
  assert (H : reachable all_libraries after_session_teardown)
    by (unfold after_session_teardown; do 2 apply reach_op; apply reach_init).
  destruct (C10_connected_only_with_client all_libraries after_session_teardown H)
    as (H1 & _).
  split; [ exact H1 | split; reflexivity ].
Defined.

(** ** Feeding the watchdog *)

Lemma feeds_wifi_wait e n : forall i, at_most is_feed n (wifi_wait e i n).
Proof.
  induction n as [|n IH]; intros i;
    [ rewrite wifi_wait_O | rewrite wifi_wait_S ].
  - quiet.
  - apply (at_most_bind is_feed 0 (S n)); [ quiet | intros c ].
    destruct c.
    + apply at_most_more with (n := 0%nat); [ quiet | lia ].
    + apply (at_most_bind is_feed 0 (S n)); [ quiet | intros _ ].
      apply (at_most_bind is_feed 1 n); [ | intros _; apply IH ].
      intros s. unfold feed_watchdog_safe, bind, get; cbn.
      destruct (watchdog s); cbn; lia.
Qed.

Lemma feeds_connect_wifi e : at_most is_feed 30 (connect_wifi_robust e).
Proof.
  unfold connect_wifi_robust.
  apply (at_most_try is_feed 30 0); [ | quiet ].
  apply (at_most_bind is_feed 0 30); [ quiet | intros s ].
  apply (at_most_bind is_feed 0 30); [ quiet | intros _ ].
  apply (at_most_bind is_feed 0 30); [ quiet | intros c ].
  destruct c.
  - apply at_most_more with (n := 0%nat); [ quiet | lia ].
  - do 5 (apply (at_most_bind is_feed 0 30); [ quiet | intros _ ]).
    apply (at_most_bind is_feed 30 0); [ apply feeds_wifi_wait | intros j ].
    quiet.
Qed.

Lemma feeds_check_connections libs e :
  at_most is_feed 30 (check_connections_robust libs e).
Proof.
  pose proof feeds_connect_wifi as Hw.
  unfold check_connections_robust.
  apply (at_most_bind is_feed 0 30); [ quiet | intros s ].
  apply (at_most_bind is_feed 30 0); [ | intros _; quiet ].
  destruct (wlan s).
  - apply (at_most_bind is_feed 0 30); [ quiet | intros c ].
    destruct (negb c).
    + apply (at_most_bind is_feed 30 0); [ apply Hw | intros _; quiet ].
    + apply at_most_more with (n := 0%nat); [ quiet | lia ].
  - apply (at_most_bind is_feed 30 0); [ apply Hw | intros _; quiet ].
Qed.

Lemma feeds_maintenance libs e :
  at_most is_feed 30 (run_system_maintenance libs e).
Proof.
  unfold run_system_maintenance.
  apply (at_most_bind is_feed 0 30); [ quiet | intros s ].
  apply (at_most_bind is_feed 0 30); [ quiet | intros _ ].
  apply (at_most_bind is_feed 0 30); [ quiet | intros s1 ].
  apply (at_most_bind is_feed 30 0); [ | intros _; quiet ].
  destruct (due _ _ _).
  - apply (at_most_bind is_feed 30 0);
      [ apply feeds_check_connections | intros _; quiet ].
  - apply at_most_more with (n := 0%nat); [ quiet | lia ].
Qed.

(** The maintenance of a pass feeds the watchdog only through a
    connectivity check. *)
Lemma maintenance_quiet_unless_check libs e s :
  due (mt_now e) (last_connection_check s) CONNECTION_RETRY_INTERVAL = false ->
  count_feeds (out (run_system_maintenance libs e s)) = 0%nat.
Proof.
  intros Hdue.
  enough (H : ensures (run_system_maintenance libs e) s
                (fun _ _ evs => (count_events is_feed evs <= 0)%nat))
    by (unfold ensures in H; unfold count_feeds; lia).
  unfold run_system_maintenance. wp.
  all: try congruence.
  all: try (wp_call (fun s' => last_connection_check s' = last_connection_check s)
              is_feed 0%nat ltac:(cbn; auto); [ reflexivity | wp .. ]).
  all: try (cbn in *; congruence).
  all: repeat (wp_call (fun _ : Monitor => True) is_feed 0%nat ltac:(exact I);
               [ exact I | wp .. ]).
  all: rewrite ?count_events_app; cbn in *; try lia.
Qed.

(** C6, as stated, fails: in a pass whose connectivity check finds the
    link down and waits in vain for it, the watchdog is fed 31 times. *)
Lemma C6_counterexample :
  let s := after_smooth_start in
  let r := loop_pass all_libraries (pass_at 1300 true false link_stays_down) s in
  reachable all_libraries s /\
  outcome r = Returned tt /\
  count_feeds (out r) = 31%nat.
Proof.
  cbv zeta. split.
  - unfold after_smooth_start. apply reach_op, reach_init.
  - vm_compute. split; reflexivity.
Qed.

(** C6, amended: on every pass of the loop with the watchdog armed, the
    watchdog is fed once at the start of the pass, before anything else is
    done; it is fed again only during the wait for the link inside the
    connectivity check, at most 30 times, so between 1 and 31 times in a
    pass, and exactly once in a pass whose connectivity check is not due. *)
Theorem C6_fed_first_and_while_waiting libs e s w :
  watchdog s = Some w ->
  let r := loop_pass libs e s in
  (exists rest, out r = EvWdtFeed :: rest /\ (count_feeds rest <= 30)%nat) /\
  (1 <= count_feeds (out r) <= 31)%nat /\
  (due (mt_now (ps_maint e)) (last_connection_check s) CONNECTION_RETRY_INTERVAL = false ->
   count_feeds (out r) = 1%nat).
Proof.
  intros Hw r. subst r. unfold loop_pass.
  match goal with
  | |- context [bind feed_watchdog_safe ?k] =>
      let body := eval cbv beta in (k tt) in set (rest := body)
  end.
  assert (Hfeed : feed_watchdog_safe s = mkRes (Returned tt) s [EvWdtFeed])
    by (unfold feed_watchdog_safe, bind, get; cbn; rewrite Hw; reflexivity).
  assert (Hmost : at_most is_feed 30 rest).
  { subst rest.
    apply (at_most_bind is_feed 0 30); [ quiet | intros _ ].
    apply (at_most_bind is_feed 0 30); [ quiet | intros _ ].
    apply (at_most_bind is_feed 30 0);
      [ apply feeds_maintenance | intros _; quiet ]. }
  assert (Hquiet :
    due (mt_now (ps_maint e)) (last_connection_check s) CONNECTION_RETRY_INTERVAL = false ->
    ensures rest s (fun _ _ evs => (count_events is_feed evs <= 0)%nat)).
  { intros Hdue. subst rest. wp.
    wp_call (fun s' => last_connection_check s' = last_connection_check s)
      is_feed 0%nat ltac:(cbn; auto); [ reflexivity | wp .. ].
    2, 3: rewrite ?count_events_app; cbn in *; lia.
    wp_call (fun s' => last_connection_check s' = last_connection_check s)
      is_feed 0%nat ltac:(cbn; auto); [ assumption | wp .. ].
    2, 3: rewrite ?count_events_app; cbn in *; lia.
    rewrite <- Hk0 in Hdue.
    pose proof (maintenance_quiet_unless_check libs (ps_maint e) _ Hdue) as Hm.
    apply (ensures_weaken _ _ (fun _ _ evs => count_feeds evs = 0%nat));
      [ exact Hm | ].
    unfold count_feeds. intros o s2 evs2 Hn2. destruct o; wp;
      rewrite ?count_events_app; cbn in *; lia. }
  assert (Hrun : (feed_watchdog_safe;; rest) s =
                 match rest s with
                 | mkRes o s2 o2 => mkRes o s2 (EvWdtFeed :: o2)
                 end)
    by (unfold bind; rewrite Hfeed; reflexivity).
  rewrite Hrun. clear Hrun.
  specialize (Hmost s). unfold ensures in Hquiet.
  destruct (rest s) as [o s2 o2]; cbn [out] in *.
  unfold count_feeds.
  assert (Hcons : count_events is_feed (EvWdtFeed :: o2)
                  = S (count_events is_feed o2)) by reflexivity.
  split; [ exists o2; split; [ reflexivity | exact Hmost ] | ].
  rewrite Hcons. split; [ lia | ].
  intros Hdue. specialize (Hquiet Hdue). lia.
Qed.

(** On the first pass after a start in which everything succeeded. *)
Lemma C6_fed_first_and_while_waiting_witness :
  let r := loop_pass all_libraries (pass_at 1001 true true link_is_up) after_smooth_start in
  (exists rest, out r = EvWdtFeed :: rest /\ (count_feeds rest <= 30)%nat) /\
  (1 <= count_feeds (out r) <= 31)%nat /\
  count_feeds (out r) = 1%nat.
Proof.
  destruct (C6_fed_first_and_while_waiting all_libraries
              (pass_at 1001 true true link_is_up) after_smooth_start 9%nat eq_refl)
    as (H1 & H2 & H3).
  split; [ exact H1 | split; [ exact H2 | apply H3; reflexivity ] ].
Defined.

(** ** The timers at the end of the initialisation *)

(** What the last statements of the initialisation leave in the timers. *)
Lemma initialization_timers libs e s :
  ensures (initialization_sequence libs e) s (fun o s' _ =>
    o = Returned tt ->
    last_sensor_read s' = in_now e - SENSOR_READ_INTERVAL /\
    last_publish s' = in_now e /\
    last_gc s' = in_now e /\
    last_connection_check s' = in_now e /\
    last_status_report s' = in_now e).
Proof.
  unfold initialization_sequence.
  repeat first [ progress wp | wp_skip ]; try discriminate.
  all: intros _; cbn; auto.
Qed.

(** C4: the code does not do what the claim says, nor what the comment
    above its five assignments announces ("Initialize timers to trigger
    actions on the first loop").  After an initialisation at time 1000 in
    which everything succeeds, at a first pass one second later only the
    read of the sensor is due: the pass reads the sensor but publishes
    nothing, collects no memory, checks no connection and sends no status.
    Of the five timers only the sensor's was seeded as elapsed. *)
Theorem C4_first_pass_runs_only_the_sensor_read :
  let s := after_smooth_start in
  let r := loop_pass all_libraries (pass_at 1001 true true link_is_up) s in
  mqtt_connected s = true /\
  due 1001 (last_sensor_read s) SENSOR_READ_INTERVAL = true /\
  due 1001 (last_publish s) PUBLISH_INTERVAL = false /\
  due 1001 (last_gc s) GC_INTERVAL = false /\
  due 1001 (last_connection_check s) CONNECTION_RETRY_INTERVAL = false /\
  due 1001 (last_status_report s) 3600 = false /\
  co2_ppm (final r) = Some 800 /\
  out r = [EvWdtFeed; EvDisplayShow TxtInit;
           EvLed true; EvSleep 50; EvLed false; EvSleep 950].
Proof. vm_compute. repeat split; reflexivity. Qed.

(** The same at every initialisation that returns, whatever the drivers
    answered: only the sensor-read timestamp is set one interval in the
    past; the publish, memory-check, connectivity-check and status-report
    timestamps are set to the current time, short of what the comment
    above them announces, so that each of these tasks is first due once
    its own interval (30, 60, 300, 3600 seconds) has elapsed since the end
    of the initialisation. *)
Theorem C4_only_sensor_timer_seeded_elapsed libs e s t1 :
  outcome (initialization_sequence libs e s) = Returned tt ->
  in_now e <= t1 ->
  let s' := final (initialization_sequence libs e s) in
  due t1 (last_sensor_read s') SENSOR_READ_INTERVAL = true /\
  (due t1 (last_publish s') PUBLISH_INTERVAL = true <-> in_now e + 30 <= t1) /\
  (due t1 (last_gc s') GC_INTERVAL = true <-> in_now e + 60 <= t1) /\
  (due t1 (last_connection_check s') CONNECTION_RETRY_INTERVAL = true
     <-> in_now e + 300 <= t1) /\
  (due t1 (last_status_report s') 3600 = true <-> in_now e + 3600 <= t1).
Proof.
  intros Hret Ht s'. subst s'.
  destruct (initialization_timers libs e s Hret) as (H1 & H2 & H3 & H4 & H5).
  rewrite H1, H2, H3, H4, H5. rewrite !due_true.
  unfold SENSOR_READ_INTERVAL, PUBLISH_INTERVAL, GC_INTERVAL,
    CONNECTION_RETRY_INTERVAL.
  repeat split; lia.
Qed.

(** One second after an initialisation at time 1000. *)
Lemma C4_only_sensor_timer_seeded_elapsed_witness :
  let s' := final (initialization_sequence all_libraries smooth_start (init_monitor 990)) in
  due 1001 (last_sensor_read s') SENSOR_READ_INTERVAL = true /\
  (due 1001 (last_publish s') PUBLISH_INTERVAL = true <-> 1000 + 30 <= 1001) /\
  (due 1001 (last_gc s') GC_INTERVAL = true <-> 1000 + 60 <= 1001) /\
  (due 1001 (last_connection_check s') CONNECTION_RETRY_INTERVAL = true
     <-> 1000 + 300 <= 1001) /\
  (due 1001 (last_status_report s') 3600 = true <-> 1000 + 3600 <= 1001).
Proof.
  apply (C4_only_sensor_timer_seeded_elapsed all_libraries smooth_start
           (init_monitor 990) 1001).
  - reflexivity.
  - cbn. lia.
Defined.

(** ** The publish timestamp *)

(** The sensor read always comes back. *)
Lemma read_sensor_returns libs e s :
  exists b, outcome (read_sensor_robust libs e s) = Returned b.
Proof.
  unfold read_sensor_robust, bind, get; cbn.
  destruct (scd40 s); cbn; eauto.
  unfold try_except, bind; cbn.
  destruct (s_data_ready e) as [[|]|]; cbn; eauto.
  - destruct (s_CO2 e) as [[c|]|]; cbn.
    + run_climate e. destruct ((c <? 0) || (c >? 50000)); cbn; eauto.
    + run_climate e. eauto.
    + destruct (sensor_error_count s + 1 >=? MAX_SENSOR_FAILURES); cbn; eauto.
      run_reinit libs e. eauto.
  - destruct (sensor_error_count s + 1 >=? MAX_SENSOR_FAILURES); cbn; eauto.
    run_reinit libs e. eauto.
Qed.

(** What one publish does to the timestamp, the reading and the count of
    transmissions, and when it succeeds. *)
Lemma publish_spec e s :
  ensures (publish_data_robust e) s (fun o s' evs =>
    last_publish s' = last_publish s /\
    co2_ppm s' = co2_ppm s /\
    ((o = Returned true /\
      successful_transmissions s' = successful_transmissions s + 1 /\
      count_co2_publishes evs = (if is_some (co2_ppm s) then 1 else 0)%nat) \/
     (o = Returned false /\
      successful_transmissions s' = successful_transmissions s /\
      (count_co2_publishes evs <= 1)%nat)) /\
    (mqtt_connected s = true -> mqtt_client s <> None ->
     p_co2 e = true -> p_sensor e = true -> o = Returned true)).
Proof.
  unfold publish_data_robust. wp.
  all: cbn [co2_ppm last_publish successful_transmissions pl_co2] in *.
  all: try (apply orb_true_iff in Heqb;
            destruct Heqb as [Hb|Hb]; apply negb_true_iff in Hb).
  all: try (apply orb_false_iff in Heqb; destruct Heqb as [Hb1 Hb2];
            apply negb_false_iff in Hb1; apply negb_false_iff in Hb2).
  all: repeat split; auto.
  all: try (right; repeat split; auto; cbn; lia).
  all: try (left; repeat split; auto; rewrite ?Heqo; reflexivity).
  all: try (intros; congruence).
  all: try (intros _ Hc; destruct (mqtt_client s); [ discriminate | congruence ]).
Qed.

Lemma read_sensor_frame libs e s :
  ensures (read_sensor_robust libs e) s (fun o s' evs =>
    (exists b, o = Returned b) /\
    (last_publish s' = last_publish s /\
     successful_transmissions s' = successful_transmissions s /\
     session_kept s s') /\
    (count_events is_co2_publish evs <= 0)%nat).
Proof.
  split; [ apply read_sensor_returns | ].
  apply (ensures_kept
           (fun s' => last_publish s' = last_publish s /\
                      successful_transmissions s' = successful_transmissions s /\
                      session_kept s s')
           is_co2_publish 0).
  - preserves_with
      ltac:(unfold publish_state_kept, session_kept in *; cbn in *;
            intuition congruence).
  - quiet.
  - unfold publish_state_kept, session_kept; cbn; intuition congruence.
Qed.

(** What one monitoring cycle does to the publish timestamp. *)
Lemma monitoring_cycle_spec libs e s :
  ensures (run_monitoring_cycle libs e) s (fun o s' evs =>
    o = Returned tt /\
    published_or_kept e s s' evs).
Proof.
  assert (Hgate : forall s1 evs1,
    last_publish s1 = last_publish s ->
    successful_transmissions s1 = successful_transmissions s ->
    session_kept s s1 ->
    (count_events is_co2_publish evs1 <= 0)%nat ->
    ensures
      (s2 <- get;;
       if due (cy_now e) (last_publish s2) PUBLISH_INTERVAL && is_some (co2_ppm s2)
       then ok <- publish_data_robust (cy_publish e);;
            if ok : bool
            then modify (fun s => s<|last_publish := cy_now e|>)
            else ret tt
       else ret tt) s1
      (fun o s' evs2 =>
         o = Returned tt /\
         published_or_kept e s s' (evs1 ++ evs2))).
  { intros s1 evs1 Hl Ht [Hc1 Hc2] Hq.
    unfold published_or_kept, count_co2_publishes. wp.
    - apply andb_true_iff in Heqb. destruct Heqb as [Hdue Hco2].
      rewrite Hl in Hdue.
      wp_apply publish_spec.
      destruct H as (Hp1 & Hp2 & Hp3 & Hp4).
      unfold count_co2_publishes in Hp3. rewrite Hco2 in Hp3.
      destruct Hp3 as [(-> & Hp3 & Hp5) | (-> & Hp3 & Hp5)]; wp;
        rewrite ?count_events_app, ?app_nil_r; cbn in *.
      + split; [ reflexivity | split; [ left | ] ]; repeat split;
          try congruence; try lia.
      + split; [ reflexivity | split; [ right | ] ]; repeat split;
          try congruence; try lia.
        intros _ Hm1 Hm2 Hm3 Hm4 _.
        assert (Returned false = Returned true) by
          (apply Hp4; congruence). discriminate.
    - rewrite ?count_events_app, ?app_nil_r; cbn in *.
      split; [ reflexivity | split; [ right | ] ]; repeat split;
        try congruence; try lia.
      intros Hdue _ _ _ _ Hco2.
      apply andb_false_iff in Heqb. rewrite Hl in Heqb.
      destruct Heqb as [Hb|Hb]; [ congruence | ].
      destruct (co2_ppm s1); [ discriminate | congruence ]. }
  unfold run_monitoring_cycle.
  apply ensures_bind, ensures_get. cbv beta iota.
  apply ensures_bind.
  destruct (due (cy_now e) (last_sensor_read s) SENSOR_READ_INTERVAL).
  - apply ensures_bind.
    eapply ensures_weaken; [ apply read_sensor_frame | ].
    cbv beta. intros o s1 evs1 ([b ->] & (Hl & Ht & Hs) & Hq).
    apply ensures_modify. cbv beta iota.
    eapply ensures_weaken; [ apply (Hgate _ (evs1 ++ [])) | ].
    + exact Hl.
    + exact Ht.
    + exact Hs.
    + rewrite app_nil_r. exact Hq.
    + cbv beta. intros o s2 evs2 H. exact H.
  - apply ensures_ret. cbv beta iota.
    eapply ensures_weaken; [ apply (Hgate _ []) | ].
    + reflexivity.
    + reflexivity.
    + split; reflexivity.
    + cbn. lia.
    + cbv beta. intros o s2 evs2 H. exact H.
Qed.

Lemma published_or_kept_frame e s s1 s2 s3 evs evs' :
  publish_state_kept s s1 -> session_kept s s1 ->
  published_or_kept e s1 s2 evs ->
  publish_state_kept s2 s3 ->
  count_co2_publishes evs' = count_co2_publishes evs ->
  published_or_kept e s s3 evs'.
Proof.
  unfold publish_state_kept, session_kept, published_or_kept.
  intros (A1 & A2 & A3) (B1 & B2) (C1 & C2) (D1 & D2 & D3) Hn.
  rewrite Hn, D1, D2, D3, <- A1, <- A2, <- B1, <- B2.
  split; [ exact C1 | exact C2 ].
Qed.

Lemma feed_watchdog_spec s :
  ensures feed_watchdog_safe s (fun o s' evs =>
    o = Returned tt /\ s' = s /\ count_events is_co2_publish evs = 0%nat).
Proof. unfold feed_watchdog_safe. wp; auto. Qed.

Lemma update_display_frame now s :
  ensures (update_display_safe now) s (fun o s' evs =>
    o = Returned tt /\
    (publish_state_kept s s' /\ session_kept s s') /\
    (count_events is_co2_publish evs <= 0)%nat).
Proof.
  split; [ | apply (ensures_kept
                     (fun s' => publish_state_kept s s' /\ session_kept s s')
                     is_co2_publish 0) ].
  - change (ensures (update_display_safe now) s (fun o _ _ => o = Returned tt)).
    unfold update_display_safe. wp; reflexivity.
  - preserves_with
      ltac:(unfold publish_state_kept, session_kept in *; cbn in *;
            intuition congruence).
  - quiet.
  - unfold publish_state_kept, session_kept; cbn; intuition congruence.
Qed.

Lemma maintenance_frame libs e s :
  ensures (run_system_maintenance libs e) s (fun _ s' evs =>
    publish_state_kept s s' /\ (count_events is_co2_publish evs <= 0)%nat).
Proof.
  apply (ensures_kept (fun s' => publish_state_kept s s') is_co2_publish 0).
  - pose proof (preserves_wifi_wait (publish_state_kept s)
                  ltac:(intros; unfold publish_state_kept in *; cbn in *;
                        intuition congruence)) as Hw.
    preserves_with
      ltac:(unfold publish_state_kept, session_kept in *; cbn in *;
            intuition congruence).
  - pose proof (quiet_wifi_wait is_co2_publish eq_refl eq_refl eq_refl) as Hw.
    quiet.
  - unfold publish_state_kept, session_kept; cbn; intuition congruence.
Qed.

(** What one pass of the loop does to the publish timestamp. *)
Lemma loop_pass_spec libs e s :
  ensures (loop_pass libs e) s (fun _ s' evs =>
    published_or_kept (ps_cycle e) s s' evs).
Proof.
  unfold loop_pass.
  apply ensures_bind.
  eapply ensures_weaken; [ apply feed_watchdog_spec | ].
  cbv beta. intros o s0 evs0 (-> & -> & Hq0).
  apply ensures_bind.
  eapply ensures_weaken; [ apply update_display_frame | ].
  cbv beta. intros o s1 evs1 (-> & (Hk1 & Hs1) & Hq1).
  apply ensures_bind.
  eapply ensures_weaken; [ apply monitoring_cycle_spec | ].
  cbv beta. intros o s2 evs2 (-> & Hc).
  apply ensures_bind.
  eapply ensures_weaken; [ apply maintenance_frame | ].
  cbv beta. intros o s3 evs3 (Hk3 & Hq3).
  destruct o; wp.
  all: apply (published_or_kept_frame _ s s1 s2 s3 evs2); auto.
  all: unfold count_co2_publishes; rewrite ?count_events_app; cbn in *; lia.
Qed.

(** [publish_data_robust] returns True exactly when it counts one more
    successful transmission. *)
Lemma publish_succeeds_iff_counted e s :
  outcome (publish_data_robust e s) = Returned true <->
  successful_transmissions (final (publish_data_robust e s))
    = successful_transmissions s + 1.
Proof.
  pose proof (publish_spec e s) as H. unfold ensures in H.
  destruct H as (_ & _ & [(Ho & Hn & _) | (Ho & Hn & _)] & _).
  - split; auto.
  - rewrite Ho, Hn. split; [ discriminate | lia ].
Qed.

(** A publish that fails with the session up marks the session as down,
    and with the session down a publish returns False at once: it sends
    nothing and changes nothing, whatever the broker would answer. *)
Lemma failed_publish_closes_session e s :
  mqtt_connected s = true -> mqtt_client s <> None ->
  outcome (publish_data_robust e s) = Returned false ->
  mqtt_connected (final (publish_data_robust e s)) = false.
Proof.
  intros Hc Hcl. unfold publish_data_robust, bind, get; cbn. rewrite Hc.
  destruct (mqtt_client s) as [c|]; [ | congruence ]. cbn.
  unfold try_except, bind; cbn.
  destruct (co2_ppm s) as [v|]; cbn.
  - destruct (p_co2 e); cbn; [ | reflexivity ].
    match goal with |- context [if ?b then _ else _] => destruct b end; cbn.
    + destruct (p_sensor e); cbn; [ discriminate | reflexivity ].
    + discriminate.
  - match goal with |- context [if ?b then _ else _] => destruct b end; cbn.
    + destruct (p_sensor e); cbn; [ discriminate | reflexivity ].
    + discriminate.
Qed.

Lemma publish_with_session_down e s :
  mqtt_connected s = false ->
  publish_data_robust e s = mkRes (Returned false) s [].
Proof.
  intros Hc. unfold publish_data_robust, bind, get; cbn. rewrite Hc.
  reflexivity.
Qed.

(** C5: the publish operation succeeds exactly when it counts one more
    successful transmission, and in a pass of the loop the publish
    timestamp changes exactly when the pass published successfully; it then
    becomes the clock of that pass.  So after a pass in which the publish
    interval had elapsed but no publish succeeded, the timestamp is as
    before and the publish is due again on the following pass, however soon
    it comes: with the session up, the broker taking the messages and a CO2
    reading there, that pass publishes; and a pass that publishes sends one
    message on the CO2 topic and moves the timestamp to its own clock, so no
    further publish is due for a full interval. *)
Theorem C5_publish_timestamp_advances_on_success_only libs s e1 e2 :
  let t1 := cy_now (ps_cycle e1) in
  let t2 := cy_now (ps_cycle e2) in
  let r1 := loop_pass libs e1 s in
  let s1 := final r1 in
  let r2 := loop_pass libs e2 s1 in
  let s2 := final r2 in
  (forall e0 s0,
     outcome (publish_data_robust e0 s0) = Returned true <->
     successful_transmissions (final (publish_data_robust e0 s0))
       = successful_transmissions s0 + 1) /\
  (last_publish s1 <> last_publish s <->
   successful_transmissions s1 = successful_transmissions s + 1) /\
  (successful_transmissions s1 = successful_transmissions s + 1 ->
   last_publish s1 = t1) /\
  (due t1 (last_publish s) PUBLISH_INTERVAL = true ->
   successful_transmissions s1 = successful_transmissions s ->
   t1 <= t2 ->
   last_publish s1 = last_publish s /\
   due t2 (last_publish s1) PUBLISH_INTERVAL = true /\
   (mqtt_connected s1 = true -> mqtt_client s1 <> None ->
    p_co2 (cy_publish (ps_cycle e2)) = true ->
    p_sensor (cy_publish (ps_cycle e2)) = true ->
    co2_ppm s2 <> None ->
    successful_transmissions s2 = successful_transmissions s1 + 1) /\
   (successful_transmissions s2 = successful_transmissions s1 + 1 ->
    last_publish s2 = t2 /\
    count_co2_publishes (out r2) = 1%nat /\
    forall t3, t3 < t2 + PUBLISH_INTERVAL ->
               due t3 (last_publish s2) PUBLISH_INTERVAL = false)).
Proof.
  intros t1 t2 r1 s1 r2 s2.
  pose proof (loop_pass_spec libs e1 s) as H1.
  pose proof (loop_pass_spec libs e2 s1) as H2.
  unfold ensures, published_or_kept in H1, H2.
  fold r1 in H1. fold s1 in H1. fold r2 in H2. fold s2 in H2.
  fold t1 in H1. fold t2 in H2.
  destruct H1 as [H1 _]. destruct H2 as [H2 H2'].
  split; [ exact publish_succeeds_iff_counted | ].
  split; [ | split ].
  - split.
    + intros Hne. destruct H1 as [(A & _) | (_ & B & _)];
        [ exact A | contradiction ].
    + intros Hsent. destruct H1 as [(_ & B & C & _) | (A & _)]; [ | lia ].
      apply due_true in C. unfold PUBLISH_INTERVAL in C. lia.
  - intros Hsent. destruct H1 as [(_ & B & _) | (A & _)]; [ exact B | lia ].
  - intros Hdue Hfail Hmono.
    assert (Hsame : last_publish s1 = last_publish s)
      by (destruct H1 as [(A & _) | (_ & B & _)]; [ lia | exact B ]).
    assert (Hdue2 : due t2 (last_publish s1) PUBLISH_INTERVAL = true)
      by (rewrite Hsame; apply due_true; apply due_true in Hdue; lia).
    split; [ exact Hsame | ]. split; [ exact Hdue2 | ]. split.
    + intros Hc Hcl Hp1 Hp2 Hco2. apply H2'; assumption.
    + intros Hsent. destruct H2 as [(_ & B & _ & D) | (A & _)]; [ | lia ].
      split; [ exact B | ]. split; [ exact D | ].
      intros t3 Ht3. rewrite B. apply due_false. exact Ht3.
Qed.

(** A publish that the broker refuses at time 1300, in a pass whose
    connectivity check re-establishes the session, and the retry a second
    later. *)
Lemma C5_publish_timestamp_advances_on_success_only_witness :
  let r1 := loop_pass all_libraries (pass_at 1300 false true link_is_up)
              after_smooth_start in
  let r2 := loop_pass all_libraries (pass_at 1301 true true link_is_up) (final r1) in
  last_publish after_smooth_start = 1000 /\
  last_publish (final r1) = 1000 /\
  last_publish (final r2) = 1301 /\
  count_co2_publishes (out r2) = 1%nat.
Proof.
  intros r1 r2.
  destruct (C5_publish_timestamp_advances_on_success_only all_libraries
              after_smooth_start (pass_at 1300 false true link_is_up)
              (pass_at 1301 true true link_is_up)) as (_ & _ & _ & H).
  destruct H as (H1 & _ & H3 & H4).
  - reflexivity.
  - reflexivity.
  - cbn. lia.
  - assert (Hsent : successful_transmissions (final r2)
                    = successful_transmissions (final r1) + 1).
    { apply H3.
      - reflexivity.
      - vm_compute. discriminate.
      - reflexivity.
      - reflexivity.
      - vm_compute. discriminate. }
    destruct (H4 Hsent) as (H5 & H6 & _).
    split; [ reflexivity | ]. split; [ exact H1 | ].
    split; [ exact H5 | exact H6 ].
Defined.

(** * Further properties *)

(** ** Exceptions *)

Lemma never_raises_ret {A} (a : A) : never_raises (ret a).
Proof. intros s. discriminate. Qed.

Lemma never_raises_get : never_raises get.
Proof. intros s. discriminate. Qed.

Lemma never_raises_modify f : never_raises (modify f).
Proof. intros s. discriminate. Qed.

Lemma never_raises_emit ev : never_raises (emit ev).
Proof. intros s. discriminate. Qed.

Lemma never_raises_machine_reset {A} : never_raises (@machine_reset A).
Proof. intros s. discriminate. Qed.

Lemma never_raises_call_returns ev : never_raises (call ev true).
Proof. intros s. discriminate. Qed.

Lemma never_raises_bind {A B} (m : M A) (k : A -> M B) :
  never_raises m -> (forall a, never_raises (k a)) -> never_raises (bind m k).
Proof.
  intros Hm Hk s. unfold bind. specialize (Hm s).
  destruct (m s) as [[a| |] s1 o1]; cbn in *; try congruence.
  specialize (Hk a s1). destruct (k a s1) as [o s2 o2]; cbn in *. exact Hk.
Qed.

Lemma never_raises_try {A} (m h : M A) :
  never_raises h -> never_raises (try_except m h).
Proof.
  intros Hh s. unfold try_except.
  destruct (m s) as [[a| |] s1 o1]; cbn; try discriminate.
  specialize (Hh s1). destruct (h s1) as [o s2 o2]; cbn in *. exact Hh.
Qed.

(** Shows statement by statement that no exception leaves a computation:
    a [try] needs only its handler looked at. *)
Ltac calm_step :=
  lazymatch goal with
  | |- never_raises (ret _) => apply never_raises_ret
  | |- never_raises get => apply never_raises_get
  | |- never_raises (modify _) => apply never_raises_modify
  | |- never_raises (emit _) => apply never_raises_emit
  | |- never_raises machine_reset => apply never_raises_machine_reset
  | |- never_raises (bind _ _) => apply never_raises_bind; [ | intros ? ]
  | |- never_raises (try_except _ _) => apply never_raises_try
  | |- never_raises (if ?b then _ else _) => destruct b
  | |- never_raises (match ?x with _ => _ end) => destruct x
  | |- never_raises raise => fail
  | |- never_raises (query (Some _)) => apply never_raises_ret
  | |- never_raises (query _) => fail
  | |- never_raises (call _ true) => apply never_raises_call_returns
  | |- never_raises (call _ _) => fail
  | |- never_raises ?m =>
      first
        [ assumption
        | match goal with
          | H : forall _, never_raises _ |- _ => apply H
          | H : forall _ _, never_raises _ |- _ => apply H
          end
        | let h := head_of m in unfold h ]
  end.

Ltac calm := repeat calm_step.

(** X1: Every method but the connectivity check and the two that run it
    contains the exceptions of the drivers it calls: whatever they answer,
    no exception leaves it.  This holds of the whole main loop too, which
    turns an exception of a pass into a reboot. *)
Theorem methods_absorb_exceptions libs op s :
  absorbs_exceptions op = true ->
  outcome (run_op libs op s) <> Raised.
Proof.
  intros Hop. revert s. change (never_raises (run_op libs op)).
  destruct op; try discriminate; cbn [run_op]; calm.
Qed.

(** With a broker that refuses and a sensor that raises. *)
Lemma methods_absorb_exceptions_witness :
  outcome (run_op all_libraries (OpReadSensor sensor_raises) after_good_reading)
    <> Raised /\
  outcome (run_op all_libraries (OpConnectMqtt broker_refuses) (init_monitor 0))
    <> Raised.
Proof.
  split.
  - apply (methods_absorb_exceptions all_libraries (OpReadSensor sensor_raises)).
    reflexivity.
  - apply (methods_absorb_exceptions all_libraries (OpConnectMqtt broker_refuses)).
    reflexivity.
Defined.

Lemma check_connections_calm libs e :
  cc_isconnected e <> None -> never_raises (check_connections_robust libs e).
Proof.
  intros H. unfold check_connections_robust.
  destruct (cc_isconnected e) as [b|]; [ | congruence ]. calm.
Qed.

Lemma ensures_calm {A} (m : M A) s :
  never_raises m -> ensures m s (fun o _ _ => o <> Raised).
Proof. intros H. apply H. Qed.

(** X2: Three calls on the device objects are made in a pass of the loop
    outside any [try]: the test of the link in the connectivity check and
    the two calls of the LED at the end of the pass.  An exception leaves
    a pass only when one of the three raises; and in a pass in which the
    test of the link answers and which does not end in a reboot, an
    exception leaves the pass exactly when a call of the LED raises. *)
Theorem pass_raises_only_outside_try libs e s :
  let o := outcome (loop_pass libs e s) in
  (o = Raised ->
   cc_isconnected (mt_conn (ps_maint e)) = None \/
   ps_led_on e = false \/ ps_led_off e = false) /\
  (cc_isconnected (mt_conn (ps_maint e)) <> None ->
   o <> Rebooted ->
   (o = Raised <-> ps_led_on e = false \/ ps_led_off e = false)).
Proof.
  cbv zeta.
  assert (Hled : cc_isconnected (mt_conn (ps_maint e)) <> None ->
            outcome (loop_pass libs e s) <> Rebooted ->
            (outcome (loop_pass libs e s) = Raised <->
             ps_led_on e = false \/ ps_led_off e = false)).
  { intros Hlink.
    pose proof (check_connections_calm libs (mt_conn (ps_maint e)) Hlink) as Hc.
    change (ensures (loop_pass libs e) s (fun o _ _ =>
      o <> Rebooted ->
      (o = Raised <-> ps_led_on e = false \/ ps_led_off e = false))).
    unfold loop_pass.
    do 4 (apply ensures_bind;
          eapply ensures_weaken; [ apply ensures_calm; calm | ];
          cbv beta;
          let o := fresh "o" in
          let Ho := fresh "Ho" in
          intros o ? ? Ho; destruct o as [[]| |]; cbv beta iota;
          [ | congruence | intros Hr; congruence ]).
    unfold call, sleep.
    destruct (ps_led_on e), (ps_led_off e); wp; intros _;
      (split; [ intros H; try discriminate; auto
              | intros [H | H]; try discriminate; reflexivity ]). }
  split; [ | exact Hled ].
  intros Hraised.
  destruct (cc_isconnected (mt_conn (ps_maint e))) as [b|] eqn:E;
    [ right | left; reflexivity ].
  apply Hled; [ discriminate | congruence | exact Hraised ].
Qed.

(** At time 1300, when the connectivity check is due and the test of the
    link raises, and at time 1001, when switching the LED on does. *)
Lemma pass_raises_only_outside_try_witness :
  outcome (loop_pass all_libraries (pass_where_link_test_raises 1300)
             after_smooth_start) = Raised /\
  outcome (loop_pass all_libraries (pass_where_led_raises 1001)
             after_smooth_start) = Raised.
Proof.
  split; [ reflexivity | ].
  apply (proj2 (pass_raises_only_outside_try all_libraries
                  (pass_where_led_raises 1001) after_smooth_start)).
  - discriminate.
  - vm_compute. discriminate.
  - left. reflexivity.
Defined.

(** ** The end of the main loop *)

Lemma initialization_never_raises libs e : never_raises (initialization_sequence libs e).
Proof. calm. Qed.

(** X3: After a completed initialisation, an exception that leaves the loop is
    logged as CRITICAL and followed by a pause of five seconds and the
    reboot: the main loop ends rebooted, having done nothing else since the
    exception, and leaves the object as the exception found it. *)
Theorem loop_exception_ends_in_reboot libs ie passes s :
  let r0 := initialization_sequence libs ie s in
  let rl := main_while libs passes (final r0) in
  let r := production_main_loop libs ie passes s in
  outcome r0 = Returned tt ->
  outcome rl = Raised ->
  outcome r = Rebooted /\
  final r = final rl /\
  out r = out r0 ++ out rl ++ fatal_error_events.
Proof.
  intros r0 rl r H0 Hl. subst r r0 rl.
  unfold production_main_loop, bind.
  destruct (initialization_sequence libs ie s) as [o0 s0 ev0]; cbn in *.
  subst o0. unfold try_except.
  destruct (main_while libs passes s0) as [ol sl evl]; cbn in *.
  subst ol. cbn. auto.
Qed.

(** A smooth start followed by a pass in which the test of the link raises. *)
Lemma loop_exception_ends_in_reboot_witness :
  let r := production_main_loop all_libraries smooth_start
             [pass_where_link_test_raises 1300] (init_monitor 990) in
  outcome r = Rebooted /\
  exists evs, out r = evs ++ fatal_error_events.
Proof.
  destruct (loop_exception_ends_in_reboot all_libraries smooth_start
              [pass_where_link_test_raises 1300] (init_monitor 990))
    as (H1 & _ & H3).
  - reflexivity.
  - reflexivity.
  - split; [ exact H1 | ].
    eexists. rewrite H3. rewrite app_assoc. reflexivity.
Defined.

(** ** The stored reading *)

Lemma comfort_read_sensor libs e :
  preserves comfort_index_current (read_sensor_robust libs e).
Proof.
  intros s H. unfold read_sensor_robust, bind, get; cbn.
  destruct (scd40 s); cbn; [ | exact H ].
  unfold try_except, bind; cbn.
  destruct (s_data_ready e) as [[|]|]; cbn;
    [ destruct (s_CO2 e) as [[c|]|]; cbn | exact H | ];
    try run_climate e;
    try match goal with
        | |- context [(?c <? 0) || (?c >? 50000)] =>
            destruct ((c <? 0) || (c >? 50000)); cbn
        end;
    try match goal with
        | |- context [?n >=? MAX_SENSOR_FAILURES] =>
            destruct (n >=? MAX_SENSOR_FAILURES); cbn;
            [ match goal with
              | |- context [init_sensor_robust libs (s_reinit e) ?s1] =>
                  let Hi := fresh "Hi" in
                  assert (Hi : preserves comfort_index_current
                                 (init_sensor_robust libs (s_reinit e)))
                    by (preserves_with
                          ltac:(unfold comfort_index_current in *; cbn in *; auto));
                  specialize (Hi s1); run_reinit libs e
              end | ]
        end;
    unfold comfort_index_current in *; cbn in *; auto.
Qed.

Lemma comfort_loop_pass libs e :
  preserves comfort_index_current (loop_pass libs e).
Proof.
  pose proof (comfort_read_sensor libs) as Hr.
  pose proof (preserves_wifi_wait comfort_index_current
                ltac:(intros; unfold comfort_index_current in *; cbn in *; auto))
    as Hw.
  preserves_with ltac:(unfold comfort_index_current in *; cbn in *; auto).
Qed.

Lemma comfort_main_while libs passes :
  preserves comfort_index_current (main_while libs passes).
Proof.
  pose proof (comfort_loop_pass libs) as Hp.
  induction passes as [|e rest IH]; cbn [main_while];
    preserves_with ltac:(unfold comfort_index_current in *; cbn in *; auto).
Qed.

Lemma comfort_run_op libs op :
  preserves comfort_index_current (run_op libs op).
Proof.
  pose proof (comfort_read_sensor libs) as Hr.
  pose proof (preserves_wifi_wait comfort_index_current
                ltac:(intros; unfold comfort_index_current in *; cbn in *; auto))
    as Hw.
  pose proof (comfort_main_while libs) as Hl.
  destruct op; cbn [run_op];
    preserves_with ltac:(unfold comfort_index_current in *; cbn in *; auto).
Qed.

(** X4: In every state the object can be seen in, the stored comfort index is
    the one computed from the stored temperature and humidity; so it is
    there exactly when both of them are. *)
Theorem comfort_index_follows_reading libs s :
  reachable libs s ->
  thi_value s = calculate_thi_efficient (temperature_c s) (humidity_percent s) /\
  (thi_value s <> None <-> temperature_c s <> None /\ humidity_percent s <> None).
Proof.
  intros Hr.
  assert (H : comfort_index_current s).
  { induction Hr as [now | op s Hs IH].
    - reflexivity.
    - apply comfort_run_op, IH. }
  split; [ exact H | ]. unfold comfort_index_current in H. rewrite H.
  destruct (temperature_c s), (humidity_percent s); cbn;
    split; try (intros [? ?]); try congruence; try (intros; split; congruence).
Qed.

(** After a reading at 22.0 degrees and 55.0 %. *)
Lemma comfort_index_follows_reading_witness :
  thi_value after_good_reading
    = calculate_thi_efficient (Some 22.0%Q) (Some 55.0%Q) /\
  thi_value after_good_reading <> None.
Proof.
  assert (Hr : reachable all_libraries after_good_reading)
    by (unfold after_good_reading; do 2 apply reach_op; apply reach_init).
  destruct (comfort_index_follows_reading all_libraries after_good_reading Hr)
    as (H1 & H2).
  split; [ exact H1 | ].
  apply H2. split; discriminate.
Defined.

(** X5: A CO2 value within [0, 50000], bounds included, is accepted: the read
    returns True, stores the value, counts one more successful reading,
    resets the sensor failure counter to zero and logs nothing. *)
Theorem valid_co2_is_accepted libs s e h v :
  scd40 s = Some h ->
  s_data_ready e = Some true ->
  s_CO2 e = Some (Some v) ->
  0 <= v <= 50000 ->
  let r := read_sensor_robust libs e s in
  outcome r = Returned true /\
  co2_ppm (final r) = Some v /\
  successful_readings (final r) = successful_readings s + 1 /\
  sensor_error_count (final r) = 0 /\
  out r = [].
Proof.
  intros Hs Hr Hc Hv r. subst r.
  unfold read_sensor_robust, bind, get; cbn. rewrite Hs.
  unfold try_except, bind; cbn. rewrite Hr; cbn. rewrite Hc; cbn.
  run_climate e.
  replace ((v <? 0) || (v >? 50000)) with false; [ cbn; auto | ].
  symmetry. apply orb_false_iff. split.
  - apply Z.ltb_ge. lia.
  - rewrite Z.gtb_ltb. apply Z.ltb_ge. lia.
Qed.

(** At the upper bound, after fourteen raising reads. *)
Lemma valid_co2_is_accepted_witness :
  let r := read_sensor_robust all_libraries (sensor_reports 50000)
             after_14_failed_reads in
  sensor_error_count after_14_failed_reads = 14 /\
  outcome r = Returned true /\
  co2_ppm (final r) = Some 50000 /\
  sensor_error_count (final r) = 0.
Proof.
  intros r.
  destruct (valid_co2_is_accepted all_libraries after_14_failed_reads
              (sensor_reports 50000) 3%nat 50000) as (H1 & H2 & _ & H4 & _).
  - reflexivity.
  - reflexivity.
  - reflexivity.
  - lia.
  - split; [ reflexivity | ]. split; [ exact H1 | ]. split; assumption.
Defined.

(** X6: Without a sensor, or while the sensor has no measurement ready, the
    read returns False and does nothing: the stored reading, the counters
    and the log are left as they are. *)
Theorem read_without_data_is_noop libs s e :
  scd40 s = None \/ s_data_ready e = Some false ->
  read_sensor_robust libs e s = mkRes (Returned false) s [].
Proof.
  intros H. unfold read_sensor_robust, bind, get; cbn.
  destruct (scd40 s) as [h|]; cbn; [ | reflexivity ].
  destruct H as [H|H]; [ discriminate | ].
  unfold try_except, bind; cbn. rewrite H. reflexivity.
Qed.

(** Before any sensor was attached. *)
Lemma read_without_data_is_noop_witness :
  read_sensor_robust all_libraries (sensor_reports 800) (init_monitor 0)
    = mkRes (Returned false) (init_monitor 0) [].
Proof.
  apply (read_without_data_is_noop all_libraries (init_monitor 0)
           (sensor_reports 800)).
  left. reflexivity.
Defined.

(** ** Connecting the link *)

Lemma wifi_wait_joins e k : forall n i s,
  (k < n)%nat ->
  (forall j, (j < k)%nat -> w_poll e (i + j) = Some false) ->
  w_poll e (i + k) = Some true ->
  w_ifconfig e = true ->
  wifi_wait e i n s =
    mkRes (Returned true) (s<|wifi_error_count := 0|>)
      (seconds_waited (is_some (watchdog s)) k
         ++ [EvLog INFO "WiFi connected: " []]).
Proof.
  induction k as [|k IH]; intros n i s Hk Hfalse Htrue Hif;
    (destruct n as [|n]; [ lia | ]); rewrite wifi_wait_S.
  - rewrite Nat.add_0_r in Htrue.
    unfold bind. rewrite Htrue, Hif. reflexivity.
  - pose proof (Hfalse 0%nat ltac:(lia)) as H0. rewrite Nat.add_0_r in H0.
    unfold bind. rewrite H0. cbn [query ret sleep emit app].
    rewrite feed_result.
    rewrite (IH n (S i) s).
    + destruct (watchdog s); reflexivity.
    + lia.
    + intros j Hj. replace (S i + j)%nat with (i + S j)%nat by lia.
      apply Hfalse. lia.
    + replace (S i + k)%nat with (i + S k)%nat by lia. exact Htrue.
    + exact Hif.
Qed.

Lemma wifi_wait_times_out e n : forall i s,
  (forall j, (j < n)%nat -> w_poll e (i + j) = Some false) ->
  wifi_wait e i n s =
    mkRes (Returned false) s (seconds_waited (is_some (watchdog s)) n).
Proof.
  induction n as [|n IH]; intros i s Hfalse.
  - rewrite wifi_wait_O. reflexivity.
  - rewrite wifi_wait_S.
    pose proof (Hfalse 0%nat ltac:(lia)) as H0. rewrite Nat.add_0_r in H0.
    unfold bind. rewrite H0. cbn [query ret sleep emit app].
    rewrite feed_result.
    rewrite (IH (S i) s).
    + destruct (watchdog s); reflexivity.
    + intros j Hj. replace (S i + j)%nat with (i + S j)%nat by lia.
      apply Hfalse. lia.
Qed.

Lemma count_feeds_seconds_waited k :
  count_feeds (seconds_waited true k) = k /\
  count_feeds (seconds_waited false k) = 0%nat.
Proof.
  unfold count_feeds, count_events.
  induction k as [|k [IH1 IH2]]; cbn; auto.
Qed.

(** X7: Reconnecting a link that is down and comes up in second [k] of the
    wait ([k] below 30): the interface is bounced, the connection
    requested, and after [k] seconds of sleeping and feeding the watchdog
    the method logs the address, resets the link failure counter to zero
    and returns True; the watchdog was fed [k] times. *)
Theorem link_joins_after_k_seconds e s h w k :
  wlan s = Some h ->
  watchdog s = Some w ->
  w_isconnected e = Some false ->
  w_down e = true -> w_up e = true -> w_connect e = true ->
  (k < 30)%nat ->
  (forall j, (j < k)%nat -> w_poll e j = Some false) ->
  w_poll e k = Some true ->
  w_ifconfig e = true ->
  let r := connect_wifi_robust e s in
  outcome r = Returned true /\
  final r = s<|wifi_error_count := 0|> /\
  out r = interface_reset_events ++ seconds_waited true k
            ++ [EvLog INFO "WiFi connected: " []] /\
  count_feeds (out r) = k.
Proof.
  intros Hw Hwd Hc Hd Hu Hcn Hk Hfalse Htrue Hif r.
  assert (Hrun : connect_wifi_robust e s =
            mkRes (Returned true) (s<|wifi_error_count := 0|>)
              (interface_reset_events ++ seconds_waited true k
                 ++ [EvLog INFO "WiFi connected: " []])).
  { unfold connect_wifi_robust, try_except.
    unfold call, get, bind. rewrite Hw, Hc, Hd, Hu, Hcn.
    cbn [query ret sleep emit app].
    rewrite (wifi_wait_joins e k 30 0 s Hk Hfalse Htrue Hif).
    rewrite Hwd. cbn. rewrite ?app_nil_r. reflexivity. }
  subst r. rewrite Hrun. cbn [outcome final out].
  repeat split.
  unfold count_feeds. rewrite !count_events_app.
  fold (count_feeds (seconds_waited true k)).
  rewrite (proj1 (count_feeds_seconds_waited k)). cbn. lia.
Qed.

(** A link that comes up in the sixth second. *)
Lemma link_joins_after_k_seconds_witness :
  let r := connect_wifi_robust link_up_after_5s after_smooth_start in
  outcome r = Returned true /\ count_feeds (out r) = 5%nat.
Proof.
  destruct (link_joins_after_k_seconds link_up_after_5s after_smooth_start
              1%nat 9%nat 5) as (H1 & _ & _ & H4);
    try reflexivity; try lia.
  - intros j Hj. cbn. do 5 (destruct j as [|j]; [ reflexivity | ]). lia.
  - split; assumption.
Defined.

(** X8: Reconnecting a link that stays down for the whole wait: after the
    bounce and thirty seconds of sleeping and feeding the watchdog, the
    method adds one to the link failure counter, logs the timeout with the
    new count and returns False; it does not reboot, and the watchdog was
    fed thirty times. *)
Theorem link_wait_times_out e s h w :
  wlan s = Some h ->
  watchdog s = Some w ->
  w_isconnected e = Some false ->
  w_down e = true -> w_up e = true -> w_connect e = true ->
  (forall j, (j < 30)%nat -> w_poll e j = Some false) ->
  let r := connect_wifi_robust e s in
  outcome r = Returned false /\
  final r = s<|wifi_error_count := wifi_error_count s + 1|> /\
  out r = interface_reset_events ++ seconds_waited true 30
            ++ [EvLog ERROR "WiFi timeout (attempt )" [wifi_error_count s + 1]] /\
  count_feeds (out r) = 30%nat.
Proof.
  intros Hw Hwd Hc Hd Hu Hcn Hfalse r.
  assert (Hrun : connect_wifi_robust e s =
            mkRes (Returned false) (s<|wifi_error_count := wifi_error_count s + 1|>)
              (interface_reset_events ++ seconds_waited true 30
                 ++ [EvLog ERROR "WiFi timeout (attempt )" [wifi_error_count s + 1]])).
  { unfold connect_wifi_robust, try_except.
    unfold call, get, bind. rewrite Hw, Hc, Hd, Hu, Hcn.
    cbn [query ret sleep emit app].
    rewrite (wifi_wait_times_out e 30 0 s Hfalse).
    rewrite Hwd. cbn. reflexivity. }
  subst r. rewrite Hrun. cbn [outcome final out].
  repeat split.
Qed.

(** A link that stays down, after a smooth start. *)
Lemma link_wait_times_out_witness :
  let r := connect_wifi_robust link_stays_down after_smooth_start in
  outcome r = Returned false /\
  wifi_error_count (final r) = 1 /\
  count_feeds (out r) = 30%nat.
Proof.
  destruct (link_wait_times_out link_stays_down after_smooth_start 1%nat 9%nat)
    as (H1 & H2 & _ & H4); try reflexivity.
  split; [ exact H1 | ]. split; [ rewrite H2; reflexivity | exact H4 ].
Defined.

(** ** The broker session and the status report *)

(** X9: With the broker library at hand, a connection attempt always ends the
    old session first (one disconnect when there was a client) and leaves
    as client handle exactly what the constructor gave: the new client,
    also when connecting it failed, or nothing when the constructor
    raised.  It returns True, with the session marked as up and the broker
    failure counter at zero, exactly when both the constructor and the
    connect succeeded; otherwise it returns False, the session is marked
    as down and the counter is one higher. *)
Theorem broker_connect_replaces_client libs e s :
  lib_umqtt libs = true ->
  let r := connect_mqtt_robust libs e s in
  let ok := is_some (m_new e) && m_connect e in
  outcome r = Returned ok /\
  mqtt_client (final r) = m_new e /\
  mqtt_connected (final r) = ok /\
  mqtt_error_count (final r) = (if ok then 0 else mqtt_error_count s + 1) /\
  count_events is_disconnect (out r)
    = (if is_some (mqtt_client s) then 1 else 0)%nat.
Proof.
  intros Hlib. cbv zeta. unfold connect_mqtt_robust. rewrite Hlib. cbn [negb].
  unfold try_except, bind, get; cbn.
  destruct (mqtt_client s) eqn:Hm, (m_new e) as [c|], (m_connect e); cbn;
    rewrite ?Hm; repeat split; reflexivity.
Qed.

(** A refused connection on an object whose session is up. *)
Lemma broker_connect_replaces_client_witness :
  let r := connect_mqtt_robust all_libraries broker_refuses after_smooth_start in
  outcome r = Returned false /\
  mqtt_client (final r) = Some 4%nat /\
  mqtt_connected (final r) = false.
Proof.
  destruct (broker_connect_replaces_client all_libraries broker_refuses
              after_smooth_start eq_refl) as (H1 & H2 & H3 & _).
  split; [ exact H1 | split; [ exact H2 | exact H3 ] ].
Defined.

(** X10: Reporting the status never changes the object and always returns,
    whatever the broker answers: with the session marked as down it does
    nothing at all, and otherwise it publishes one status message, whose
    uptime is counted from the construction of the object and whose
    counters are the stored ones, and logs an error when the publish
    raises.  A failed status report is thus neither counted as a broker
    failure nor does it mark the session as down. *)
Theorem status_report_changes_nothing libs e s :
  reachable libs s ->
  let r := send_system_status e s in
  outcome r = Returned tt /\
  final r = s /\
  (mqtt_connected s = false -> out r = []) /\
  (mqtt_connected s = true ->
   exists p,
     out r = EvMqttPublish MQTT_TOPIC_STATUS (PStatus p)
               :: (if st_publish e then []
                   else [EvLog ERROR "Status report error: " []]) /\
     sp_uptime p = st_now_uptime e - startup_time s /\
     sp_successful_readings p = successful_readings s /\
     sp_successful_transmissions p = successful_transmissions s /\
     sp_sensor_errors p = sensor_error_count s /\
     sp_mqtt_errors p = mqtt_error_count s /\
     sp_wifi_errors p = wifi_error_count s).
Proof.
  intros Hreach. cbv zeta.
  pose proof (session_reachable libs s Hreach) as Hs.
  unfold session_consistent in Hs.
  unfold send_system_status, bind, get; cbn.
  destruct (mqtt_connected s) eqn:Hc; cbn.
  - destruct (mqtt_client s) as [c|] eqn:Hm; [ | exfalso; apply Hs; auto ].
    unfold try_except; cbn.
    destruct (st_publish e); cbn;
      (split; [ reflexivity | ]; split; [ reflexivity | ];
       split; [ discriminate | ]; intros _;
       eexists; split; [ reflexivity | cbn; repeat split; reflexivity ]).
  - split; [ reflexivity | ]. split; [ reflexivity | ].
    split; [ reflexivity | discriminate ].
Qed.

(** A status report that the broker does not take, after a smooth start. *)
Lemma status_report_changes_nothing_witness :
  let e := {| st_now_uptime := 5000; st_mem_free := 90000; st_now := 5000;
              st_publish := false |} in
  final (send_system_status e after_smooth_start) = after_smooth_start /\
  mqtt_connected (final (send_system_status e after_smooth_start)) = true.
Proof.
  cbv zeta.
  assert (H : reachable all_libraries after_smooth_start)
    by (unfold after_smooth_start; apply reach_op; apply reach_init).
  destruct (status_report_changes_nothing all_libraries
              {| st_now_uptime := 5000; st_mem_free := 90000; st_now := 5000;
                 st_publish := false |} after_smooth_start H) as (_ & H2 & _).
  split; [ exact H2 | rewrite H2; reflexivity ].
Defined.

(** ** What holds of every method *)

(** Proves that every method keeps [P], given a tactic [tac] that shows
    each assignment to keep it; lemmas at hand for single methods are
    used where they apply. *)
Ltac preserves_everywhere libs tac :=
  lazymatch goal with
  | |- forall op, preserves ?P (run_op libs op) =>
      let Hw := fresh "Hw" in
      let Hp := fresh "Hp" in
      let Hl := fresh "Hl" in
      assert (Hw : forall e n i, preserves P (wifi_wait e i n))
        by (intros ? n; induction n; intros ?;
            [ rewrite wifi_wait_O | rewrite wifi_wait_S ];
            preserves_with tac);
      assert (Hp : forall e, preserves P (loop_pass libs e))
        by (intros ?; preserves_with tac);
      assert (Hl : forall passes, preserves P (main_while libs passes))
        by (intros passes; induction passes; cbn [main_while];
            preserves_with tac);
      let o := fresh "o" in
      intros o; destruct o; cbn [run_op]; preserves_with tac
  end.

(** X11: No method assigns [system_running], [system_error_count],
    [startup_time] or [last_preventive_reset]: whatever method is
    invoked, with whatever answers and however it ends, the four are as
    they were. *)
Theorem construction_attributes_never_assigned libs op s :
  construction_values_kept s (final (run_op libs op s)).
Proof.
  assert (H : forall op,
             preserves (construction_values_kept s) (run_op libs op))
    by (preserves_everywhere libs
          ltac:(unfold construction_values_kept in *; cbn in *;
                intuition congruence)).
  apply H. unfold construction_values_kept. auto.
Qed.

(** X12: The counts of successful readings and of successful transmissions
    never go down, whatever method is invoked and however it ends. *)
Theorem statistics_never_decrease libs op s :
  statistics_not_decreased s (final (run_op libs op s)).
Proof.
  assert (H : forall op,
             preserves (statistics_not_decreased s) (run_op libs op))
    by (preserves_everywhere libs
          ltac:(unfold statistics_not_decreased in *; cbn in *; lia)).
  apply H. unfold statistics_not_decreased. lia.
Qed.

(** ** Missing libraries *)

Lemma broker_unused_everywhere libs :
  lib_umqtt libs = false -> forall op, preserves broker_unused (run_op libs op).
Proof.
  intros Hlib.
  assert (Hc : forall e, preserves broker_unused (connect_mqtt_robust libs e)).
  { intros e. unfold connect_mqtt_robust. rewrite Hlib. apply preserves_ret. }
  assert (Hpub : forall e, preserves broker_unused (publish_data_robust e)).
  { intros e s H. pose proof H as (_ & H2 & _).
    unfold publish_data_robust, bind, get; cbn. rewrite H2; cbn. exact H. }
  preserves_everywhere libs
    ltac:(unfold broker_unused in *; cbn in *; intuition congruence).
Qed.

Lemma sensor_unused_everywhere libs :
  lib_scd4x libs = false -> forall op, preserves sensor_unused (run_op libs op).
Proof.
  intros Hlib.
  assert (Hi : forall e, preserves sensor_unused (init_sensor_robust libs e)).
  { intros e. unfold init_sensor_robust. rewrite Hlib. cbn [negb].
    preserves_with idtac. }
  assert (Hr : forall e, preserves sensor_unused (read_sensor_robust libs e)).
  { intros e s H. pose proof H as (H1 & _).
    unfold read_sensor_robust, bind, get; cbn. rewrite H1; cbn. exact H. }
  preserves_everywhere libs
    ltac:(unfold sensor_unused, reading in *; cbn in *; intuition congruence).
Qed.

Lemma display_unused_everywhere libs :
  lib_tm1637 libs = false -> forall op, preserves display_unused (run_op libs op).
Proof.
  intros Hlib.
  assert (Hi : forall e, preserves display_unused (init_display_robust libs e)).
  { intros e. unfold init_display_robust. rewrite Hlib. cbn [negb].
    preserves_with idtac. }
  assert (Hu : forall now, preserves display_unused (update_display_safe now)).
  { intros now s H. pose proof H as (H1 & _).
    unfold update_display_safe, bind, get; cbn. rewrite H1; cbn. exact H. }
  preserves_everywhere libs
    ltac:(unfold display_unused in *; cbn in *; intuition congruence).
Qed.

(** X13: A feature whose library cannot be imported is never used, through
    whatever sequence of method invocations: without the broker library
    there is never a client, the session is never up and no transmission
    or broker failure is ever counted; without the sensor library there is
    never a driver, a stored reading, a counted reading or a counted sensor
    failure; without the display library there is never a display, and the
    display mode and its timer stay as built. *)
Theorem missing_library_disables_feature libs s :
  reachable libs s ->
  (lib_umqtt libs = false -> broker_unused s) /\
  (lib_scd4x libs = false -> sensor_unused s) /\
  (lib_tm1637 libs = false -> display_unused s).
Proof.
  intros Hreach. split; [ | split ]; intros Hlib.
  - induction Hreach as [now | op s Hs IH].
    + repeat split.
    + apply (broker_unused_everywhere libs Hlib), IH.
  - induction Hreach as [now | op s Hs IH].
    + repeat split.
    + apply (sensor_unused_everywhere libs Hlib), IH.
  - induction Hreach as [now | op s Hs IH].
    + repeat split.
    + apply (display_unused_everywhere libs Hlib), IH.
Qed.

(** A start and two passes of the loop on a device without libraries. *)
Lemma missing_library_disables_feature_witness :
  broker_unused after_run_without_libraries /\
  sensor_unused after_run_without_libraries /\
  display_unused after_run_without_libraries.
Proof.
  assert (H : reachable no_libraries after_run_without_libraries)
    by (unfold after_run_without_libraries; apply reach_op; apply reach_init).
  destruct (missing_library_disables_feature no_libraries
              after_run_without_libraries H) as (H1 & H2 & H3).
  split; [ exact (H1 eq_refl) | split; [ exact (H2 eq_refl) | exact (H3 eq_refl) ] ].
Defined.

(** ** The periodic tasks *)

Lemma ensures_preserved {A} (P : Monitor -> Prop) (m : M A) s :
  preserves P m -> P s -> ensures m s (fun _ s' _ => P s').
Proof. intros Hp Hs. apply Hp, Hs. Qed.

(** The method about to be called keeps [R] between the object as it is
    now and as the method leaves it; goes on with the statements after the
    call. *)
Ltac wp_frame R tac :=
  lazymatch goal with
  | |- ensures _ ?cur _ =>
      eapply ensures_weaken;
      [ apply (ensures_preserved (R cur)); [ preserves_with tac | ]
      | let o := fresh "o" in
        let s' := fresh "s'" in
        let evs := fresh "evs" in
        let Hk := fresh "Hk" in
        cbv beta; intros o s' evs Hk; destruct o; cbv beta iota ]
  end.

Lemma timers_maintenance libs e s :
  ensures (run_system_maintenance libs e) s (fun o s' _ =>
    o = Returned tt ->
    last_gc s' =
      (if due (mt_now e) (last_gc s) GC_INTERVAL then mt_now e else last_gc s) /\
    last_connection_check s' =
      (if due (mt_now e) (last_connection_check s) CONNECTION_RETRY_INTERVAL
       then mt_now e else last_connection_check s) /\
    last_status_report s' =
      (if due (mt_now e) (last_status_report s) 3600
       then mt_now e else last_status_report s)).
Proof.
  unfold run_system_maintenance. wp.
  all: repeat (wp_frame timers_kept
                 ltac:(unfold timers_kept in *; cbn in *; intuition congruence);
               [ unfold timers_kept; auto | wp .. ]).
  all: lazymatch goal with |- _ = Returned tt -> _ => intros Ho end;
       try discriminate.
  all: unfold timers_kept in *; cbn in *.
  all: repeat match goal with
              | |- context [if ?c then _ else _] => destruct c eqn:?
              end.
  all: intuition congruence.
Qed.

(** X14: When the maintenance returns, each of its three timers whose task
    was due has been set to the time read at the start of the
    maintenance, whether or not the task achieved anything, and the
    others are as they were. *)
Theorem maintenance_advances_due_timers libs e s :
  let r := run_system_maintenance libs e s in
  outcome r = Returned tt ->
  last_gc (final r) =
    (if due (mt_now e) (last_gc s) GC_INTERVAL then mt_now e else last_gc s) /\
  last_connection_check (final r) =
    (if due (mt_now e) (last_connection_check s) CONNECTION_RETRY_INTERVAL
     then mt_now e else last_connection_check s) /\
  last_status_report (final r) =
    (if due (mt_now e) (last_status_report s) 3600
     then mt_now e else last_status_report s).
Proof.
  intros r Hret. subst r.
  apply (timers_maintenance libs e s). exact Hret.
Qed.

(** A maintenance 1000 s after a smooth start, with the link down for
    good: the connectivity check fails, and its timer is advanced all the
    same. *)
Lemma maintenance_advances_due_timers_witness :
  let r := run_system_maintenance all_libraries
             (maintenance_without_network 2000) after_smooth_start in
  wifi_error_count (final r) = 1 /\
  last_gc (final r) = 2000 /\
  last_connection_check (final r) = 2000 /\
  last_status_report (final r) = 1000.
Proof.
  split; [ reflexivity | ].
  apply (maintenance_advances_due_timers all_libraries
           (maintenance_without_network 2000) after_smooth_start).
  reflexivity.
Defined.

(** X15: After a maintenance that ran the connectivity check, no maintenance
    started less than [CONNECTION_RETRY_INTERVAL] seconds later touches
    the interface or tries to connect to the access point or the broker,
    whatever the state of the link and of the session. *)
Theorem no_reconnection_before_retry_interval libs e1 e2 s :
  let r1 := run_system_maintenance libs e1 s in
  let r2 := run_system_maintenance libs e2 (final r1) in
  outcome r1 = Returned tt ->
  due (mt_now e1) (last_connection_check s) CONNECTION_RETRY_INTERVAL = true ->
  mt_now e2 < mt_now e1 + CONNECTION_RETRY_INTERVAL ->
  count_events is_connection_attempt (out r2) = 0%nat.
Proof.
  intros r1 r2 Hret Hdue Hsoon.
  destruct (timers_maintenance libs e1 s Hret) as (_ & Hc & _).
  rewrite Hdue in Hc. fold r1 in Hc.
  assert (Hnot : due (mt_now e2) (last_connection_check (final r1))
                   CONNECTION_RETRY_INTERVAL = false)
    by (rewrite Hc; apply due_false; lia).
  subst r2. generalize dependent (final r1). intros s1 _ Hnot.
  enough (H : ensures (run_system_maintenance libs e2) s1
                (fun _ _ evs => (count_events is_connection_attempt evs <= 0)%nat))
    by (unfold ensures in H; lia).
  unfold run_system_maintenance. wp.
  all: try congruence.
  all: try (wp_call (fun s' => last_connection_check s' = last_connection_check s1)
              is_connection_attempt 0%nat ltac:(cbn; auto); [ reflexivity | wp .. ]).
  all: try (cbn in *; congruence).
  all: repeat (wp_call (fun _ : Monitor => True) is_connection_attempt 0%nat
                 ltac:(exact I); [ exact I | wp .. ]).
  all: rewrite ?count_events_app; cbn in *; try lia.
Qed.

(** With the link down for good: a check at 2000, none at 2299. *)
Lemma no_reconnection_before_retry_interval_witness :
  let r1 := run_system_maintenance all_libraries
              (maintenance_without_network 2000) after_smooth_start in
  let r2 := run_system_maintenance all_libraries
              (maintenance_without_network 2299) (final r1) in
  count_events is_connection_attempt (out r1) = 3%nat /\
  count_events is_connection_attempt (out r2) = 0%nat.
Proof.
  split; [ reflexivity | ].
  apply (no_reconnection_before_retry_interval all_libraries
           (maintenance_without_network 2000)
           (maintenance_without_network 2299) after_smooth_start).
  - reflexivity.
  - reflexivity.
  - cbn. unfold CONNECTION_RETRY_INTERVAL. lia.
Defined.

(** ** A reading and its publication *)

(** X16: A cycle in which the read and the publish are both due, the sensor
    has a CO2 value within bounds ready, the session is up and the broker
    takes the messages: the value just read, not the one stored before,
    is published in this same cycle, on the CO2 topic and then in the
    combined message; both timers are set to the time of the cycle and
    one more reading and one more transmission are counted. *)
Theorem fresh_reading_published_in_same_cycle libs e s h c v :
  scd40 s = Some h ->
  mqtt_connected s = true ->
  mqtt_client s = Some c ->
  due (cy_now e) (last_sensor_read s) SENSOR_READ_INTERVAL = true ->
  due (cy_now e) (last_publish s) PUBLISH_INTERVAL = true ->
  s_data_ready (cy_sensor e) = Some true ->
  s_CO2 (cy_sensor e) = Some (Some v) ->
  0 <= v <= 50000 ->
  p_co2 (cy_publish e) = true ->
  p_sensor (cy_publish e) = true ->
  let r := run_monitoring_cycle libs e s in
  outcome r = Returned tt /\
  (exists p,
     out r = [EvMqttPublish MQTT_TOPIC_CO2 (PCo2 v);
              EvMqttPublish MQTT_TOPIC_SENSOR (PSensor p)] /\
     pl_co2 p = Some v /\
     pl_timestamp p = p_now (cy_publish e)) /\
  co2_ppm (final r) = Some v /\
  last_sensor_read (final r) = cy_now e /\
  last_publish (final r) = cy_now e /\
  successful_readings (final r) = successful_readings s + 1 /\
  successful_transmissions (final r) = successful_transmissions s + 1.
Proof.
  intros Hs Hm Hc Hd1 Hd2 Hr Hv Hb Hp1 Hp2 r. subst r.
  assert (Hvalid : (v <? 0) || (v >? 50000) = false).
  { apply orb_false_iff. split.
    - apply Z.ltb_ge. lia.
    - rewrite Z.gtb_ltb. apply Z.ltb_ge. lia. }
  unfold run_monitoring_cycle, bind, get; cbn. rewrite Hd1.
  unfold read_sensor_robust, bind, get; cbn. rewrite Hs.
  unfold try_except, bind; cbn. rewrite Hr; cbn. rewrite Hv; cbn.
  run_climate (cy_sensor e). rewrite Hvalid; cbn. rewrite Hd2; cbn.
  unfold publish_data_robust, bind, get; cbn. rewrite Hm, Hc; cbn.
  unfold try_except, bind, call; cbn. rewrite Hp1; cbn.
  replace (payload_len _ >? 2) with true.
  - cbn. rewrite Hp2; cbn.
    split; [ reflexivity | ].
    split; [ eexists; split; [ reflexivity | split; reflexivity ] | ].
    repeat split; reflexivity.
  - symmetry. unfold payload_len; cbn.
    destruct t, h0; cbn; reflexivity.
Qed.

(** The value stored is 800 ppm, the sensor now reports 1200 ppm. *)
Lemma fresh_reading_published_in_same_cycle_witness :
  let r := run_monitoring_cycle all_libraries cycle_reading_1200
             after_first_pass in
  co2_ppm after_first_pass = Some 800 /\
  co2_ppm (final r) = Some 1200 /\
  last_publish (final r) = 1031.
Proof.
  destruct (fresh_reading_published_in_same_cycle all_libraries
              cycle_reading_1200 after_first_pass 3%nat 4%nat 1200)
    as (_ & _ & H3 & _ & H5 & _); try reflexivity.
  - lia.
  - split; [ reflexivity | ]. split; [ exact H3 | exact H5 ].
Defined.

(** ** The display *)

(** X17: With a display and a stored CO2 value, two refreshes in a row that
    both find the switch of the mode due show the CO2 value once and the
    comfort index once, the other of the two first, and leave the mode as
    it was before them; the timer of the switch is the time of the second
    refresh.  The object is built in CO2 mode, so that the first due
    refresh after a first reading shows the comfort index. *)
Theorem display_alternates now1 now2 s d c :
  display s = Some d ->
  co2_ppm s = Some c ->
  due now1 (last_display_switch s) DISPLAY_SWITCH_INTERVAL = true ->
  due now2 now1 DISPLAY_SWITCH_INTERVAL = true ->
  let r1 := update_display_safe now1 s in
  let r2 := update_display_safe now2 (final r1) in
  (show_co2_mode s = true ->
   out r1 = [EvDisplayShow (index_text s)] /\ out r2 = [EvDisplayNumber c]) /\
  (show_co2_mode s = false ->
   out r1 = [EvDisplayNumber c] /\ out r2 = [EvDisplayShow (index_text s)]) /\
  show_co2_mode (final r2) = show_co2_mode s /\
  last_display_switch (final r2) = now2.
Proof.
  intros Hd Hc Hd1 Hd2. cbv zeta.
  unfold update_display_safe, bind, get, index_text; cbn.
  rewrite Hd, Hc; cbn. rewrite Hd1; cbn.
  destruct (show_co2_mode s) eqn:Hm; cbn;
    destruct (thi_value s) eqn:Ht; cbn;
    rewrite ?Hd, ?Hc; cbn; rewrite ?Hd2; cbn; rewrite ?Hm, ?Ht; cbn;
    (split; [ intros; try discriminate; split; reflexivity | ]);
    (split; [ intros; try discriminate; split; reflexivity | ]);
    split; reflexivity.
Qed.

(** The first two refreshes after the first reading. *)
Lemma display_alternates_witness :
  let r1 := update_display_safe 1002 after_first_pass in
  let r2 := update_display_safe 1005 (final r1) in
  out r1 = [EvDisplayShow (TxtHi 68)] /\
  out r2 = [EvDisplayNumber 800].
Proof.
  destruct (display_alternates 1002 1005 after_first_pass 5%nat 800)
    as (H1 & _); try reflexivity.
  apply H1. reflexivity.
Defined.

(** ** Reboots *)

Lemma never_reboots_ret {A} (a : A) : never_reboots (ret a).
Proof. intros s. discriminate. Qed.

Lemma never_reboots_get : never_reboots get.
Proof. intros s. discriminate. Qed.

Lemma never_reboots_modify f : never_reboots (modify f).
Proof. intros s. discriminate. Qed.

Lemma never_reboots_emit ev : never_reboots (emit ev).
Proof. intros s. discriminate. Qed.

Lemma never_reboots_raise {A} : never_reboots (@raise A).
Proof. intros s. discriminate. Qed.

Lemma never_reboots_query {A} (o : option A) : never_reboots (query o).
Proof. intros s. destruct o; discriminate. Qed.

Lemma never_reboots_call ev ok : never_reboots (call ev ok).
Proof. intros s. destruct ok; discriminate. Qed.

Lemma never_reboots_bind {A B} (m : M A) (k : A -> M B) :
  never_reboots m -> (forall a, never_reboots (k a)) -> never_reboots (bind m k).
Proof.
  intros Hm Hk s. unfold bind. specialize (Hm s).
  destruct (m s) as [[a| |] s1 o1]; cbn in *; try congruence.
  specialize (Hk a s1). destruct (k a s1) as [o s2 o2]; cbn in *. exact Hk.
Qed.

Lemma never_reboots_try {A} (m h : M A) :
  never_reboots m -> never_reboots h -> never_reboots (try_except m h).
Proof.
  intros Hm Hh s. unfold try_except. specialize (Hm s).
  destruct (m s) as [[a| |] s1 o1]; cbn in *; try congruence.
  specialize (Hh s1). destruct (h s1) as [o s2 o2]; cbn in *. exact Hh.
Qed.

(** Shows statement by statement that a computation does not reboot. *)
Ltac steady_step :=
  lazymatch goal with
  | |- never_reboots (ret _) => apply never_reboots_ret
  | |- never_reboots get => apply never_reboots_get
  | |- never_reboots (modify _) => apply never_reboots_modify
  | |- never_reboots (emit _) => apply never_reboots_emit
  | |- never_reboots raise => apply never_reboots_raise
  | |- never_reboots (query _) => apply never_reboots_query
  | |- never_reboots (call _ _) => apply never_reboots_call
  | |- never_reboots machine_reset => fail
  | |- never_reboots (bind _ _) => apply never_reboots_bind; [ | intros ? ]
  | |- never_reboots (try_except _ _) => apply never_reboots_try
  | |- never_reboots (if ?b then _ else _) => destruct b
  | |- never_reboots (match ?x with _ => _ end) => destruct x
  | |- never_reboots ?m =>
      first
        [ assumption
        | match goal with
          | H : forall _, never_reboots _ |- _ => apply H
          | H : forall _ _, never_reboots _ |- _ => apply H
          | H : forall _ _ _, never_reboots _ |- _ => apply H
          end
        | let h := head_of m in unfold h ]
  end.

Ltac steady := repeat steady_step.

Lemma wifi_wait_steady e n : forall i, never_reboots (wifi_wait e i n).
Proof.
  induction n as [|n IH]; intros i;
    [ rewrite wifi_wait_O | rewrite wifi_wait_S ]; steady.
Qed.

Lemma check_connections_steady libs e :
  never_reboots (check_connections_robust libs e).
Proof. pose proof wifi_wait_steady as Hw. steady. Qed.

Lemma check_connections_returns libs e s :
  cc_isconnected e <> None ->
  outcome (check_connections_robust libs e s) = Returned tt.
Proof.
  intros H.
  pose proof (check_connections_calm libs e H s) as H1.
  pose proof (check_connections_steady libs e s) as H2.
  destruct (outcome (check_connections_robust libs e s)) as [[]| |];
    congruence.
Qed.

Lemma send_system_status_returns e s :
  send_system_status e s
    = mkRes (Returned tt) s (out (send_system_status e s)).
Proof.
  unfold send_system_status, bind, get; cbn.
  destruct (mqtt_connected s); cbn; [ | reflexivity ].
  unfold try_except; cbn.
  destruct (mqtt_client s); cbn; [ destruct (st_publish e) | ]; reflexivity.
Qed.

Lemma memory_management_outcome free_mem s :
  outcome (memory_management_aggressive free_mem s)
    = if free_mem <? MEMORY_EMERGENCY_THRESHOLD then Rebooted
      else Returned free_mem.
Proof.
  unfold memory_management_aggressive, bind, get; cbn.
  destruct (free_mem <? MEMORY_EMERGENCY_THRESHOLD);
    [ destruct (display s); reflexivity | ].
  destruct (free_mem <? MEMORY_CRITICAL_THRESHOLD);
    [ destruct (mqtt_client s); reflexivity | ].
  destruct (free_mem <? MEMORY_WARNING_THRESHOLD); reflexivity.
Qed.

Lemma ensures_both {A} (m : M A) s
    (Q1 Q2 : Outcome A -> Monitor -> list Event -> Prop) :
  ensures m s Q1 -> ensures m s Q2 ->
  ensures m s (fun o s' evs => Q1 o s' evs /\ Q2 o s' evs).
Proof. unfold ensures. auto. Qed.

Lemma reset_time_kept_by_tasks libs s0 :
  (forall free_mem,
     preserves (construction_values_kept s0)
       (memory_management_aggressive free_mem)) /\
  (forall e,
     preserves (construction_values_kept s0) (check_connections_robust libs e)) /\
  (forall e, preserves (construction_values_kept s0) (send_system_status e)).
Proof.
  split; [ | split ]; intros;
    preserves_with
      ltac:(unfold construction_values_kept in *; cbn in *; intuition congruence).
Qed.

(** X18: As long as the test of the link answers, the maintenance reboots the
    device in exactly two cases: the memory check is due and finds less
    than [MEMORY_EMERGENCY_THRESHOLD] bytes free, or the time read by the
    preventive reset is [SYSTEM_RESET_INTERVAL] seconds or more past the
    construction-time value of [last_preventive_reset].  In every other
    case it returns. *)
Theorem maintenance_reboots_exactly_when libs e s :
  cc_isconnected (mt_conn e) <> None ->
  let r := run_system_maintenance libs e s in
  (outcome r = Rebooted <->
   (due (mt_now e) (last_gc s) GC_INTERVAL = true /\
    mt_free_mem e < MEMORY_EMERGENCY_THRESHOLD) \/
   due (mt_reset_now e) (last_preventive_reset s) SYSTEM_RESET_INTERVAL = true) /\
  (outcome r = Rebooted \/ outcome r = Returned tt).
Proof.
  intros Hlink r. subst r.
  destruct (reset_time_kept_by_tasks libs s) as (Km & Kc & Ks).
  assert (K0 : construction_values_kept s s)
    by (unfold construction_values_kept; auto).
  change (ensures (run_system_maintenance libs e) s (fun o _ _ =>
    (o = Rebooted <->
     (due (mt_now e) (last_gc s) GC_INTERVAL = true /\
      mt_free_mem e < MEMORY_EMERGENCY_THRESHOLD) \/
     due (mt_reset_now e) (last_preventive_reset s) SYSTEM_RESET_INTERVAL = true) /\
    (o = Rebooted \/ o = Returned tt))).
  unfold run_system_maintenance.
  apply ensures_bind, ensures_get; cbv beta iota.
  apply ensures_bind.
  apply (ensures_weaken _ _ (fun o s1 _ =>
    construction_values_kept s s1 /\
    ((o = Returned tt /\
      ~ (due (mt_now e) (last_gc s) GC_INTERVAL = true /\
         mt_free_mem e < MEMORY_EMERGENCY_THRESHOLD)) \/
     (o = Rebooted /\
      due (mt_now e) (last_gc s) GC_INTERVAL = true /\
      mt_free_mem e < MEMORY_EMERGENCY_THRESHOLD)))).
  { destruct (due (mt_now e) (last_gc s) GC_INTERVAL) eqn:Hgc.
    - apply ensures_bind.
      eapply ensures_weaken;
        [ apply (ensures_both _ _
                   (fun _ s' _ => construction_values_kept s s')
                   (fun o _ _ =>
                      o = if mt_free_mem e <? MEMORY_EMERGENCY_THRESHOLD
                          then Rebooted else Returned (mt_free_mem e)));
          [ apply (ensures_preserved _ _ _ (Km (mt_free_mem e)) K0)
          | exact (memory_management_outcome (mt_free_mem e) s) ] | ].
      cbv beta. intros o s1 evs1 [Hk Ho].
      destruct (mt_free_mem e <? MEMORY_EMERGENCY_THRESHOLD) eqn:Hmem;
        subst o; cbv beta iota.
      + apply Z.ltb_lt in Hmem. split; [ exact Hk | right; auto ].
      + apply Z.ltb_ge in Hmem. wp.
        split; [ unfold construction_values_kept in *; cbn; exact Hk | ].
        left. split; [ reflexivity | lia ].
    - wp. split; [ exact K0 | ]. left. split; [ reflexivity | ].
      intros [H _]. discriminate. }
  cbv beta. intros o s1 evs1 [Hk1 [[-> Hno] | [-> Hyes]]];
    [ | split; [ split; auto | auto ] ].
  apply ensures_bind, ensures_get; cbv beta iota.
  apply ensures_bind.
  apply (ensures_weaken _ _ (fun o s2 _ =>
    o = Returned tt /\ construction_values_kept s s2)).
  { destruct (due (mt_now e) (last_connection_check s1) CONNECTION_RETRY_INTERVAL).
    - apply ensures_bind.
      eapply ensures_weaken;
        [ apply (ensures_both _ _
                   (fun _ s' _ => construction_values_kept s s')
                   (fun o _ _ => o = Returned tt));
          [ apply (ensures_preserved _ _ _ (Kc (mt_conn e)) Hk1)
          | exact (check_connections_returns libs (mt_conn e) s1 Hlink) ] | ].
      cbv beta. intros o s2 evs2 [Hk ->]. wp.
      split; [ reflexivity | ].
      unfold construction_values_kept in *; cbn; exact Hk.
    - wp. auto. }
  cbv beta. intros o s2 evs2 [-> Hk2].
  apply ensures_bind, ensures_get; cbv beta iota.
  apply ensures_bind.
  apply (ensures_weaken _ _ (fun o s3 _ =>
    o = Returned tt /\ construction_values_kept s s3)).
  { destruct (due (mt_now e) (last_status_report s2) 3600).
    - apply ensures_bind. unfold ensures.
      rewrite send_system_status_returns. cbn [outcome final out].
      wp. split; [ reflexivity | ].
      unfold construction_values_kept in *; cbn; exact Hk2.
    - wp. auto. }
  cbv beta. intros o s3 evs3 [-> Hk3].
  destruct Hk3 as (_ & _ & _ & Hreset).
  unfold preventive_system_reset.
  apply ensures_bind, ensures_get; cbv beta iota.
  rewrite Hreset.
  destruct (due (mt_reset_now e) (last_preventive_reset s) SYSTEM_RESET_INTERVAL);
    wp.
  - split; [ split; auto | auto ].
  - split; [ | auto ]. split; [ discriminate | ].
    intros [H | H]; [ contradiction | discriminate ].
Qed.

(** A maintenance one day after the object was built, and one a second
    earlier. *)
Lemma maintenance_reboots_exactly_when_witness :
  outcome (run_system_maintenance all_libraries
             (maintenance_without_network 87390) after_smooth_start) = Rebooted /\
  outcome (run_system_maintenance all_libraries
             (maintenance_without_network 87389) after_smooth_start) = Returned tt.
Proof.
  split; [ | reflexivity ].
  apply (maintenance_reboots_exactly_when all_libraries
           (maintenance_without_network 87390) after_smooth_start).
  - discriminate.
  - right. reflexivity.
Defined.

(** ** Publishing *)

(** X19: With the session up and nothing stored (no CO2 value, temperature,
    humidity or comfort index), a publish sends no message at all and yet
    returns True, counts one more successful transmission and resets the
    broker failure counter. *)
Theorem publish_with_nothing_stored e s c :
  mqtt_connected s = true ->
  mqtt_client s = Some c ->
  reading s = (None, None, None, None) ->
  publish_data_robust e s =
    mkRes (Returned true)
      (s<|successful_transmissions := successful_transmissions s + 1|>
        <|mqtt_error_count := 0|>) [].
Proof.
  intros Hc Hm Hr. unfold reading in Hr.
  injection Hr as H1 H2 H3 H4.
  unfold publish_data_robust, bind, get; cbn. rewrite Hc, Hm; cbn.
  unfold try_except, bind; cbn. rewrite H1, H2, H3, H4; cbn.
  reflexivity.
Qed.

(** Right after a smooth start, before the first reading. *)
Lemma publish_with_nothing_stored_witness :
  let r := publish_data_robust {| p_now := 1000; p_co2 := false; p_sensor := false |}
             after_smooth_start in
  outcome r = Returned true /\ out r = [] /\
  successful_transmissions (final r) = 1.
Proof.
  cbv zeta.
  rewrite (publish_with_nothing_stored
             {| p_now := 1000; p_co2 := false; p_sensor := false |}
             after_smooth_start 4%nat eq_refl eq_refl eq_refl).
  split; [ reflexivity | split; reflexivity ].
Defined.

(** X20: With the session up and a CO2 value stored, a publish whose message on
    the CO2 topic the broker does not take stops there: the combined
    message is not attempted, the failure is logged with the new count,
    the broker failure counter is one higher and the session is marked as
    down, while the client handle stays and no transmission is counted;
    the publish returns False. *)
Theorem publish_stops_at_first_failure e s c v :
  mqtt_connected s = true ->
  mqtt_client s = Some c ->
  co2_ppm s = Some v ->
  p_co2 e = false ->
  publish_data_robust e s =
    mkRes (Returned false)
      (s<|mqtt_error_count := mqtt_error_count s + 1|>
        <|mqtt_connected := false|>)
      [EvMqttPublish MQTT_TOPIC_CO2 (PCo2 v);
       EvLog ERROR "MQTT publish error (count ): " [mqtt_error_count s + 1]].
Proof.
  intros Hc Hm Hv Hp.
  unfold publish_data_robust, bind, get; cbn. rewrite Hc, Hm; cbn.
  unfold try_except, bind, call; cbn. rewrite Hv; cbn. rewrite Hp; cbn.
  reflexivity.
Qed.

(** After the first pass, with 800 ppm stored. *)
Lemma publish_stops_at_first_failure_witness :
  mqtt_connected after_failed_publish = false /\
  mqtt_client after_failed_publish = Some 4%nat /\
  successful_transmissions after_failed_publish
    = successful_transmissions after_first_pass.
Proof.
  unfold after_failed_publish. cbn [run_op]. unfold forget, bind.
  rewrite (publish_stops_at_first_failure
             {| p_now := 1001; p_co2 := false; p_sensor := false |}
             after_first_pass 4%nat 800 eq_refl eq_refl eq_refl eq_refl).
  split; [ reflexivity | split; reflexivity ].
Defined.

(** ** The connectivity check *)

Lemma connect_wifi_returns e s :
  exists b, outcome (connect_wifi_robust e s) = Returned b.
Proof.
  assert (H1 : never_raises (connect_wifi_robust e)) by calm.
  assert (H2 : never_reboots (connect_wifi_robust e))
    by (pose proof wifi_wait_steady as Hw; steady).
  specialize (H1 s). specialize (H2 s).
  destruct (outcome (connect_wifi_robust e s)) as [b| |];
    [ exists b; reflexivity | congruence | congruence ].
Qed.

Lemma connect_wifi_leaves_session e s :
  ensures (connect_wifi_robust e) s (fun o s' evs =>
    (exists b, o = Returned b) /\
    (mqtt_connected s' = mqtt_connected s /\ mqtt_client s' = mqtt_client s) /\
    (count_events is_broker_connect evs <= 0)%nat).
Proof.
  split; [ apply connect_wifi_returns | ].
  apply (ensures_kept
           (fun s' => mqtt_connected s' = mqtt_connected s /\
                      mqtt_client s' = mqtt_client s)
           is_broker_connect 0).
  - preserves_with ltac:(cbn in *; intuition congruence).
  - quiet.
  - auto.
Qed.

(** X21: The connectivity check tries the broker whatever became of the link:
    whenever the session is marked as down, the broker library is there
    and the client can be constructed, the check makes exactly one
    connection attempt to the broker, also when the link is down and could
    not be brought up, and the session is then marked as up exactly when
    that attempt succeeded. *)
Theorem broker_tried_whatever_the_link libs e s c :
  cc_isconnected e <> None ->
  mqtt_connected s = false ->
  lib_umqtt libs = true ->
  m_new (cc_mqtt e) = Some c ->
  let r := check_connections_robust libs e s in
  outcome r = Returned tt /\
  count_events is_broker_connect (out r) = 1%nat /\
  mqtt_connected (final r) = m_connect (cc_mqtt e) /\
  mqtt_client (final r) = Some c.
Proof.
  intros Hlink Hdown Hlib Hnew r. subst r.
  split; [ apply check_connections_returns; exact Hlink | ].
  change (ensures (check_connections_robust libs e) s (fun _ s' evs =>
    count_events is_broker_connect evs = 1%nat /\
    mqtt_connected s' = m_connect (cc_mqtt e) /\
    mqtt_client s' = Some c)).
  unfold check_connections_robust.
  apply ensures_bind, ensures_get; cbv beta iota.
  apply ensures_bind.
  apply (ensures_weaken _ _ (fun o s1 evs =>
    o = Returned tt /\ mqtt_connected s1 = false /\
    count_events is_broker_connect evs = 0%nat)).
  { destruct (wlan s);
      [ destruct (cc_isconnected e) as [[|]|]; [ | | congruence ]; cbn [query negb]
      | ];
      wp; auto.
    all: eapply ensures_weaken; [ apply connect_wifi_leaves_session | ].
    all: cbv beta; intros o s1 evs1 ([b ->] & [H1 _] & Hn); wp.
    all: split; [ reflexivity | ]; split; [ congruence | ].
    all: rewrite ?count_events_app; cbn; lia. }
  cbv beta. intros o s1 evs1 (-> & Hd & Hn).
  apply ensures_bind, ensures_get; cbv beta iota.
  rewrite Hd, Hlib. cbn [negb andb].
  unfold ensures, bind, connect_mqtt_robust. rewrite Hlib. cbn [negb].
  unfold try_except, bind, get; cbn -[count_events]. rewrite Hnew.
  destruct (mqtt_client s1), (m_connect (cc_mqtt e)); cbn -[count_events];
    rewrite ?count_events_app, Hn; cbn; repeat split; reflexivity.
Qed.

(** After a failed publish, with the link down for good. *)
Lemma broker_tried_whatever_the_link_witness :
  let r := check_connections_robust all_libraries check_without_link
             after_failed_publish in
  wifi_error_count (final r) = 1 /\
  mqtt_connected (final r) = true.
Proof.
  split; [ reflexivity | ].
  apply (broker_tried_whatever_the_link all_libraries check_without_link
           after_failed_publish 4%nat).
  - discriminate.
  - reflexivity.
  - reflexivity.
  - reflexivity.
Defined.

(** ** The drivers *)

(** X22: Once armed, the watchdog stays armed: no method, however it ends,
    clears the handle of the watchdog timer. *)
Theorem watchdog_stays_armed libs op s :
  watchdog s <> None ->
  watchdog (final (run_op libs op s)) <> None.
Proof.
  revert op s.
  change (forall op, preserves (fun s' => watchdog s' <> None) (run_op libs op)).
  preserves_everywhere libs ltac:(cbn in *; try assumption; try discriminate).
Qed.

(** A second arming that fails, after a smooth start. *)
Lemma watchdog_stays_armed_witness :
  watchdog (final (run_op all_libraries (OpInitWatchdog None)
                     after_smooth_start)) <> None.
Proof.
  apply (watchdog_stays_armed all_libraries (OpInitWatchdog None)
           after_smooth_start).
  discriminate.
Defined.

(** X23: With the libraries there, initialising the sensor or the display
    returns True exactly when the constructor and every set-up call after
    it succeeded.  A driver that was constructed is attached to the object
    even when its set-up raised and False is returned; when the
    constructor itself raised, the driver attached before, if any, stays. *)
Theorem driver_attached_despite_failed_setup libs es ed s :
  lib_scd4x libs = true ->
  lib_tm1637 libs = true ->
  let rs := init_sensor_robust libs es s in
  let rd := init_display_robust libs ed s in
  (outcome rs = Returned (is_some (si_new es) && si_stop es && si_start es) /\
   scd40 (final rs) =
     match si_new es with Some d => Some d | None => scd40 s end) /\
  (outcome rd = Returned (is_some (di_new ed) && di_brightness ed) /\
   display (final rd) =
     match di_new ed with Some d => Some d | None => display s end).
Proof.
  intros Hs Hd. cbv zeta.
  unfold init_sensor_robust, init_display_robust. rewrite Hs, Hd. cbn [negb].
  unfold try_except, bind; cbn.
  destruct (si_new es), (si_stop es), (si_start es),
    (di_new ed), (di_brightness ed); cbn; repeat split; reflexivity.
Qed.

(** A sensor that does not start replaces the working one. *)
Lemma driver_attached_despite_failed_setup_witness :
  let r := init_sensor_robust all_libraries sensor_does_not_start
             after_smooth_start in
  scd40 after_smooth_start = Some 3%nat /\
  outcome r = Returned false /\
  scd40 (final r) = Some 7%nat.
Proof.
  destruct (driver_attached_despite_failed_setup all_libraries
              sensor_does_not_start {| di_new := None; di_brightness := true |}
              after_smooth_start eq_refl eq_refl) as ((H1 & H2) & _).
  split; [ reflexivity | ]. split; [ exact H1 | exact H2 ].
Defined.

(** ** The log file *)

Lemma write_log_file_bounded e entry file bound :
  lg_remove e = true ->
  0 <= entry <= bound ->
  0 <= file_size file <= max_log_size + bound ->
  0 <= file_size (write_log_file e entry file) <= max_log_size + bound.
Proof.
  intros Hr He Hf. unfold write_log_file. rewrite Hr.
  unfold max_log_size in *.
  destruct file as [size|]; cbn [file_size] in *.
  - destruct (size >? 50000) eqn:Hs.
    + destruct (lg_open e), (lg_write e); cbn [file_size]; lia.
    + rewrite Z.gtb_ltb in Hs. apply Z.ltb_ge in Hs.
      destruct (lg_open e), (lg_write e); cbn [file_size]; lia.
  - destruct (lg_open e), (lg_write e); cbn [file_size]; lia.
Qed.

(** X24: As long as removing the file succeeds whenever it is attempted, the
    log file never grows beyond [max_log_size] plus one entry: through
    any sequence of calls of [write_log] whose entries have at most
    [bound] bytes each, whether or not the writes succeed, a file that is
    at most [max_log_size + bound] bytes long, or absent, stays so. *)
Theorem log_file_stays_bounded calls bound : forall file,
  (forall e entry, In (e, entry) calls ->
     lg_remove e = true /\ 0 <= entry <= bound) ->
  0 <= file_size file <= max_log_size + bound ->
  0 <= file_size (write_logs calls file) <= max_log_size + bound.
Proof.
  induction calls as [|[e entry] rest IH]; intros file Hcalls Hf;
    cbn [write_logs].
  - exact Hf.
  - apply IH.
    + intros e' entry' Hin. apply Hcalls. right. exact Hin.
    + destruct (Hcalls e entry (or_introl eq_refl)) as [Hr He].
      apply write_log_file_bounded; assumption.
Qed.

(** Three entries of 80, 100 and 60 bytes on a file of 49990 bytes: the
    second one finds the file above the limit and starts a new one. *)
Lemma log_file_stays_bounded_witness :
  write_logs [(log_works, 80); (log_works, 100); (log_works, 60)] (Some 49990)
    = Some 160 /\
  0 <= file_size (write_logs [(log_works, 80); (log_works, 100); (log_works, 60)]
                    (Some 49990)) <= max_log_size + 100.
Proof.
  split; [ reflexivity | ].
  apply (log_file_stays_bounded
           [(log_works, 80); (log_works, 100); (log_works, 60)] 100 (Some 49990)).
  - intros e entry Hin. cbn in Hin.
    destruct Hin as [H | [H | [H | []]]]; inversion H; subst;
      (split; [ reflexivity | lia ]).
  - cbn. unfold max_log_size. lia.
Defined.

(** ** The loop keeps running *)

Lemma ensures_returns {A} (P : Monitor -> Prop) p (m : M A) s :
  never_raises m -> never_reboots m -> preserves P m -> at_most p 0 m ->
  P s ->
  ensures m s (fun o s' evs =>
    (exists a, o = Returned a) /\ P s' /\ count_events p evs = 0%nat).
Proof.
  intros H1 H2 H3 H4 Hs. unfold ensures.
  specialize (H1 s). specialize (H2 s). specialize (H4 s).
  split; [ | split; [ apply H3, Hs | lia ] ].
  destruct (outcome (m s)) as [a| |];
    [ exists a; reflexivity | congruence | congruence ].
Qed.

(** The method about to be called returns, keeps [R] between the object
    as it was in [s0] and as the method leaves it, and emits no event of
    kind [p]; goes on with the statements after the call. *)
Ltac wp_returns R s0 p tac :=
  eapply ensures_weaken;
  [ apply (ensures_returns (R s0) p);
    [ calm | steady | preserves_with tac | quiet | ]
  | let o := fresh "o" in
    let s' := fresh "s'" in
    let evs := fresh "evs" in
    let a := fresh "a" in
    let Hk := fresh "Hk" in
    let Hn := fresh "Hn" in
    cbv beta; intros o s' evs ([a ->] & Hk & Hn); cbv beta iota ].

Lemma memory_management_steady free_mem :
  MEMORY_EMERGENCY_THRESHOLD <= free_mem ->
  never_reboots (memory_management_aggressive free_mem).
Proof.
  intros H s. rewrite memory_management_outcome.
  destruct (free_mem <? MEMORY_EMERGENCY_THRESHOLD) eqn:E;
    [ apply Z.ltb_lt in E; lia | discriminate ].
Qed.

Lemma maintenance_goes_on libs e s0 s :
  cc_isconnected (mt_conn e) <> None ->
  MEMORY_EMERGENCY_THRESHOLD <= mt_free_mem e ->
  mt_reset_now e < last_preventive_reset s0 + SYSTEM_RESET_INTERVAL ->
  loop_going s0 s ->
  ensures (run_system_maintenance libs e) s (fun o s' evs =>
    o = Returned tt /\ loop_going s0 s' /\ count_events is_led_on evs = 0%nat).
Proof.
  intros Hlink Hmem Hreset Hs.
  pose proof (check_connections_calm libs (mt_conn e) Hlink) as Hcalm.
  pose proof (memory_management_steady (mt_free_mem e) Hmem) as Hsteady.
  pose proof wifi_wait_steady as Hw.
  unfold run_system_maintenance.
  apply ensures_bind, ensures_get; cbv beta iota.
  apply ensures_bind.
  wp_returns loop_going s0 is_led_on
    ltac:(unfold loop_going in *; cbn in *; intuition congruence);
    [ exact Hs | ].
  apply ensures_bind, ensures_get; cbv beta iota.
  apply ensures_bind.
  wp_returns loop_going s0 is_led_on
    ltac:(unfold loop_going in *; cbn in *; intuition congruence);
    [ exact Hk | ].
  apply ensures_bind, ensures_get; cbv beta iota.
  apply ensures_bind.
  wp_returns loop_going s0 is_led_on
    ltac:(unfold loop_going in *; cbn in *; intuition congruence);
    [ exact Hk0 | ].
  unfold preventive_system_reset.
  apply ensures_bind, ensures_get; cbv beta iota.
  destruct Hk1 as [Hrun Hlast]. rewrite Hlast.
  replace (due (mt_reset_now e) (last_preventive_reset s0) SYSTEM_RESET_INTERVAL)
    with false by (symmetry; apply due_false; lia).
  wp. split; [ reflexivity | ]. split; [ split; assumption | ].
  rewrite ?count_events_app, Hn, Hn0, Hn1. reflexivity.
Qed.

Lemma pass_goes_on libs e s0 s :
  cc_isconnected (mt_conn (ps_maint e)) <> None ->
  MEMORY_EMERGENCY_THRESHOLD <= mt_free_mem (ps_maint e) ->
  mt_reset_now (ps_maint e) < last_preventive_reset s0 + SYSTEM_RESET_INTERVAL ->
  ps_led_on e = true -> ps_led_off e = true ->
  loop_going s0 s ->
  ensures (loop_pass libs e) s (fun o s' evs =>
    o = Returned tt /\ loop_going s0 s' /\ count_events is_led_on evs = 1%nat).
Proof.
  intros Hlink Hmem Hreset Hon Hoff Hs.
  unfold loop_pass. rewrite Hon, Hoff.
  apply ensures_bind.
  wp_returns loop_going s0 is_led_on
    ltac:(unfold loop_going in *; cbn in *; intuition congruence);
    [ exact Hs | ].
  apply ensures_bind.
  wp_returns loop_going s0 is_led_on
    ltac:(unfold loop_going in *; cbn in *; intuition congruence);
    [ exact Hk | ].
  apply ensures_bind.
  wp_returns loop_going s0 is_led_on
    ltac:(unfold loop_going in *; cbn in *; intuition congruence);
    [ exact Hk0 | ].
  apply ensures_bind.
  eapply ensures_weaken;
    [ apply (maintenance_goes_on libs (ps_maint e) s0); assumption | ].
  cbv beta. intros o s4 evs4 (-> & Hk4 & Hn4).
  wp. split; [ reflexivity | ]. split; [ exact Hk4 | ].
  rewrite ?count_events_app, Hn, Hn0, Hn1, Hn4. reflexivity.
Qed.

Lemma main_while_goes_on libs s0 passes : forall s,
  (forall e, In e passes ->
     cc_isconnected (mt_conn (ps_maint e)) <> None /\
     MEMORY_EMERGENCY_THRESHOLD <= mt_free_mem (ps_maint e) /\
     mt_reset_now (ps_maint e) < last_preventive_reset s0 + SYSTEM_RESET_INTERVAL /\
     ps_led_on e = true /\ ps_led_off e = true) ->
  loop_going s0 s ->
  ensures (main_while libs passes) s (fun o s' evs =>
    o = Returned tt /\ loop_going s0 s' /\
    count_events is_led_on evs = List.length passes).
Proof.
  induction passes as [|e rest IH]; intros s Hpasses Hs; cbn [main_while].
  - wp. auto.
  - apply ensures_bind, ensures_get; cbv beta iota.
    destruct Hs as [Hrun Hlast]. rewrite Hrun.
    destruct (Hpasses e (or_introl eq_refl))
      as (Hlink & Hmem & Hreset & Hon & Hoff).
    apply ensures_bind.
    eapply ensures_weaken;
      [ apply (pass_goes_on libs e s0); try assumption; split; assumption | ].
    cbv beta. intros o s1 evs1 (-> & Hk1 & Hn1).
    eapply ensures_weaken;
      [ apply IH; [ intros e' Hin; apply Hpasses; right; exact Hin | exact Hk1 ] | ].
    cbv beta. intros o s2 evs2 (-> & Hk2 & Hn2).
    split; [ reflexivity | ]. split; [ exact Hk2 | ].
    rewrite ?count_events_app, Hn1, Hn2. reflexivity.
Qed.

(** X26: The main loop goes on whatever the sensor, the display, the
    broker, the link and the clock synchronisation do, as long as the
    three calls outside any [try] return.  Started on an object on which
    [system_running] is set, with at least [MEMORY_EMERGENCY_THRESHOLD]
    bytes free at every memory check, the test of the link answering and
    the two calls of the LED returning in every pass, and the clock of the
    preventive reset less than [SYSTEM_RESET_INTERVAL] past
    [last_preventive_reset], it completes the initialisation and every
    pass: no exception ends it, it does not reboot, and the LED is
    switched on once per pass. *)
Theorem loop_keeps_running libs ie passes s :
  system_running s = true ->
  MEMORY_EMERGENCY_THRESHOLD <= in_free_mem ie ->
  (forall e, In e passes ->
     cc_isconnected (mt_conn (ps_maint e)) <> None /\
     MEMORY_EMERGENCY_THRESHOLD <= mt_free_mem (ps_maint e) /\
     mt_reset_now (ps_maint e) < last_preventive_reset s + SYSTEM_RESET_INTERVAL /\
     ps_led_on e = true /\ ps_led_off e = true) ->
  let r := production_main_loop libs ie passes s in
  outcome r = Returned tt /\
  count_events is_led_on (out r) = List.length passes.
Proof.
  intros Hrun Hmem Hpasses r. subst r.
  pose proof (memory_management_steady (in_free_mem ie) Hmem) as Hsteady.
  pose proof wifi_wait_steady as Hw.
  assert (Hs : loop_going s s) by (split; [ exact Hrun | reflexivity ]).
  change (ensures (production_main_loop libs ie passes) s (fun o _ evs =>
    o = Returned tt /\ count_events is_led_on evs = List.length passes)).
  unfold production_main_loop.
  apply ensures_bind.
  wp_returns loop_going s is_led_on
    ltac:(unfold loop_going in *; cbn in *; intuition congruence);
    [ exact Hs | ].
  apply ensures_try.
  eapply ensures_weaken;
    [ apply (main_while_goes_on libs s passes); assumption | ].
  cbv beta. intros o s2 evs2 (-> & _ & Hn2).
  split; [ reflexivity | ].
  rewrite ?count_events_app, Hn, Hn2. reflexivity.
Qed.

(** A rough start and three passes in which nothing works. *)
Lemma loop_keeps_running_witness :
  let r := production_main_loop all_libraries rough_start
             [pass_in_trouble 1001; pass_in_trouble 1400; pass_in_trouble 5000]
             (init_monitor 990) in
  outcome r = Returned tt /\
  count_events is_led_on (out r) = 3%nat.
Proof.
  apply (loop_keeps_running all_libraries rough_start
           [pass_in_trouble 1001; pass_in_trouble 1400; pass_in_trouble 5000]
           (init_monitor 990)).
  - reflexivity.
  - cbn. unfold MEMORY_EMERGENCY_THRESHOLD. lia.
  - intros e Hin. cbn in Hin.
    destruct Hin as [<- | [<- | [<- | []]]];
      (split; [ discriminate | ]);
      (split; [ cbn; unfold MEMORY_EMERGENCY_THRESHOLD; lia | ]);
      (split; [ cbn; unfold SYSTEM_RESET_INTERVAL; lia | ]);
      split; reflexivity.
Defined.
